(** * HRNet (ppcls/arch/backbone/legendary_models/hrnet.py)

    A shallow embedding of the HRNet backbone definition.

    - Constructors ([__init__]) are computations in [Ctor], a state and
      exception monad.  The state is an allocation counter: every framework
      layer object that owns parameters ([nn.Conv2D], [nn.BatchNorm],
      [nn.Linear]) receives a fresh object identity, so two layers built with
      the same hyper-parameters remain distinct objects with their own
      parameters.  Exceptions are the Python exceptions the code of the file
      raises itself (list indexing, dict lookup, float division, [math.sqrt],
      keyword clashes, calling an object that is not callable) and the
      [AssertionError] of the two assertions of the framework that the
      constructors of the file run into: a sub-layer added to a container
      must be a layer, and a parameter must have positive dimensions.  Both
      are [assert] statements, which the interpreter executes unless it was
      started with [-O]; the interpreter mode is the class [Interpreter].
    - [forward] methods are written once, over an arbitrary monad [m] with
      exceptions and an arbitrary tensor type; the framework operations they
      call (convolution, batch normalisation, pooling, ...) are the methods of
      the class [Paddle].  The framework is not part of the file: its
      operations are parameters.
    - Of the framework's constructors, [nn.Linear] and [nn.Sequential] are
      modelled with the assertions above.  The other checks the framework
      makes on the arguments of [nn.Conv2D] and [nn.BatchNorm], and its
      process-wide check that a parameter name is used once, are not
      modelled: a construction is that of a process in which the parameter
      names of the network are not yet in use.
    - Calling a layer is modelled as calling its [forward]; the unused
      [res_dict] argument of every [forward] is dropped. *)

From Stdlib Require Import String ZArith List Lia Bool Arith DecimalString.
From Stdlib Require Import Reals Lra.
From ExtLib Require Import Structures.Monad Structures.MonadState Structures.MonadExc.
From ExtLib Require Import Data.Monads.StateMonad Data.Monads.EitherMonad.
Import ListNotations.
Import MonadNotation.
#[local] Open Scope monad_scope.
#[local] Open Scope string_scope.
#[local] Open Scope list_scope.
#[local] Open Scope Z_scope.
#[local] Existing Instance Monad_stateT.

(** ** Python runtime *)

Inductive PyExc : Type :=
| AssertionError
| AttributeError
| IndexError
| KeyError
| TypeError
| ValueError
| ZeroDivisionError.

(** Constructor computations: allocation counter plus exceptions. *)
Definition Ctor : Type -> Type := stateT nat (sum PyExc).

(** A new object identity. *)
Definition fresh : Ctor nat :=
  n <- get ;; put (S n) ;; ret n.

(** The interpreter mode: [__debug__] is [True] unless the interpreter was
    started with [-O], and [assert] statements are executed only when it is. *)
Class Interpreter : Type := { __debug__ : bool }.

(** The default interpreter, and the interpreter started with [-O]. *)
Definition python : Interpreter := {| __debug__ := true |}.
Definition python_O : Interpreter := {| __debug__ := false |}.

(** [assert cond] *)
Definition py_assert {py : Interpreter} (cond : bool) : Ctor unit :=
  if __debug__ && negb cond then raise AssertionError else ret tt.

(** Whether a computation returned rather than raised. *)
Definition returns {A : Type} (r : PyExc + A) : bool :=
  match r with
  | inr _ => true
  | inl _ => false
  end.

(** [str(n)] for a non-negative integer. *)
Definition str (n : nat) : string := NilZero.string_of_uint (Nat.to_uint n).

(** [range(n)] *)
Definition range (n : nat) : list nat := seq 0 n.

(** [range(n)] for a Python integer, empty when [n <= 0]. *)
Definition rangeZ (n : Z) : list nat := range (Z.to_nat n).

(** [enumerate(l)] *)
Definition enumerate {A : Type} (l : list A) : list (nat * A) :=
  combine (range (length l)) l.

(** [d[k] = v] on a dict kept in insertion order. *)
Fixpoint dict_set {V : Type} (d : list (string * V)) (k : string) (v : V)
  : list (string * V) :=
  match d with
  | [] => [(k, v)]
  | (k', v') :: d' =>
      if String.eqb k' k then (k', v) :: d' else (k', v') :: dict_set d' k v
  end.

(** [self.add_sublayer(name, sublayer)] on a layer of the file returns
    [sublayer]: at each of these calls the argument is a layer, so the
    assertion of the framework passes.  The registry of named sub-layers it
    fills is read by no code of the file and is not modelled. *)
Definition add_sublayer {A : Type} (name : string) (sublayer : A) : A := sublayer.

(** Iterating a dict, as [*d] does, yields its keys. *)
Definition dict_keys {V : Type} (d : list (string * V)) : list string :=
  map fst d.

Section Python.
Context {m : Type -> Type} {Mm : Monad m} {Em : MonadExc PyExc m}.

(** [l[i]] for [i >= 0] *)
Definition getitem {A : Type} (l : list A) (i : nat) : m A :=
  match nth_error l i with
  | Some a => ret a
  | None => raise IndexError
  end.

(** Reading an attribute that is assigned only under a condition: it raises
    when the attribute was never assigned. *)
Definition getattr {A : Type} (a : option A) : m A :=
  match a with
  | Some x => ret x
  | None => raise AttributeError
  end.

(** [l[-1]] *)
Definition getitem_last {A : Type} (l : list A) : m A :=
  getitem l (length l - 1)%nat.

(** [for a in l: s = body a s], the loop state [s] holding the variables the
    body assigns. *)
Fixpoint foldM {A St : Type} (body : A -> St -> m St) (l : list A) (s : St) : m St :=
  match l with
  | [] => ret s
  | a :: l' => s' <- body a s ;; foldM body l' s'
  end.

End Python.

(** [int(a / b)] on integers: true division, then truncation towards zero.
    (The quotient goes through a float; it is exact at the magnitudes of
    channel counts.) *)
Definition int_truediv (a b : Z) : Ctor Z :=
  if b =? 0 then raise ZeroDivisionError else ret (Z.quot a b).

(** [1.0 / math.sqrt(x * 1.0)]: only whether it raises is modelled; the value
    feeds the parameter initialiser alone. *)
Definition inv_sqrt (x : Z) : Ctor unit :=
  if x <? 0 then raise ValueError
  else if x =? 0 then raise ZeroDivisionError
  else ret tt.

(** ** Framework layer objects *)

Module nn.

Record Conv2D : Type := {
  conv_id : nat;
  in_channels : Z;
  out_channels : Z;
  kernel_size : Z;
  stride : Z;
  padding : Z;
  groups : Z;
  bias_attr : bool
}.

Record BatchNorm : Type := {
  bn_id : nat;
  num_channels : Z;
  act : option string
}.

Record Linear : Type := {
  fc_id : nat;
  in_features : Z;
  out_features : Z;
  weight_attr : string;
  bias_attr_name : string
}.

Record AdaptiveAvgPool2D : Type := {
  output_size : Z
}.

(** An object given where a sub-layer is expected: a layer (of type [L]), or
    a string, the only other kind of object the file passes. *)
Inductive PyObject (L : Type) : Type :=
| PyLayer (l : L)
| PyStr (s : string).
Arguments PyLayer {L} l.
Arguments PyStr {L} s.

(** [isinstance(o, Layer)] *)
Definition isinstance_Layer {L : Type} (o : PyObject L) : bool :=
  match o with
  | PyLayer _ => true
  | PyStr _ => false
  end.

(** [nn.Sequential]: the container and its ordered dict of named
    sub-layers. *)
Record Sequential (L : Type) : Type := {
  _sub_layers : list (string * PyObject L)
}.
Arguments _sub_layers {L} s.

Definition Conv2D_new (in_channels out_channels kernel_size stride padding groups : Z)
  (bias_attr : bool) : Ctor Conv2D :=
  id <- fresh ;;
  ret {| conv_id := id; in_channels := in_channels; out_channels := out_channels;
         kernel_size := kernel_size; stride := stride; padding := padding;
         groups := groups; bias_attr := bias_attr |}.

Definition BatchNorm_new (num_channels : Z) (act : option string) : Ctor BatchNorm :=
  id <- fresh ;;
  ret {| bn_id := id; num_channels := num_channels; act := act |}.

(** [nn.Linear(in_features, out_features, weight_attr=ParamAttr(name=..),
    bias_attr=ParamAttr(name=..))] creates a weight of shape
    [[in_features, out_features]] and a bias of shape [[out_features]];
    creating a parameter asserts that each of its dimensions is positive. *)
Definition Linear_new {py : Interpreter} (in_features out_features : Z)
  (weight_attr bias_attr : string) : Ctor Linear :=
  py_assert ((0 <? in_features) && (0 <? out_features)) ;;
  id <- fresh ;;
  ret {| fc_id := id; in_features := in_features; out_features := out_features;
         weight_attr := weight_attr; bias_attr_name := bias_attr |}.

(** [nn.Sequential] called with positional arguments that are not tuples:
    [add_sublayer(str(idx), layer)] for each of them, in order;
    [add_sublayer] asserts [isinstance(sublayer, Layer) or sublayer is None]
    before it stores the sub-layer. *)
Definition Sequential_new {py : Interpreter} {L : Type} (layers : list (PyObject L))
  : Ctor (Sequential L) :=
  sub_layers <- foldM (fun '(idx, layer) sub_layers =>
      py_assert (isinstance_Layer layer) ;;
      ret (dict_set sub_layers (str idx) layer))
    (enumerate layers) [] ;;
  ret {| _sub_layers := sub_layers |}.

(** Iterating a [Sequential] yields its sub-layers in order. *)
Definition Sequential_values {L : Type} (s : Sequential L) : list (PyObject L) :=
  map snd (_sub_layers s).

End nn.

(** The framework operations used by the [forward] methods. *)
Class Paddle (m : Type -> Type) (Tensor : Type) : Type := {
  Conv2D_call : nn.Conv2D -> Tensor -> m Tensor;
  BatchNorm_call : nn.BatchNorm -> Tensor -> m Tensor;
  Linear_call : nn.Linear -> Tensor -> m Tensor;
  AdaptiveAvgPool2D_call : nn.AdaptiveAvgPool2D -> Tensor -> m Tensor;
  paddle_add : Tensor -> Tensor -> m Tensor;
  paddle_squeeze : Tensor -> list Z -> m Tensor;
  paddle_unsqueeze : Tensor -> list Z -> m Tensor;
  paddle_reshape : Tensor -> list Z -> m Tensor;
  (** [a * b] on tensors *)
  Tensor_mul : Tensor -> Tensor -> m Tensor;
  (** [t.shape] *)
  Tensor_shape : Tensor -> m (list Z);
  F_relu : Tensor -> m Tensor;
  F_sigmoid : Tensor -> m Tensor;
  (** [F.upsample(t, scale_factor=s, mode=mode)] *)
  F_upsample : Tensor -> Z -> string -> m Tensor
}.

(** ** ConvBNLayer *)

Module ConvBNLayer.

Record t : Type := {
  _conv : nn.Conv2D;
  _batch_norm : nn.BatchNorm
}.

(** Defaults of the source: [stride=1], [groups=1], [act="relu"]. *)
Definition init (num_channels num_filters filter_size stride groups : Z)
  (act : option string) : Ctor t :=
  conv <- nn.Conv2D_new num_channels num_filters filter_size stride
            ((filter_size - 1) / 2) groups false ;;
  bn <- nn.BatchNorm_new num_filters act ;;
  ret {| _conv := conv; _batch_norm := bn |}.

Section Forward.
Context {m : Type -> Type} {Mm : Monad m} {Em : MonadExc PyExc m}.
Context {Tensor : Type} {P : Paddle m Tensor}.

Definition forward (self : t) (x : Tensor) : m Tensor :=
  y <- Conv2D_call self.(_conv) x ;;
  y <- BatchNorm_call self.(_batch_norm) y ;;
  ret y.

End Forward.

End ConvBNLayer.

(** ** SELayer *)

Module SELayer.

Record t : Type := {
  pool2d_gap : nn.AdaptiveAvgPool2D;
  _num_channels : Z;
  squeeze : nn.Linear;
  excitation : nn.Linear
}.

Definition init {py : Interpreter} (num_channels num_filters reduction_ratio : Z)
  (name : string) : Ctor t :=
  let pool2d_gap := {| nn.output_size := 1 |} in
  med_ch <- int_truediv num_channels reduction_ratio ;;
  inv_sqrt num_channels ;;
  squeeze <- nn.Linear_new num_channels med_ch
               (name ++ "_sqz_weights")%string (name ++ "_sqz_offset")%string ;;
  inv_sqrt med_ch ;;
  excitation <- nn.Linear_new med_ch num_filters
                  (name ++ "_exc_weights")%string (name ++ "_exc_offset")%string ;;
  ret {| pool2d_gap := pool2d_gap; _num_channels := num_channels;
         squeeze := squeeze; excitation := excitation |}.

Section Forward.
Context {m : Type -> Type} {Mm : Monad m} {Em : MonadExc PyExc m}.
Context {Tensor : Type} {P : Paddle m Tensor}.

Definition forward (self : t) (input : Tensor) : m Tensor :=
  pool <- AdaptiveAvgPool2D_call self.(pool2d_gap) input ;;
  pool <- paddle_squeeze pool [2; 3] ;;
  squeeze <- Linear_call self.(squeeze) pool ;;
  squeeze <- F_relu squeeze ;;
  excitation <- Linear_call self.(excitation) squeeze ;;
  excitation <- F_sigmoid excitation ;;
  excitation <- paddle_unsqueeze excitation [2; 3] ;;
  out <- Tensor_mul input excitation ;;
  ret out.

End Forward.

End SELayer.

(** ** BottleneckBlock *)

Module BottleneckBlock.

Record t : Type := {
  has_se : bool;
  downsample : bool;
  conv1 : ConvBNLayer.t;
  conv2 : ConvBNLayer.t;
  conv3 : ConvBNLayer.t;
  (** the attributes [conv_down] and [se] exist only when they are assigned *)
  conv_down : option ConvBNLayer.t;
  se : option SELayer.t
}.

(** Defaults of the source: [stride=1], [downsample=False]. *)
Definition init {py : Interpreter} (num_channels num_filters : Z) (has_se : bool)
  (stride : Z) (downsample : bool) (name : string) : Ctor t :=
  conv1 <- ConvBNLayer.init num_channels num_filters 1 1 1 (Some "relu") ;;
  conv2 <- ConvBNLayer.init num_filters num_filters 3 stride 1 (Some "relu") ;;
  conv3 <- ConvBNLayer.init num_filters (num_filters * 4) 1 1 1 None ;;
  conv_down <-
    (if downsample
     then c <- ConvBNLayer.init num_channels (num_filters * 4) 1 1 1 None ;;
          ret (Some c)
     else ret None) ;;
  se <-
    (if has_se
     then s <- SELayer.init (num_filters * 4) (num_filters * 4) 16 ("fc" ++ name)%string ;;
          ret (Some s)
     else ret None) ;;
  ret {| has_se := has_se; downsample := downsample; conv1 := conv1;
         conv2 := conv2; conv3 := conv3; conv_down := conv_down; se := se |}.

Section Forward.
Context {m : Type -> Type} {Mm : Monad m} {Em : MonadExc PyExc m}.
Context {Tensor : Type} {P : Paddle m Tensor}.

Definition forward (self : t) (x : Tensor) : m Tensor :=
  let residual := x in
  conv1 <- ConvBNLayer.forward self.(conv1) x ;;
  conv2 <- ConvBNLayer.forward self.(conv2) conv1 ;;
  conv3 <- ConvBNLayer.forward self.(conv3) conv2 ;;
  residual <-
    (if self.(downsample)
     then f <- getattr self.(conv_down) ;; ConvBNLayer.forward f x
     else ret residual) ;;
  conv3 <-
    (if self.(has_se)
     then f <- getattr self.(se) ;; SELayer.forward f conv3
     else ret conv3) ;;
  y <- paddle_add residual conv3 ;;
  y <- F_relu y ;;
  ret y.

End Forward.

End BottleneckBlock.

(** ** BasicBlock *)

Module BasicBlock.

Record t : Type := {
  has_se : bool;
  downsample : bool;
  conv1 : ConvBNLayer.t;
  conv2 : ConvBNLayer.t;
  conv_down : option ConvBNLayer.t;
  se : option SELayer.t
}.

(** Defaults of the source: [stride=1], [has_se=False], [downsample=False]. *)
Definition init {py : Interpreter} (num_channels num_filters stride : Z)
  (has_se downsample : bool) (name : string) : Ctor t :=
  conv1 <- ConvBNLayer.init num_channels num_filters 3 stride 1 (Some "relu") ;;
  conv2 <- ConvBNLayer.init num_filters num_filters 3 1 1 None ;;
  conv_down <-
    (if downsample
     then c <- ConvBNLayer.init num_channels (num_filters * 4) 1 1 1 (Some "relu") ;;
          ret (Some c)
     else ret None) ;;
  se <-
    (if has_se
     then s <- SELayer.init num_filters num_filters 16 ("fc" ++ name)%string ;;
          ret (Some s)
     else ret None) ;;
  ret {| has_se := has_se; downsample := downsample; conv1 := conv1;
         conv2 := conv2; conv_down := conv_down; se := se |}.

Section Forward.
Context {m : Type -> Type} {Mm : Monad m} {Em : MonadExc PyExc m}.
Context {Tensor : Type} {P : Paddle m Tensor}.

Definition forward (self : t) (input : Tensor) : m Tensor :=
  let residual := input in
  conv1 <- ConvBNLayer.forward self.(conv1) input ;;
  conv2 <- ConvBNLayer.forward self.(conv2) conv1 ;;
  residual <-
    (if self.(downsample)
     then f <- getattr self.(conv_down) ;; ConvBNLayer.forward f input
     else ret residual) ;;
  conv2 <-
    (if self.(has_se)
     then f <- getattr self.(se) ;; SELayer.forward f conv2
     else ret conv2) ;;
  y <- paddle_add residual conv2 ;;
  y <- F_relu y ;;
  ret y.

End Forward.

End BasicBlock.

(** ** Layer1 *)

Module Layer1.

Record t : Type := {
  bottleneck_block_list : nn.Sequential BottleneckBlock.t
}.

(** The argument of [nn.Sequential] is a dict comprehension unpacked with a
    star: the four blocks are built as the values of the dict, and the
    container is given the keys, which are strings. *)
Definition init {py : Interpreter} (num_channels : Z) (has_se : bool) (name : string)
  : Ctor t :=
  d <- foldM (fun i d =>
         let key := ("bb_" ++ name ++ "_" ++ str (i + 1))%string in
         b <- BottleneckBlock.init (if (i =? 0)%nat then num_channels else 256) 64
                has_se 1 (if (i =? 0)%nat then true else false)
                (name ++ "_" ++ str (i + 1))%string ;;
         ret (dict_set d key b))
       (range 4) [] ;;
  bottleneck_block_list <- nn.Sequential_new (map nn.PyStr (dict_keys d)) ;;
  ret {| bottleneck_block_list := bottleneck_block_list |}.

Section Forward.
Context {m : Type -> Type} {Mm : Monad m} {Em : MonadExc PyExc m}.
Context {Tensor : Type} {P : Paddle m Tensor}.

(** [block_func(y)]: calling a layer runs its [forward]; a string is not
    callable. *)
Definition call (block_func : nn.PyObject BottleneckBlock.t) (y : Tensor) : m Tensor :=
  match block_func with
  | nn.PyLayer b => BottleneckBlock.forward b y
  | nn.PyStr _ => raise TypeError
  end.

Definition forward (self : t) (x : Tensor) : m Tensor :=
  let y := x in
  foldM (fun block_func y => call block_func y)
    (nn.Sequential_values self.(bottleneck_block_list)) y.

End Forward.

End Layer1.

(** ** TransitionLayer *)

Module TransitionLayer.

Record t : Type := {
  (** [None] entries are kept: the branch is passed through *)
  conv_bn_func_list : list (option ConvBNLayer.t)
}.

Definition init (in_channels out_channels : list Z) (name : string) : Ctor t :=
  let num_in := length in_channels in
  let num_out := length out_channels in
  conv_bn_func_list <- foldM (fun i conv_bn_func_list =>
      residual <-
        (if (i <? num_in)%nat then
           in_i <- getitem in_channels i ;;
           out_i <- getitem out_channels i ;;
           if negb (in_i =? out_i) then
             c <- ConvBNLayer.init in_i out_i 3 1 1 (Some "relu") ;;
             ret (Some (add_sublayer
                          ("transition_" ++ name ++ "_layer_" ++ str (i + 1))%string c))
           else ret None
         else
           in_last <- getitem_last in_channels ;;
           out_i <- getitem out_channels i ;;
           c <- ConvBNLayer.init in_last out_i 3 2 1 (Some "relu") ;;
           ret (Some (add_sublayer
                        ("transition_" ++ name ++ "_layer_" ++ str (i + 1))%string c))) ;;
      ret (conv_bn_func_list ++ [residual]))
    (range num_out) [] ;;
  ret {| conv_bn_func_list := conv_bn_func_list |}.

Section Forward.
Context {m : Type -> Type} {Mm : Monad m} {Em : MonadExc PyExc m}.
Context {Tensor : Type} {P : Paddle m Tensor}.

Definition forward (self : t) (x : list Tensor) : m (list Tensor) :=
  foldM (fun '(idx, conv_bn_func) outs =>
      match conv_bn_func with
      | None =>
          x_idx <- getitem x idx ;;
          ret (outs ++ [x_idx])
      | Some conv_bn_func =>
          if (idx <? length x)%nat then
            x_idx <- getitem x idx ;;
            y <- ConvBNLayer.forward conv_bn_func x_idx ;;
            ret (outs ++ [y])
          else
            x_last <- getitem_last x ;;
            y <- ConvBNLayer.forward conv_bn_func x_last ;;
            ret (outs ++ [y])
      end)
    (enumerate self.(conv_bn_func_list)) [].

End Forward.

End TransitionLayer.

(** ** Branches *)

Module Branches.

Record t : Type := {
  basic_block_list : list (list BasicBlock.t)
}.

(** [basic_block_list[i].append(b)] *)
Definition append_at {A : Type} (ll : list (list A)) (i : nat) (a : A)
  : Ctor (list (list A)) :=
  l <- getitem ll i ;;
  ret (firstn i ll ++ (l ++ [a]) :: skipn (S i) ll).

Definition init {py : Interpreter} (block_num : Z) (in_channels out_channels : list Z)
  (has_se : bool) (name : string) : Ctor t :=
  basic_block_list <- foldM (fun i basic_block_list =>
      let basic_block_list := basic_block_list ++ [[]] in
      foldM (fun j basic_block_list =>
          in_ch <- (if (j =? 0)%nat then getitem in_channels i
                    else getitem out_channels i) ;;
          out_i <- getitem out_channels i ;;
          b <- BasicBlock.init in_ch out_i 1 has_se false
                 (name ++ "_branch_layer_" ++ str (i + 1) ++ "_" ++ str (j + 1))%string ;;
          let basic_block_func :=
            add_sublayer
              ("bb_" ++ name ++ "_branch_layer_" ++ str (i + 1) ++ "_" ++ str (j + 1))%string
              b in
          append_at basic_block_list i basic_block_func)
        (rangeZ block_num) basic_block_list)
    (range (length out_channels)) [] ;;
  ret {| basic_block_list := basic_block_list |}.

(** Every basic block of the branches. *)
Definition basic_blocks (self : t) : list BasicBlock.t :=
  concat self.(basic_block_list).

Section Forward.
Context {m : Type -> Type} {Mm : Monad m} {Em : MonadExc PyExc m}.
Context {Tensor : Type} {P : Paddle m Tensor}.

Definition forward (self : t) (x : list Tensor) : m (list Tensor) :=
  foldM (fun '(idx, xi) outs =>
      let conv := xi in
      basic_block_list <- getitem self.(basic_block_list) idx ;;
      conv <- foldM (fun basic_block_func conv =>
                BasicBlock.forward basic_block_func conv)
              basic_block_list conv ;;
      ret (outs ++ [conv]))
    (enumerate x) [].

End Forward.

End Branches.

(** ** FuseLayers *)

Module FuseLayers.

Record t : Type := {
  _actual_ch : nat;
  _in_channels : list Z;
  residual_func_list : list ConvBNLayer.t
}.

Definition init (in_channels out_channels : list Z) (multi_scale_output : bool)
  (name : string) : Ctor t :=
  let _actual_ch := if multi_scale_output then length in_channels else 1%nat in
  residual_func_list <- foldM (fun i residual_func_list =>
      foldM (fun j residual_func_list =>
          if (i <? j)%nat then
            in_j <- getitem in_channels j ;;
            out_i <- getitem out_channels i ;;
            c <- ConvBNLayer.init in_j out_i 1 1 1 None ;;
            let residual_func :=
              add_sublayer
                ("residual_" ++ name ++ "_layer_" ++ str (i + 1) ++ "_" ++ str (j + 1))%string
                c in
            ret (residual_func_list ++ [residual_func])
          else if (j <? i)%nat then
            pre_num_filters <- getitem in_channels j ;;
            '(_, residual_func_list) <-
              foldM (fun k '(pre_num_filters, residual_func_list) =>
                  let sub_name :=
                    ("residual_" ++ name ++ "_layer_" ++ str (i + 1) ++ "_"
                       ++ str (j + 1) ++ "_" ++ str (k + 1))%string in
                  if (k =? i - j - 1)%nat then
                    out_i <- getitem out_channels i ;;
                    c <- ConvBNLayer.init pre_num_filters out_i 3 2 1 None ;;
                    let residual_func := add_sublayer sub_name c in
                    let pre_num_filters := out_i in
                    ret (pre_num_filters, residual_func_list ++ [residual_func])
                  else
                    out_j <- getitem out_channels j ;;
                    c <- ConvBNLayer.init pre_num_filters out_j 3 2 1 (Some "relu") ;;
                    let residual_func := add_sublayer sub_name c in
                    let pre_num_filters := out_j in
                    ret (pre_num_filters, residual_func_list ++ [residual_func]))
                (range (i - j)) (pre_num_filters, residual_func_list) ;;
            ret residual_func_list
          else ret residual_func_list)
        (range (length in_channels)) residual_func_list)
    (range _actual_ch) [] ;;
  ret {| _actual_ch := _actual_ch; _in_channels := in_channels;
         residual_func_list := residual_func_list |}.

Section Forward.
Context {m : Type -> Type} {Mm : Monad m} {Em : MonadExc PyExc m}.
Context {Tensor : Type} {P : Paddle m Tensor}.

(** The body of the loop over [k]: one more layer of a down-sampling chain. *)
Definition forward_k (self : t) (k : nat) (st : Tensor * nat) : m (Tensor * nat) :=
  let '(y, residual_func_idx) := st in
  f <- getitem self.(residual_func_list) residual_func_idx ;;
  y <- ConvBNLayer.forward f y ;;
  ret (y, (residual_func_idx + 1)%nat).

(** The body of the loop over [j]: the contribution of branch [j] to output [i]. *)
Definition forward_j (self : t) (input : list Tensor) (i j : nat) (st : Tensor * nat)
  : m (Tensor * nat) :=
  let '(residual, residual_func_idx) := st in
  if (i <? j)%nat then
    f <- getitem self.(residual_func_list) residual_func_idx ;;
    input_j <- getitem input j ;;
    y <- ConvBNLayer.forward f input_j ;;
    let residual_func_idx := (residual_func_idx + 1)%nat in
    y <- F_upsample y (2 ^ Z.of_nat (j - i)) "nearest" ;;
    residual <- paddle_add residual y ;;
    ret (residual, residual_func_idx)
  else if (j <? i)%nat then
    y <- getitem input j ;;
    '(y, residual_func_idx) <-
      foldM (forward_k self) (range (i - j)) (y, residual_func_idx) ;;
    residual <- paddle_add residual y ;;
    ret (residual, residual_func_idx)
  else ret (residual, residual_func_idx).

(** The body of the loop over [i]: output [i]. *)
Definition forward_i (self : t) (input : list Tensor) (i : nat)
  (st : list Tensor * nat) : m (list Tensor * nat) :=
  let '(outs, residual_func_idx) := st in
  residual <- getitem input i ;;
  '(residual, residual_func_idx) <-
    foldM (forward_j self input i) (range (length self.(_in_channels)))
      (residual, residual_func_idx) ;;
  residual <- F_relu residual ;;
  ret (outs ++ [residual], residual_func_idx).

Definition forward (self : t) (input : list Tensor) : m (list Tensor) :=
  '(outs, _) <- foldM (forward_i self input) (range self.(_actual_ch)) ([], 0%nat) ;;
  ret outs.

End Forward.

End FuseLayers.

(** ** HighResolutionModule *)

Module HighResolutionModule.

Record t : Type := {
  branches_func : Branches.t;
  fuse_func : FuseLayers.t
}.

(** Defaults of the source: [has_se=False], [multi_scale_output=True]. *)
Definition init {py : Interpreter} (num_channels num_filters : list Z)
  (has_se multi_scale_output : bool) (name : string) : Ctor t :=
  branches_func <- Branches.init 4 num_channels num_filters has_se name ;;
  fuse_func <- FuseLayers.init num_filters num_filters multi_scale_output name ;;
  ret {| branches_func := branches_func; fuse_func := fuse_func |}.

Definition basic_blocks (self : t) : list BasicBlock.t :=
  Branches.basic_blocks self.(branches_func).

Section Forward.
Context {m : Type -> Type} {Mm : Monad m} {Em : MonadExc PyExc m}.
Context {Tensor : Type} {P : Paddle m Tensor}.

Definition forward (self : t) (input : list Tensor) : m (list Tensor) :=
  out <- Branches.forward self.(branches_func) input ;;
  out <- FuseLayers.forward self.(fuse_func) out ;;
  ret out.

End Forward.

End HighResolutionModule.

(** ** Stage *)

Module Stage.

Record t : Type := {
  _num_modules : Z;
  stage_func_list : list HighResolutionModule.t
}.

(** Defaults of the source: [has_se=False], [multi_scale_output=True]. *)
Definition init {py : Interpreter} (num_channels : list Z) (num_modules : Z)
  (num_filters : list Z) (has_se multi_scale_output : bool) (name : string) : Ctor t :=
  stage_func_list <- foldM (fun i stage_func_list =>
      let sub_name := ("stage_" ++ name ++ "_" ++ str (i + 1))%string in
      stage_func <-
        (if (Z.of_nat i =? num_modules - 1) && negb multi_scale_output then
           h <- HighResolutionModule.init num_channels num_filters has_se false
                  (name ++ "_" ++ str (i + 1))%string ;;
           ret (add_sublayer sub_name h)
         else
           h <- HighResolutionModule.init num_channels num_filters has_se true
                  (name ++ "_" ++ str (i + 1))%string ;;
           ret (add_sublayer sub_name h)) ;;
      ret (stage_func_list ++ [stage_func]))
    (rangeZ num_modules) [] ;;
  ret {| _num_modules := num_modules; stage_func_list := stage_func_list |}.

Definition basic_blocks (self : t) : list BasicBlock.t :=
  flat_map HighResolutionModule.basic_blocks self.(stage_func_list).

Section Forward.
Context {m : Type -> Type} {Mm : Monad m} {Em : MonadExc PyExc m}.
Context {Tensor : Type} {P : Paddle m Tensor}.

Definition forward (self : t) (input : list Tensor) : m (list Tensor) :=
  let out := input in
  foldM (fun idx out =>
      stage_func <- getitem self.(stage_func_list) idx ;;
      HighResolutionModule.forward stage_func out)
    (rangeZ self.(_num_modules)) out.

End Forward.

End Stage.

(** ** LastClsOut *)

Module LastClsOut.

Record t : Type := {
  func_list : list BottleneckBlock.t
}.

(** Default of the source: [num_filters_list=[32, 64, 128, 256]]. *)
Definition init {py : Interpreter} (num_channel_list : list Z) (has_se : bool)
  (num_filters_list : list Z) (name : string) : Ctor t :=
  func_list <- foldM (fun idx func_list =>
      in_idx <- getitem num_channel_list idx ;;
      nf_idx <- getitem num_filters_list idx ;;
      b <- BottleneckBlock.init in_idx nf_idx has_se 1 true
             (name ++ "conv_" ++ str (idx + 1))%string ;;
      let func :=
        add_sublayer ("conv_" ++ name ++ "_conv_" ++ str (idx + 1))%string b in
      ret (func_list ++ [func]))
    (range (length num_channel_list)) [] ;;
  ret {| func_list := func_list |}.

Section Forward.
Context {m : Type -> Type} {Mm : Monad m} {Em : MonadExc PyExc m}.
Context {Tensor : Type} {P : Paddle m Tensor}.

Definition forward (self : t) (inputs : list Tensor) : m (list Tensor) :=
  foldM (fun '(idx, input) outs =>
      func <- getitem self.(func_list) idx ;;
      out <- BottleneckBlock.forward func input ;;
      ret (outs ++ [out]))
    (enumerate inputs) [].

End Forward.

End LastClsOut.

(** ** HRNet *)

Module HRNet.

(** The dict [self.channels]. *)
Definition channels : list (Z * list (list Z)) :=
  [ (18, [[18; 36]; [18; 36; 72]; [18; 36; 72; 144]]);
    (30, [[30; 60]; [30; 60; 120]; [30; 60; 120; 240]]);
    (32, [[32; 64]; [32; 64; 128]; [32; 64; 128; 256]]);
    (40, [[40; 80]; [40; 80; 160]; [40; 80; 160; 320]]);
    (44, [[44; 88]; [44; 88; 176]; [44; 88; 176; 352]]);
    (48, [[48; 96]; [48; 96; 192]; [48; 96; 192; 384]]);
    (60, [[60; 120]; [60; 120; 240]; [60; 120; 240; 480]]);
    (64, [[64; 128]; [64; 128; 256]; [64; 128; 256; 512]]) ].

(** [d[k]] on a dict with integer keys. *)
Fixpoint dict_get {V : Type} (d : list (Z * V)) (k : Z) : Ctor V :=
  match d with
  | [] => raise KeyError
  | (k', v) :: d' => if k' =? k then ret v else dict_get d' k
  end.

(** [a, b, c = l] *)
Definition unpack3 {A : Type} (l : list A) : Ctor (A * A * A) :=
  match l with
  | [a; b; c] => ret (a, b, c)
  | _ => raise ValueError
  end.

Record t : Type := {
  width : Z;
  has_se : bool;
  _class_dim : Z;
  conv_layer1_1 : ConvBNLayer.t;
  conv_layer1_2 : ConvBNLayer.t;
  la1 : Layer1.t;
  tr1 : TransitionLayer.t;
  st2 : Stage.t;
  tr2 : TransitionLayer.t;
  st3 : Stage.t;
  tr3 : TransitionLayer.t;
  st4 : Stage.t;
  last_cls : LastClsOut.t;
  cls_head_conv_list : list ConvBNLayer.t;
  conv_last : ConvBNLayer.t;
  pool2d_avg : nn.AdaptiveAvgPool2D;
  out : nn.Linear
}.

(** Defaults of the source: [width=18], [has_se=False], [class_dim=1000]. *)
Definition init {py : Interpreter} (width : Z) (has_se : bool) (class_dim : Z)
  : Ctor t :=
  chs <- dict_get channels width ;;
  '(channels_2, channels_3, channels_4) <- unpack3 chs ;;
  let '(num_modules_2, num_modules_3, num_modules_4) := (1, 4, 3) in
  conv_layer1_1 <- ConvBNLayer.init 3 64 3 2 1 (Some "relu") ;;
  conv_layer1_2 <- ConvBNLayer.init 64 64 3 2 1 (Some "relu") ;;
  la1 <- Layer1.init 64 has_se "layer2" ;;
  tr1 <- TransitionLayer.init [256] channels_2 "tr1" ;;
  st2 <- Stage.init channels_2 num_modules_2 channels_2 has_se true "st2" ;;
  tr2 <- TransitionLayer.init channels_2 channels_3 "tr2" ;;
  st3 <- Stage.init channels_3 num_modules_3 channels_3 has_se true "st3" ;;
  tr3 <- TransitionLayer.init channels_3 channels_4 "tr3" ;;
  st4 <- Stage.init channels_4 num_modules_4 channels_4 has_se true "st4" ;;
  let num_filters_list := [32; 64; 128; 256] in
  last_cls <- LastClsOut.init channels_4 has_se num_filters_list "cls_head" ;;
  let last_num_filters := [256; 512; 1024] in
  cls_head_conv_list <- foldM (fun idx cls_head_conv_list =>
      nf_idx <- getitem num_filters_list idx ;;
      last_idx <- getitem last_num_filters idx ;;
      c <- ConvBNLayer.init (nf_idx * 4) last_idx 3 2 1 (Some "relu") ;;
      ret (cls_head_conv_list
             ++ [add_sublayer ("cls_head_add" ++ str (idx + 1))%string c]))
    (range 3) [] ;;
  conv_last <- ConvBNLayer.init 1024 2048 1 1 1 (Some "relu") ;;
  let pool2d_avg := {| nn.output_size := 1 |} in
  inv_sqrt 2048 ;;
  out <- nn.Linear_new 2048 class_dim "fc_weights" "fc_offset" ;;
  ret {| width := width; has_se := has_se; _class_dim := class_dim;
         conv_layer1_1 := conv_layer1_1; conv_layer1_2 := conv_layer1_2;
         la1 := la1; tr1 := tr1; st2 := st2; tr2 := tr2; st3 := st3;
         tr3 := tr3; st4 := st4; last_cls := last_cls;
         cls_head_conv_list := cls_head_conv_list; conv_last := conv_last;
         pool2d_avg := pool2d_avg; out := out |}.

(** The three stages. *)
Definition stages (self : t) : list Stage.t :=
  [self.(st2); self.(st3); self.(st4)].

(** Every basic block of the network: they all live in the stages. *)
Definition basic_blocks (self : t) : list BasicBlock.t :=
  flat_map Stage.basic_blocks (stages self).

Section Forward.
Context {m : Type -> Type} {Mm : Monad m} {Em : MonadExc PyExc m}.
Context {Tensor : Type} {P : Paddle m Tensor}.

Definition forward (self : t) (input : Tensor) : m Tensor :=
  conv1 <- ConvBNLayer.forward self.(conv_layer1_1) input ;;
  conv2 <- ConvBNLayer.forward self.(conv_layer1_2) conv1 ;;
  la1 <- Layer1.forward self.(la1) conv2 ;;
  tr1 <- TransitionLayer.forward self.(tr1) [la1] ;;
  st2 <- Stage.forward self.(st2) tr1 ;;
  tr2 <- TransitionLayer.forward self.(tr2) st2 ;;
  st3 <- Stage.forward self.(st3) tr2 ;;
  tr3 <- TransitionLayer.forward self.(tr3) st3 ;;
  st4 <- Stage.forward self.(st4) tr3 ;;
  last_cls <- LastClsOut.forward self.(last_cls) st4 ;;
  y <- getitem last_cls 0 ;;
  y <- foldM (fun idx y =>
         l <- getitem last_cls (idx + 1) ;;
         f <- getitem self.(cls_head_conv_list) idx ;;
         r <- ConvBNLayer.forward f y ;;
         paddle_add l r)
       (range 3) y ;;
  y <- ConvBNLayer.forward self.(conv_last) y ;;
  y <- AdaptiveAvgPool2D_call self.(pool2d_avg) y ;;
  shape <- Tensor_shape y ;;
  c <- getitem shape 1 ;;
  y <- paddle_reshape y [-1; c] ;;
  y <- Linear_call self.(out) y ;;
  ret y.

End Forward.

End HRNet.

(** ** The exported constructors *)

(** The keyword arguments [**args] a caller can pass: the three parameters of
    [HRNet.__init__], each present or absent, and the names of any other
    keywords. *)
Record kwargs : Type := {
  kw_width : option Z;
  kw_has_se : option bool;
  kw_class_dim : option Z;
  kw_other : list string
}.

Definition no_kwargs : kwargs :=
  {| kw_width := None; kw_has_se := None; kw_class_dim := None; kw_other := [] |}.

(** [HRNet(width=w, **args)]: a keyword given twice, or one [__init__] does not
    have, is a [TypeError]. *)
Definition HRNet_kw {py : Interpreter} (w : Z) (args : kwargs) : Ctor HRNet.t :=
  match kw_width args, kw_other args with
  | None, [] =>
      HRNet.init w
        (match kw_has_se args with Some b => b | None => false end)
        (match kw_class_dim args with Some c => c | None => 1000 end)
  | _, _ => raise TypeError
  end.

(** [HRNet(width=w, has_se=True, **args)] *)
Definition HRNet_se_kw {py : Interpreter} (w : Z) (args : kwargs) : Ctor HRNet.t :=
  match kw_width args, kw_has_se args, kw_other args with
  | None, None, [] =>
      HRNet.init w true
        (match kw_class_dim args with Some c => c | None => 1000 end)
  | _, _, _ => raise TypeError
  end.

Definition HRNet_W18_C {py : Interpreter} (args : kwargs) : Ctor HRNet.t := HRNet_kw 18 args.
Definition HRNet_W30_C {py : Interpreter} (args : kwargs) : Ctor HRNet.t := HRNet_kw 30 args.
Definition HRNet_W32_C {py : Interpreter} (args : kwargs) : Ctor HRNet.t := HRNet_kw 32 args.
Definition HRNet_W40_C {py : Interpreter} (args : kwargs) : Ctor HRNet.t := HRNet_kw 40 args.
Definition HRNet_W44_C {py : Interpreter} (args : kwargs) : Ctor HRNet.t := HRNet_kw 44 args.
Definition HRNet_W48_C {py : Interpreter} (args : kwargs) : Ctor HRNet.t := HRNet_kw 48 args.
Definition HRNet_W60_C {py : Interpreter} (args : kwargs) : Ctor HRNet.t := HRNet_kw 60 args.
Definition HRNet_W64_C {py : Interpreter} (args : kwargs) : Ctor HRNet.t := HRNet_kw 64 args.
Definition SE_HRNet_W18_C {py : Interpreter} (args : kwargs) : Ctor HRNet.t := HRNet_se_kw 18 args.
Definition SE_HRNet_W30_C {py : Interpreter} (args : kwargs) : Ctor HRNet.t := HRNet_se_kw 30 args.
Definition SE_HRNet_W32_C {py : Interpreter} (args : kwargs) : Ctor HRNet.t := HRNet_se_kw 32 args.
Definition SE_HRNet_W40_C {py : Interpreter} (args : kwargs) : Ctor HRNet.t := HRNet_se_kw 40 args.
Definition SE_HRNet_W44_C {py : Interpreter} (args : kwargs) : Ctor HRNet.t := HRNet_se_kw 44 args.
Definition SE_HRNet_W48_C {py : Interpreter} (args : kwargs) : Ctor HRNet.t := HRNet_se_kw 48 args.
Definition SE_HRNet_W60_C {py : Interpreter} (args : kwargs) : Ctor HRNet.t := HRNet_se_kw 60 args.
Definition SE_HRNet_W64_C {py : Interpreter} (args : kwargs) : Ctor HRNet.t := HRNet_se_kw 64 args.

(** ** Frameworks whose operations are total functions

    For the properties of the values a [forward] returns, the framework
    operations are taken as total functions on tensors, running in the monad
    [sum PyExc] of Python exceptions alone. *)

Module Pure.

Class Ops (Tensor : Type) : Type := {
  conv2d : nn.Conv2D -> Tensor -> Tensor;
  batch_norm : nn.BatchNorm -> Tensor -> Tensor;
  linear : nn.Linear -> Tensor -> Tensor;
  adaptive_avg_pool2d : nn.AdaptiveAvgPool2D -> Tensor -> Tensor;
  add : Tensor -> Tensor -> Tensor;
  squeeze : Tensor -> list Z -> Tensor;
  unsqueeze : Tensor -> list Z -> Tensor;
  reshape : Tensor -> list Z -> Tensor;
  mul : Tensor -> Tensor -> Tensor;
  shape : Tensor -> list Z;
  relu : Tensor -> Tensor;
  sigmoid : Tensor -> Tensor;
  upsample : Tensor -> Z -> string -> Tensor
}.

#[global] Instance paddle {Tensor : Type} {ops : Ops Tensor} : Paddle (sum PyExc) Tensor := {|
  Conv2D_call c x := inr (conv2d c x);
  BatchNorm_call b x := inr (batch_norm b x);
  Linear_call l x := inr (linear l x);
  AdaptiveAvgPool2D_call p x := inr (adaptive_avg_pool2d p x);
  paddle_add x y := inr (add x y);
  paddle_squeeze x axis := inr (squeeze x axis);
  paddle_unsqueeze x axis := inr (unsqueeze x axis);
  paddle_reshape x sh := inr (reshape x sh);
  Tensor_mul x y := inr (mul x y);
  Tensor_shape x := inr (shape x);
  F_relu x := inr (relu x);
  F_sigmoid x := inr (sigmoid x);
  F_upsample x s mode := inr (upsample x s mode)
|}.

Section Values.
Context {Tensor : Type} {ops : Ops Tensor}.

(** The value of [ConvBNLayer.forward]. *)
Definition conv_bn (l : ConvBNLayer.t) (x : Tensor) : Tensor :=
  batch_norm l.(ConvBNLayer._batch_norm) (conv2d l.(ConvBNLayer._conv) x).

(** A chain of layers applied one after the other. *)
Definition conv_bn_chain (ls : list ConvBNLayer.t) (x : Tensor) : Tensor :=
  fold_left (fun y l => conv_bn l y) ls x.

(** The per-channel gate of a squeeze-and-excitation layer, before it is
    broadcast. *)
Definition se_gate (s : SELayer.t) (input : Tensor) : Tensor :=
  sigmoid
    (linear s.(SELayer.excitation)
       (relu
          (linear s.(SELayer.squeeze)
             (squeeze (adaptive_avg_pool2d s.(SELayer.pool2d_gap) input) [2; 3])))).

(** [se(x)] when the block has a squeeze-and-excitation layer, [x] otherwise. *)
Definition se_opt (s : option SELayer.t) (x : Tensor) : Tensor :=
  match s with
  | Some s => mul x (unsqueeze (se_gate s x) [2; 3])
  | None => x
  end.

End Values.

End Pure.

(** ** Provenance of the blocks of a network *)

(** A basic block as [Branches] builds it: [stride] 1 and no [downsample]
    argument, so the default [False]. *)
Definition built_by_Branches {py : Interpreter} (has_se : bool) (b : BasicBlock.t)
  : Prop :=
  exists (num_channels num_filters : Z) (name : string) (n n' : nat),
    runStateT (BasicBlock.init num_channels num_filters 1 has_se false name) n
    = inr (b, n').

(** A bottleneck block as [LastClsOut] builds it. *)
Definition built_by_LastClsOut {py : Interpreter} (has_se : bool)
  (b : BottleneckBlock.t) : Prop :=
  exists (num_channels num_filters : Z) (name : string) (n n' : nat),
    runStateT (BottleneckBlock.init num_channels num_filters has_se 1 true name) n
    = inr (b, n').

(** A squeeze-and-excitation layer built as [SELayer(c, c, 16, name)]. *)
Definition built_with_ratio_16 {py : Interpreter} (c : Z) (s : SELayer.t) : Prop :=
  exists (name : string) (n n' : nat),
    runStateT (SELayer.init c c 16 name) n = inr (s, n').

(** The exported constructors, in the order of [__all__], each with the width
    and the squeeze-and-excitation flag its name announces. *)
Definition variants {py : Interpreter} : list (Z * bool * (kwargs -> Ctor HRNet.t)) :=
  [ (18, false, HRNet_W18_C); (30, false, HRNet_W30_C); (32, false, HRNet_W32_C);
    (40, false, HRNet_W40_C); (44, false, HRNet_W44_C); (48, false, HRNet_W48_C);
    (60, false, HRNet_W60_C); (64, false, HRNet_W64_C);
    (18, true, SE_HRNet_W18_C); (30, true, SE_HRNet_W30_C);
    (32, true, SE_HRNet_W32_C); (40, true, SE_HRNet_W40_C);
    (44, true, SE_HRNet_W44_C); (48, true, SE_HRNet_W48_C);
    (60, true, SE_HRNet_W60_C); (64, true, SE_HRNet_W64_C) ].

(** The widths of the exported constructors. *)
Definition supported_widths : list Z := [18; 30; 32; 40; 44; 48; 60; 64].

(** The channel-width list a stage was built with, as each of its modules
    records it in [fuse_func._in_channels]. *)
Definition stage_has_channels (st : Stage.t) (c : list Z) : Prop :=
  forall h, In h st.(Stage.stage_func_list) ->
    h.(HighResolutionModule.fuse_func).(FuseLayers._in_channels) = c.

(** ** What [TransitionLayer] stores and returns at each position *)

(** Entry [i] of [conv_bn_func_list], as the constructor decides it from the
    channel lists. *)
Definition transition_entry (in_channels out_channels : list Z) (i : nat)
  (e : option ConvBNLayer.t) : Prop :=
  exists out_i,
    nth_error out_channels i = Some out_i
    /\ if (i <? length in_channels)%nat
       then exists in_i,
              nth_error in_channels i = Some in_i
              /\ if in_i =? out_i
                 then e = None
                 else exists c k,
                        e = Some c
                        /\ runStateT (ConvBNLayer.init in_i out_i 3 1 1 (Some "relu")) k
                           = inr (c, S (S k))
       else exists in_last c k,
              nth_error in_channels (length in_channels - 1) = Some in_last
              /\ e = Some c
              /\ runStateT (ConvBNLayer.init in_last out_i 3 2 1 (Some "relu")) k
                 = inr (c, S (S k)).

(** Output [idx] of [TransitionLayer.forward] on [x], for the entry [e]. *)
Definition transition_output {Tensor : Type} {ops : Pure.Ops Tensor}
  (x : list Tensor) (idx : nat) (e : option ConvBNLayer.t) (o : Tensor) : Prop :=
  match e with
  | None => nth_error x idx = Some o
  | Some c =>
      if (idx <? length x)%nat
      then exists x_idx, nth_error x idx = Some x_idx /\ o = Pure.conv_bn c x_idx
      else exists x_last,
             nth_error x (length x - 1) = Some x_last /\ o = Pure.conv_bn c x_last
  end.

(** ** The layout of [FuseLayers.residual_func_list]

    The constructor appends, for each output [i] and each input [j] in order,
    one layer when [j > i] and [i - j] layers when [j < i]; [forward] walks
    the list with a running index in the same order. *)

Module FuseLayout.

(** How many layers the pair of output [i] and input [j] owns. *)
Definition need (i j : nat) : nat := if (i <? j)%nat then 1%nat else (i - j)%nat.

(** Layers of output [i] that come before those of input [j]. *)
Fixpoint row_offset (i j : nat) : nat :=
  match j with
  | O => O
  | S j' => (row_offset i j' + need i j')%nat
  end.

(** Layers that come before those of output [i], with [n] input branches. *)
Fixpoint base_offset (n i : nat) : nat :=
  match i with
  | O => O
  | S i' => (base_offset n i' + row_offset i' n)%nat
  end.

(** Position of the first layer of the pair [(i, j)]. *)
Definition offset (n i j : nat) : nat := (base_offset n i + row_offset i j)%nat.

(** The layer [ConvBNLayer(nc, nf, fs, stride=st, act=act)] built when the
    allocation counter is [id]. *)
Definition layer_at (nc nf fs st : Z) (act : option string) (id : nat) : ConvBNLayer.t :=
  {| ConvBNLayer._conv :=
       {| nn.conv_id := id; nn.in_channels := nc; nn.out_channels := nf;
          nn.kernel_size := fs; nn.stride := st; nn.padding := (fs - 1) / 2;
          nn.groups := 1; nn.bias_attr := false |};
     ConvBNLayer._batch_norm :=
       {| nn.bn_id := S id; nn.num_channels := nf; nn.act := act |} |}.

(** The layers of the pair [(i, j)], each waiting for its identity. *)
Definition chunk (inc outc : list Z) (i j : nat) : list (nat -> ConvBNLayer.t) :=
  if (i <? j)%nat then
    [layer_at (nth j inc 0) (nth i outc 0) 1 1 None]
  else
    map (fun k =>
           let pre_num_filters := if (k =? 0)%nat then nth j inc 0 else nth j outc 0 in
           if (k =? i - j - 1)%nat
           then layer_at pre_num_filters (nth i outc 0) 3 2 None
           else layer_at pre_num_filters (nth j outc 0) 3 2 (Some "relu"))
      (seq 0 (i - j)).

Definition row (inc outc : list Z) (i : nat) : list (nat -> ConvBNLayer.t) :=
  flat_map (chunk inc outc i) (seq 0 (length inc)).

Definition layers (inc outc : list Z) (actual_ch : nat) : list (nat -> ConvBNLayer.t) :=
  flat_map (row inc outc) (seq 0 actual_ch).

(** Identities are handed out in order, two per layer (the convolution, then
    the batch normalisation). *)
Fixpoint assign_ids (id : nat) (fs : list (nat -> ConvBNLayer.t)) : list ConvBNLayer.t :=
  match fs with
  | [] => []
  | f :: fs' => f id :: assign_ids (S (S id)) fs'
  end.

End FuseLayout.

(** ** The values [FuseLayers.forward] returns *)

Section FuseValues.
Context {Tensor : Type} {ops : Pure.Ops Tensor}.

(** What input [j] contributes to output [i], when the layers of the pair
    start at position [idx] of [residual_func_list]: the input goes through
    these layers, and is up-sampled when it comes from a lower resolution. *)
Definition fuse_contribution_at (l : list ConvBNLayer.t) (input : list Tensor)
  (d : Tensor) (i j idx : nat) : Tensor :=
  let y := Pure.conv_bn_chain (firstn (FuseLayout.need i j) (skipn idx l))
             (nth j input d) in
  if (i <? j)%nat then Pure.upsample y (2 ^ Z.of_nat (j - i)) "nearest" else y.

Definition fuse_contribution (self : FuseLayers.t) (input : list Tensor) (d : Tensor)
  (i j : nat) : Tensor :=
  fuse_contribution_at self.(FuseLayers.residual_func_list) input d i j
    (FuseLayout.offset (length self.(FuseLayers._in_channels)) i j).

(** The branches other than [i]. *)
Definition other_branches (n i : nat) : list nat :=
  filter (fun j => negb (j =? i)%nat) (seq 0 n).

(** Output [i]: the ReLU of the branch's own value plus the contributions of
    every other branch. *)
Definition fused_output (self : FuseLayers.t) (input : list Tensor) (d : Tensor)
  (i : nat) : Tensor :=
  Pure.relu
    (fold_left (fun residual j => Pure.add residual (fuse_contribution self input d i j))
       (other_branches (length self.(FuseLayers._in_channels)) i)
       (nth i input d)).

End FuseValues.

(** ** A concrete framework: the tensor graph

    Every operation builds the node of the graph it stands for, so that
    running a [forward] on input nodes yields the graph it computes. *)

Module Graph.

Inductive t : Type :=
| Input (k : nat)
| Conv2D (c : nn.Conv2D) (x : t)
| BatchNorm (b : nn.BatchNorm) (x : t)
| Linear (l : nn.Linear) (x : t)
| AdaptiveAvgPool2D (p : nn.AdaptiveAvgPool2D) (x : t)
| Add (x y : t)
| Squeeze (x : t) (axis : list Z)
| Unsqueeze (x : t) (axis : list Z)
| Reshape (x : t) (shape : list Z)
| Mul (x y : t)
| Relu (x : t)
| Sigmoid (x : t)
| Upsample (x : t) (scale_factor : Z) (mode : string).

(** A node carries no shape; [shape] answers with an empty list. *)
#[global] Instance ops : Pure.Ops t := {|
  Pure.conv2d := Conv2D;
  Pure.batch_norm := BatchNorm;
  Pure.linear := Linear;
  Pure.adaptive_avg_pool2d := AdaptiveAvgPool2D;
  Pure.add := Add;
  Pure.squeeze := Squeeze;
  Pure.unsqueeze := Unsqueeze;
  Pure.reshape := Reshape;
  Pure.mul := Mul;
  Pure.shape x := [];
  Pure.relu := Relu;
  Pure.sigmoid := Sigmoid;
  Pure.upsample := Upsample
|}.

End Graph.

(** ** A concrete framework: recording the calls

    A framework with hidden state: the state is the log of the convolutions
    that were called, in order, each named by its object identity; tensors
    carry nothing. *)

Module Recording.

Definition record (id : nat) : stateT (list nat) (sum PyExc) unit :=
  mkStateT (fun log => inr (tt, log ++ [id])).

#[global] Instance paddle : Paddle (stateT (list nat) (sum PyExc)) unit := {|
  Conv2D_call c x := record (nn.conv_id c);
  BatchNorm_call b x := ret tt;
  Linear_call l x := ret tt;
  AdaptiveAvgPool2D_call p x := ret tt;
  paddle_add x y := ret tt;
  paddle_squeeze x axis := ret tt;
  paddle_unsqueeze x axis := ret tt;
  paddle_reshape x sh := ret tt;
  Tensor_mul x y := ret tt;
  Tensor_shape x := ret [];
  F_relu x := ret tt;
  F_sigmoid x := ret tt;
  F_upsample x s mode := ret tt
|}.

(** The identity of a [ConvBNLayer]: that of its convolution. *)
Definition layer_id (c : ConvBNLayer.t) : nat := nn.conv_id (ConvBNLayer._conv c).

(** The identities of the layers at positions [p <= .. < q] of a list. *)
Definition ids_between (l : list ConvBNLayer.t) (p q : nat) : list nat :=
  map layer_id (firstn (q - p) (skipn p l)).

End Recording.

(** The number of layers of a [FuseLayers]: for each output [i], one per
    [j > i] and [i - j] per [j < i]. *)
Definition fuse_layer_count (n actual_ch : nat) : nat :=
  list_sum
    (map (fun i =>
            list_sum
              (map (fun j => if (i <? j)%nat then 1%nat else (i - j)%nat) (seq 0 n)))
       (seq 0 actual_ch)).

(** ** Single-precision floating-point numbers

    The elements of a tensor are [float32] numbers.  The finite ones are the
    reals [m * 2^e] with [|m| < 2^24] and [-149 <= e <= 104], written here
    with the exponent shifted by 149; an operation that is correctly rounded
    returns a float32 number nearest to the exact result.  Infinities and
    NaN are not modelled, and a tie between two nearest numbers may go
    either way. *)

Module Float32.



(** The integers [a], [a + 1], ..., [a + n - 1]. *)
Definition Zrange (a : Z) (n : nat) : list Z :=
  map (fun i => a + Z.of_nat i) (seq 0 n).

(** Every finite float32 number. *)
Definition floats : list R :=
  flat_map
    (fun e => map (fun m => (IZR (m * 2 ^ e) / IZR (2 ^ 149))%R)
                (Zrange (- (2 ^ 24 - 1)) (Z.to_nat (2 ^ 25 - 1))))
    (Zrange 0 254).

(** An element of a list nearest to [y]. *)
Fixpoint nearest_in (l : list R) (y : R) : R :=
  match l with
  | [] => 0%R
  | a :: l' =>
      match l' with
      | [] => a
      | _ :: _ =>
          if Rle_dec (Rabs (a - y)) (Rabs (nearest_in l' y - y))
          then a else nearest_in l' y
      end
  end.

(** Rounding to nearest. *)
Definition round (y : R) : R := nearest_in floats y.

End Float32.

(** The logistic function. *)
Definition logistic (t : R) : R := (1 / (1 + exp (- t)))%R.

(** ** The contract of the operations [SELayer.forward] calls

    The shapes and the values of the tensors the framework returns are not
    part of the file; what [SELayer.forward] relies on is stated as a contract
    on the operations: the shape rules of the pooling, squeezing, linear,
    element-wise and broadcasting operations; the sigmoid returning, element
    by element, a float32 number nearest to the value of the logistic
    function; and the product returning a float32 number nearest to the
    exact product.  The elements of a tensor are read at a multi-index by
    [at_]. *)

Section Contract.
Context {Tensor : Type} {ops : Pure.Ops Tensor}.
Variable at_ : Tensor -> list Z -> R.


End Contract.

(** ** A concrete framework: uniform tensors

    A tensor is a shape and one float32 value that all its elements share.
    A linear layer [l] has a weight matrix whose first row holds the number
    [weight l] and whose other rows are zero, and no bias, so that it maps
    the shared value [v] to the product [weight l * v].  The convolutions
    and the batch normalisations keep the value.  Sums, products and the
    sigmoid are rounded to float32. *)

Module Uniform.

Record t : Type := { shape : list Z; value : R }.

Section Weights.
Variable weight : nn.Linear -> R.

Definition ops : Pure.Ops t := {|
  Pure.conv2d c x :=
    {| shape := match shape x with
                | [N; _; H; W] => [N; nn.out_channels c; H; W]
                | sh => sh
                end;
       value := value x |};
  Pure.batch_norm b x := x;
  Pure.linear l x :=
    {| shape := match shape x with
                | [N; _] => [N; nn.out_features l]
                | sh => sh
                end;
       value := Float32.round (weight l * value x) |};
  Pure.adaptive_avg_pool2d p x :=
    {| shape := match shape x with
                | [N; C; _; _] => [N; C; nn.output_size p; nn.output_size p]
                | sh => sh
                end;
       value := value x |};
  Pure.add x y := {| shape := shape x; value := Float32.round (value x + value y) |};
  Pure.squeeze x axis :=
    {| shape := match shape x with
                | [N; C; _; _] => [N; C]
                | sh => sh
                end;
       value := value x |};
  Pure.unsqueeze x axis := {| shape := shape x ++ [1; 1]; value := value x |};
  Pure.reshape x sh := {| shape := sh; value := value x |};
  Pure.mul x y := {| shape := shape x; value := Float32.round (value x * value y) |};
  Pure.shape x := shape x;
  Pure.relu x := {| shape := shape x; value := Rmax 0 (value x) |};
  Pure.sigmoid x := {| shape := shape x; value := Float32.round (logistic (value x)) |};
  Pure.upsample x s mode := x
|}.

End Weights.




End Uniform.

(** ** Frameworks with hidden mutable state

    The operations of a real framework run with state of their own that the
    code of the file never sees (running statistics of the batch
    normalisations, hooks, caches).  Such a framework is an instance of
    [Paddle] over the monad [stateT S (sum PyExc)]: every operation receives
    the hidden state and returns a new one, or raises. *)

Section Hidden.
Context {S : Type}.


End Hidden.

(** ** A concrete framework: counting the calls

    Every operation builds its node of the tensor graph and increments a
    hidden counter of the operations performed so far. *)

Module Counting.

Definition tick {A : Type} (a : A) : stateT nat (sum PyExc) A :=
  mkStateT (fun calls => inr (a, Datatypes.S calls)).

#[global] Instance paddle : Paddle (stateT nat (sum PyExc)) Graph.t := {|
  Conv2D_call c x := tick (Graph.Conv2D c x);
  BatchNorm_call b x := tick (Graph.BatchNorm b x);
  Linear_call l x := tick (Graph.Linear l x);
  AdaptiveAvgPool2D_call p x := tick (Graph.AdaptiveAvgPool2D p x);
  paddle_add x y := tick (Graph.Add x y);
  paddle_squeeze x axis := tick (Graph.Squeeze x axis);
  paddle_unsqueeze x axis := tick (Graph.Unsqueeze x axis);
  paddle_reshape x sh := tick (Graph.Reshape x sh);
  Tensor_mul x y := tick (Graph.Mul x y);
  Tensor_shape x := tick [1; 2048; 1; 1];
  F_relu x := tick (Graph.Relu x);
  F_sigmoid x := tick (Graph.Sigmoid x);
  F_upsample x s mode := tick (Graph.Upsample x s mode)
|}.

End Counting.

(** ** Values of the residual blocks over total operations *)

Section BlockValues.
Context {Tensor : Type} {ops : Pure.Ops Tensor}.

(** What [BasicBlock.forward] returns for a block without shortcut
    projection: the input is the residual. *)
Definition basic_block_value (b : BasicBlock.t) (x : Tensor) : Tensor :=
  Pure.relu
    (Pure.add x
       (Pure.se_opt b.(BasicBlock.se)
          (Pure.conv_bn b.(BasicBlock.conv2) (Pure.conv_bn b.(BasicBlock.conv1) x)))).

(** The blocks of one branch, applied one after the other. *)
Definition branch_value (bs : list BasicBlock.t) (x : Tensor) : Tensor :=
  fold_left (fun conv b => basic_block_value b conv) bs x.

(** What [BottleneckBlock.forward] returns: the residual is the shortcut
    projection of the input when the block has one. *)
Definition bottleneck_block_value (b : BottleneckBlock.t) (x : Tensor) : Tensor :=
  Pure.relu
    (Pure.add
       (match b.(BottleneckBlock.conv_down) with
        | Some c => Pure.conv_bn c x
        | None => x
        end)
       (Pure.se_opt b.(BottleneckBlock.se)
          (Pure.conv_bn b.(BottleneckBlock.conv3)
             (Pure.conv_bn b.(BottleneckBlock.conv2)
                (Pure.conv_bn b.(BottleneckBlock.conv1) x))))).

End BlockValues.

(** Block [j] of branch [i], as [Branches.__init__] builds it: its input
    width is [in_channels[i]] for the first block of the branch and
    [out_channels[i]] for the others. *)
Definition branch_block {py : Interpreter} (in_channels out_channels : list Z)
  (has_se : bool) (name : string) (i j : nat) (b : BasicBlock.t) : Prop :=
  exists (in_ch out_i : Z) (k k' : nat),
    nth_error out_channels i = Some out_i
    /\ (if (j =? 0)%nat then nth_error in_channels i = Some in_ch else in_ch = out_i)
    /\ runStateT
         (BasicBlock.init in_ch out_i 1 has_se false
            (name ++ "_branch_layer_" ++ str (i + 1) ++ "_" ++ str (j + 1))%string) k
       = inr (b, k').

(** Block [idx] of the classification head, as [LastClsOut.__init__] builds it. *)
Definition head_block {py : Interpreter} (num_channel_list num_filters_list : list Z)
  (has_se : bool) (name : string) (idx : nat) (b : BottleneckBlock.t) : Prop :=
  exists (in_idx nf_idx : Z) (k k' : nat),
    nth_error num_channel_list idx = Some in_idx
    /\ nth_error num_filters_list idx = Some nf_idx
    /\ runStateT
         (BottleneckBlock.init in_idx nf_idx has_se 1 true
            (name ++ "conv_" ++ str (idx + 1))%string) k
       = inr (b, k').

(** The rows of [basic_block_list], as the constructor builds them. *)
Definition branch_rows {py : Interpreter} (bn : Z) (inc outc : list Z) (se : bool)
  (name : string) (ll : list (list BasicBlock.t)) : Prop :=
  forall i row, nth_error ll i = Some row ->
    length row = Z.to_nat bn
    /\ forall j b, nth_error row j = Some b -> branch_block inc outc se name i j b.

(** ** The shape rules of the framework operations

    The shapes of the tensors the framework returns are not part of the file.
    What the [forward] methods rely on is stated as a contract on the
    operations, for tensors in the layout [N, C, H, W]: a convolution and a
    batch normalisation accept an input with the channel count they were built
    for, the convolution turning a spatial size [s] into
    [(s + 2 * padding - kernel_size) // stride + 1]; element-wise operations
    keep the shape and an addition takes operands of equal shape; up-sampling
    multiplies the spatial sizes by its integer scale factor. *)

Definition conv_out_size (size kernel_size stride padding : Z) : Z :=
  (size + 2 * padding - kernel_size) / stride + 1.

(** The shape of a batch of [N] maps with [c] channels, of size [2^e * h] by
    [2^e * w]. *)
Definition level_shape (N c : Z) (e : nat) (h w : Z) : list Z :=
  [N; c; 2 ^ Z.of_nat e * h; 2 ^ Z.of_nat e * w].

Section ShapeContract.
Context {Tensor : Type} {ops : Pure.Ops Tensor}.

Record Shape_contract : Prop := {
  sc_conv2d : forall c x N C H W,
    Pure.shape x = [N; C; H; W] ->
    C = nn.in_channels c -> nn.groups c = 1 -> 0 < nn.stride c ->
    nn.kernel_size c <= H + 2 * nn.padding c ->
    nn.kernel_size c <= W + 2 * nn.padding c ->
    Pure.shape (Pure.conv2d c x)
    = [N; nn.out_channels c;
       conv_out_size H (nn.kernel_size c) (nn.stride c) (nn.padding c);
       conv_out_size W (nn.kernel_size c) (nn.stride c) (nn.padding c)];
  sc_batch_norm : forall b x N C H W,
    Pure.shape x = [N; C; H; W] -> C = nn.num_channels b ->
    Pure.shape (Pure.batch_norm b x) = [N; C; H; W];
  sc_add : forall x y,
    Pure.shape x = Pure.shape y -> Pure.shape (Pure.add x y) = Pure.shape x;
  sc_relu : forall x, Pure.shape (Pure.relu x) = Pure.shape x;
  sc_sigmoid : forall x, Pure.shape (Pure.sigmoid x) = Pure.shape x;
  sc_upsample : forall x s mode N C H W,
    Pure.shape x = [N; C; H; W] -> 0 < s ->
    Pure.shape (Pure.upsample x s mode) = [N; C; H * s; W * s];
  sc_adaptive_avg_pool2d : forall p x N C H W,
    nn.output_size p = 1 -> Pure.shape x = [N; C; H; W] ->
    Pure.shape (Pure.adaptive_avg_pool2d p x) = [N; C; 1; 1];
  sc_squeeze : forall x N C,
    Pure.shape x = [N; C; 1; 1] -> Pure.shape (Pure.squeeze x [2; 3]) = [N; C];
  sc_unsqueeze : forall x N C,
    Pure.shape x = [N; C] -> Pure.shape (Pure.unsqueeze x [2; 3]) = [N; C; 1; 1];
  sc_linear : forall l x N,
    Pure.shape x = [N; nn.in_features l] ->
    Pure.shape (Pure.linear l x) = [N; nn.out_features l];
  sc_mul : forall x g N C H W,
    Pure.shape x = [N; C; H; W] -> Pure.shape g = [N; C; 1; 1] ->
    Pure.shape (Pure.mul x g) = [N; C; H; W];
  sc_reshape : forall x N C,
    Pure.shape x = [N; C; 1; 1] -> 0 < C ->
    Pure.shape (Pure.reshape x [-1; C]) = [N; C]
}.

(** A pyramid of branch tensors: branch [j] has [cs[j]] channels and the
    spatial sizes of branch 0 halved [j] times, branch 0 being of size
    [2^k * h] by [2^k * w]. *)
Definition pyramid (N : Z) (cs : list Z) (k : nat) (h w : Z) (xs : list Tensor) : Prop :=
  length xs = length cs
  /\ forall j c x, nth_error cs j = Some c -> nth_error xs j = Some x ->
       Pure.shape x = level_shape N c (k - j) h w.

End ShapeContract.

(** ** A concrete framework: shapes alone

    A tensor is its shape, and every operation computes the shape of its
    result by the rules above.  The operations are total: where the framework
    would refuse its operands (a convolution, a batch normalisation or a
    linear layer on an input without the channel count it was built for, a
    kernel larger than the padded input, an addition of tensors of different
    shapes, a product with a gate that does not broadcast), the model answers
    with the empty shape, which is the shape of no feature map. *)

Module Shapes.

Record t : Type := { dims : list Z }.

Definition product (l : list Z) : Z := fold_right Z.mul 1 l.

(** Equality of two shapes. *)
Fixpoint same_dims (a b : list Z) : bool :=
  match a, b with
  | [], [] => true
  | x :: a', y :: b' => (x =? y) && same_dims a' b'
  | _, _ => false
  end.

#[global] Instance ops : Pure.Ops t := {|
  Pure.conv2d c x :=
    {| dims := match dims x with
               | [N; C; H; W] =>
                   if (C =? nn.in_channels c) && (0 <? nn.stride c)
                      && (nn.kernel_size c <=? H + 2 * nn.padding c)
                      && (nn.kernel_size c <=? W + 2 * nn.padding c)
                   then [N; nn.out_channels c;
                         conv_out_size H (nn.kernel_size c) (nn.stride c) (nn.padding c);
                         conv_out_size W (nn.kernel_size c) (nn.stride c) (nn.padding c)]
                   else []
               | _ => []
               end |};
  Pure.batch_norm b x :=
    {| dims := match dims x with
               | N :: C :: sh => if C =? nn.num_channels b then N :: C :: sh else []
               | _ => []
               end |};
  Pure.linear l x :=
    {| dims := match dims x with
               | [N; K] => if K =? nn.in_features l then [N; nn.out_features l] else []
               | _ => []
               end |};
  Pure.adaptive_avg_pool2d p x :=
    {| dims := match dims x with
               | [N; C; _; _] => [N; C; nn.output_size p; nn.output_size p]
               | sh => sh
               end |};
  Pure.add x y := if same_dims (dims x) (dims y) then x else {| dims := [] |};
  Pure.squeeze x axis :=
    {| dims := match dims x with
               | [N; C; _; _] => [N; C]
               | sh => sh
               end |};
  Pure.unsqueeze x axis := {| dims := dims x ++ [1; 1] |};
  Pure.reshape x sh :=
    {| dims := map (fun d => if d =? -1 then product (dims x) / - product sh else d) sh |};
  Pure.mul x y :=
    match dims x, dims y with
    | [N; C; _; _], [N'; C'; 1; 1] =>
        if (N =? N') && (C =? C') then x else {| dims := [] |}
    | _, _ => {| dims := [] |}
    end;
  Pure.shape x := dims x;
  Pure.relu x := x;
  Pure.sigmoid x := x;
  Pure.upsample x s mode :=
    {| dims := match dims x with
               | [N; C; H; W] => [N; C; H * s; W * s]
               | sh => sh
               end |}
|}.

End Shapes.

(** * Proofs *)

(** ** Running constructor computations *)

Lemma run_bind_inv {A B : Type} (c : Ctor A) (k : A -> Ctor B) (n : nat) (r : B * nat) :
  runStateT (bind c k) n = inr r ->
  exists a n', runStateT c n = inr (a, n') /\ runStateT (k a) n' = inr r.
Proof.
  simpl. destruct (runStateT c n) as [e | [a n']]; [discriminate | eauto].
Qed.


Lemma run_ret_inv {A : Type} (a : A) (n : nat) (r : A * nat) :
  runStateT (ret a : Ctor A) n = inr r -> r = (a, n).
Proof. simpl. congruence. Qed.

Lemma ctor_bind {A B : Type} (c : Ctor A) (k : A -> Ctor B) (n : nat) :
  runStateT (bind c k) n
  = match runStateT c n with
    | inl e => inl e
    | inr (a, n') => runStateT (k a) n'
    end.
Proof. reflexivity. Qed.

Lemma ctor_ret {A : Type} (a : A) (n : nat) :
  runStateT (ret a : Ctor A) n = inr (a, n).
Proof. reflexivity. Qed.

Lemma ConvBNLayer_init_run (nc nf fs st g : Z) (act : option string) (n : nat) :
  runStateT (ConvBNLayer.init nc nf fs st g act) n =
  inr ({| ConvBNLayer._conv :=
            {| nn.conv_id := n; nn.in_channels := nc; nn.out_channels := nf;
               nn.kernel_size := fs; nn.stride := st; nn.padding := (fs - 1) / 2;
               nn.groups := g; nn.bias_attr := false |};
          ConvBNLayer._batch_norm :=
            {| nn.bn_id := S n; nn.num_channels := nf; nn.act := act |} |},
       S (S n)).
Proof. reflexivity. Qed.

(** A loop over [seq a len] in a constructor: an invariant indexed by the
    loop variable and by the allocation counter. *)
Lemma foldM_seq_inv {St : Type} (Inv : nat -> St -> nat -> Prop)
  (body : nat -> St -> Ctor St) (len a : nat) (s : St) (n : nat) (s' : St) (n' : nat) :
  Inv a s n ->
  (forall i s n s' n', (a <= i < a + len)%nat -> Inv i s n ->
     runStateT (body i s) n = inr (s', n') -> Inv (S i) s' n') ->
  runStateT (foldM body (seq a len) s) n = inr (s', n') ->
  Inv (a + len)%nat s' n'.
Proof.
  revert a s n. induction len as [| len IH]; intros a s n H0 Hstep Hrun.
  - apply run_ret_inv in Hrun. injection Hrun as <- <-.
    now rewrite Nat.add_0_r.
  - cbn [seq foldM] in Hrun. apply run_bind_inv in Hrun.
    destruct Hrun as (s1 & n1 & Hb & Hrest).
    replace (a + S len)%nat with (S a + len)%nat by lia.
    apply (IH (S a) s1 n1).
    + apply (Hstep a s n); [lia | assumption | assumption].
    + intros i s2 n2 s3 n3 Hi. apply Hstep. lia.
    + exact Hrest.
Qed.


Lemma getitem_ctor_inv {A : Type} (l : list A) (i : nat) (n : nat) (r : A * nat) :
  runStateT (getitem l i : Ctor A) n = inr r ->
  nth_error l i = Some (fst r) /\ snd r = n.
Proof.
  unfold getitem. destruct (nth_error l i) as [a |]; simpl; [| discriminate].
  intros H. injection H as <-. auto.
Qed.

(** ** Constructors of the leaf layers *)

Lemma Linear_new_run {py : Interpreter} (i o : Z) (w b : string) (n : nat) :
  runStateT (nn.Linear_new i o w b) n
  = if __debug__ && negb ((0 <? i) && (0 <? o)) then inl AssertionError
    else inr ({| nn.fc_id := n; nn.in_features := i; nn.out_features := o;
                 nn.weight_attr := w; nn.bias_attr_name := b |}, S n).
Proof.
  unfold nn.Linear_new, py_assert.
  destruct (__debug__ && negb ((0 <? i) && (0 <? o))); reflexivity.
Qed.

Lemma SELayer_init_run {py : Interpreter} (nc nf r : Z) (name : string) (n : nat) :
  r <> 0 -> 0 < nc -> 0 < Z.quot nc r -> (__debug__ = true -> 0 < nf) ->
  runStateT (SELayer.init nc nf r name) n =
  inr ({| SELayer.pool2d_gap := {| nn.output_size := 1 |};
          SELayer._num_channels := nc;
          SELayer.squeeze :=
            {| nn.fc_id := n; nn.in_features := nc; nn.out_features := Z.quot nc r;
               nn.weight_attr := (name ++ "_sqz_weights")%string;
               nn.bias_attr_name := (name ++ "_sqz_offset")%string |};
          SELayer.excitation :=
            {| nn.fc_id := S n; nn.in_features := Z.quot nc r; nn.out_features := nf;
               nn.weight_attr := (name ++ "_exc_weights")%string;
               nn.bias_attr_name := (name ++ "_exc_offset")%string |} |},
       S (S n)).
Proof.
  intros Hr Hnc Hmed Hnf. unfold SELayer.init, int_truediv, inv_sqrt.
  destruct (Z.eqb_spec r 0) as [| _]; [contradiction |].
  cbn [bind ret Monad_stateT runStateT Monad_either].
  destruct (Z.ltb_spec nc 0) as [| _]; [lia |].
  destruct (Z.eqb_spec nc 0) as [| _]; [lia |].
  cbn [bind ret Monad_stateT runStateT Monad_either].
  rewrite Linear_new_run.
  assert (E1 : __debug__ && negb ((0 <? nc) && (0 <? Z.quot nc r)) = false).
  { destruct (Z.ltb_spec 0 nc); [| lia]. destruct (Z.ltb_spec 0 (Z.quot nc r)); [| lia].
    apply andb_false_r. }
  rewrite E1.
  destruct (Z.ltb_spec (Z.quot nc r) 0) as [| _]; [lia |].
  destruct (Z.eqb_spec (Z.quot nc r) 0) as [| _]; [lia |].
  cbn [bind ret Monad_stateT runStateT Monad_either].
  rewrite Linear_new_run.
  assert (E2 : __debug__ && negb ((0 <? Z.quot nc r) && (0 <? nf)) = false).
  { destruct __debug__; [| reflexivity].
    destruct (Z.ltb_spec 0 (Z.quot nc r)); [| lia].
    destruct (Z.ltb_spec 0 nf); [reflexivity |]. specialize (Hnf eq_refl). lia. }
  rewrite E2. reflexivity.
Qed.

Lemma SELayer_init_inv {py : Interpreter}
  (nc nf r : Z) (name : string) (n : nat) (s : SELayer.t) (n' : nat) :
  runStateT (SELayer.init nc nf r name) n = inr (s, n') ->
  r <> 0 /\ 0 < nc /\ 0 < Z.quot nc r /\ (__debug__ = true -> 0 < nf).
Proof.
  unfold SELayer.init, int_truediv, inv_sqrt.
  destruct (Z.eqb_spec r 0) as [| Hr]; [discriminate |].
  cbn [bind ret Monad_stateT runStateT Monad_either].
  destruct (Z.ltb_spec nc 0) as [| H1]; [discriminate |].
  destruct (Z.eqb_spec nc 0) as [| H2]; [discriminate |].
  cbn [bind ret Monad_stateT runStateT Monad_either].
  rewrite Linear_new_run.
  destruct (__debug__ && negb ((0 <? nc) && (0 <? Z.quot nc r))); [discriminate |].
  destruct (Z.ltb_spec (Z.quot nc r) 0) as [| H3]; [discriminate |].
  destruct (Z.eqb_spec (Z.quot nc r) 0) as [| H4]; [discriminate |].
  cbn [bind ret Monad_stateT runStateT Monad_either].
  rewrite Linear_new_run.
  destruct (__debug__ && negb ((0 <? Z.quot nc r) && (0 <? nf))) eqn:E; [discriminate |].
  intros _. repeat (split; [lia |]).
  intros Hd. rewrite Hd in E. cbn in E. apply negb_false_iff in E.
  apply andb_prop in E. destruct E as [_ E]. apply Z.ltb_lt in E. exact E.
Qed.

Ltac run_inv H :=
  repeat match type of H with
  | runStateT (bind _ _) _ = inr _ =>
      let a := fresh "a" in
      let n := fresh "n" in
      let Hr := fresh "Hrun" in
      apply run_bind_inv in H; destruct H as (a & n & Hr & H)
  | runStateT (ret _) _ = inr _ => apply run_ret_inv in H
  end.

Lemma BasicBlock_init_inv {py : Interpreter} (nc nf st : Z) (se ds : bool) (name : string)
  (n : nat) (b : BasicBlock.t) (n' : nat) :
  runStateT (BasicBlock.init nc nf st se ds name) n = inr (b, n') ->
  BasicBlock.has_se b = se /\ BasicBlock.downsample b = ds
  /\ (exists k, runStateT (ConvBNLayer.init nc nf 3 st 1 (Some "relu")) k
               = inr (BasicBlock.conv1 b, S (S k)))
  /\ (exists k, runStateT (ConvBNLayer.init nf nf 3 1 1 None) k
               = inr (BasicBlock.conv2 b, S (S k)))
  /\ (if ds
      then exists c k, BasicBlock.conv_down b = Some c
             /\ runStateT (ConvBNLayer.init nc (nf * 4) 1 1 1 (Some "relu")) k
                = inr (c, S (S k))
      else BasicBlock.conv_down b = None)
  /\ (if se
      then exists s k k', BasicBlock.se b = Some s
             /\ runStateT (SELayer.init nf nf 16 ("fc" ++ name)%string) k = inr (s, k')
      else BasicBlock.se b = None).
Proof.
  intros H. unfold BasicBlock.init in H. run_inv H.
  injection H as Hb Hn. subst b n'.
  cbn [BasicBlock.has_se BasicBlock.downsample BasicBlock.conv1 BasicBlock.conv2
       BasicBlock.conv_down BasicBlock.se].
  rewrite ConvBNLayer_init_run in Hrun, Hrun0.
  injection Hrun as Ha Hn. injection Hrun0 as Ha0 Hn0. subst.
  split; [reflexivity |]. split; [reflexivity |].
  split; [eexists; reflexivity |]. split; [eexists; reflexivity |].
  split.
  - destruct ds; run_inv Hrun1.
    + injection Hrun1 as Ha1 Hn1. subst.
      rewrite ConvBNLayer_init_run in Hrun. injection Hrun as Ha Hn. subst.
      eexists _, _. split; reflexivity.
    + now injection Hrun1 as Ha1 Hn1.
  - destruct se; run_inv Hrun2.
    + injection Hrun2 as Ha2 Hn2. subst. eauto.
    + now injection Hrun2 as Ha2 Hn2.
Qed.

Lemma BottleneckBlock_init_inv {py : Interpreter}
  (nc nf : Z) (se : bool) (st : Z) (ds : bool)
  (name : string) (n : nat) (b : BottleneckBlock.t) (n' : nat) :
  runStateT (BottleneckBlock.init nc nf se st ds name) n = inr (b, n') ->
  BottleneckBlock.has_se b = se /\ BottleneckBlock.downsample b = ds
  /\ (exists k, runStateT (ConvBNLayer.init nc nf 1 1 1 (Some "relu")) k
               = inr (BottleneckBlock.conv1 b, S (S k)))
  /\ (exists k, runStateT (ConvBNLayer.init nf nf 3 st 1 (Some "relu")) k
               = inr (BottleneckBlock.conv2 b, S (S k)))
  /\ (exists k, runStateT (ConvBNLayer.init nf (nf * 4) 1 1 1 None) k
               = inr (BottleneckBlock.conv3 b, S (S k)))
  /\ (if ds
      then exists c k, BottleneckBlock.conv_down b = Some c
             /\ runStateT (ConvBNLayer.init nc (nf * 4) 1 1 1 None) k
                = inr (c, S (S k))
      else BottleneckBlock.conv_down b = None)
  /\ (if se
      then exists s k k', BottleneckBlock.se b = Some s
             /\ runStateT (SELayer.init (nf * 4) (nf * 4) 16 ("fc" ++ name)%string) k
                = inr (s, k')
      else BottleneckBlock.se b = None).
Proof.
  intros H. unfold BottleneckBlock.init in H. run_inv H.
  injection H as Hb Hn. subst b n'.
  cbn [BottleneckBlock.has_se BottleneckBlock.downsample BottleneckBlock.conv1
       BottleneckBlock.conv2 BottleneckBlock.conv3 BottleneckBlock.conv_down
       BottleneckBlock.se].
  rewrite ConvBNLayer_init_run in Hrun, Hrun0, Hrun1.
  injection Hrun as Ha Hn. injection Hrun0 as Ha0 Hn0. injection Hrun1 as Ha1 Hn1.
  subst.
  split; [reflexivity |]. split; [reflexivity |].
  split; [eexists; reflexivity |]. split; [eexists; reflexivity |].
  split; [eexists; reflexivity |].
  split.
  - destruct ds; run_inv Hrun2.
    + injection Hrun2 as Ha2 Hn2. subst.
      rewrite ConvBNLayer_init_run in Hrun. injection Hrun as Ha Hn. subst.
      eexists _, _. split; reflexivity.
    + now injection Hrun2 as Ha2 Hn2.
  - destruct se; run_inv Hrun3.
    + injection Hrun3 as Ha3 Hn3. subst. eauto.
    + now injection Hrun3 as Ha3 Hn3.
Qed.

(** ** Blocks reachable from the composite layers *)

Lemma foldM_seq_inv_simple {St : Type} (Inv : St -> Prop)
  (body : nat -> St -> Ctor St) (len a : nat) (s : St) (n : nat) (s' : St) (n' : nat) :
  Inv s ->
  (forall i s n s' n', Inv s -> runStateT (body i s) n = inr (s', n') -> Inv s') ->
  runStateT (foldM body (seq a len) s) n = inr (s', n') ->
  Inv s'.
Proof.
  intros H0 Hstep Hrun.
  apply (foldM_seq_inv (fun _ s _ => Inv s) body len a s n s' n' H0); [| exact Hrun].
  intros i s1 n1 s2 n2 _. apply Hstep.
Qed.

Lemma append_at_Forall {A : Type} (P : A -> Prop) (ll : list (list A)) (i : nat)
  (a : A) (n : nat) (ll' : list (list A)) (n' : nat) :
  Forall (Forall P) ll -> P a ->
  runStateT (Branches.append_at ll i a) n = inr (ll', n') ->
  Forall (Forall P) ll'.
Proof.
  intros Hll Ha H. unfold Branches.append_at in H. run_inv H.
  injection H as Hl Hn. subst ll' n'.
  apply getitem_ctor_inv in Hrun. destruct Hrun as [Hnth _].
  cbn [fst] in Hnth.
  rewrite <- (firstn_skipn_middle i ll Hnth) in Hll.
  apply Forall_app in Hll. destruct Hll as [Hpre Hsuf].
  inversion Hsuf as [| l0 ls Hl0 Hls]; subst.
  apply Forall_app. split; [assumption |].
  constructor; [| assumption].
  apply Forall_app. split; [assumption | repeat constructor; assumption].
Qed.

Lemma Branches_init_blocks {py : Interpreter}
  (bn : Z) (inc outc : list Z) (se : bool) (name : string)
  (n : nat) (br : Branches.t) (n' : nat) :
  runStateT (Branches.init bn inc outc se name) n = inr (br, n') ->
  Forall (built_by_Branches se) (Branches.basic_blocks br).
Proof.
  intros H. unfold Branches.init in H. run_inv H.
  injection H as Hb Hn. subst br n'. unfold Branches.basic_blocks.
  cbn [Branches.basic_block_list].
  apply Forall_concat.
  revert Hrun. unfold range. apply foldM_seq_inv_simple; [constructor |].
  intros i s n1 s1 n2 Hs. unfold rangeZ, range.
  apply foldM_seq_inv_simple.
  - apply Forall_app. split; [assumption | repeat constructor].
  - clear. intros j s n s' n' Hs H. run_inv H.
    eapply append_at_Forall; [exact Hs | | exact H].
    unfold add_sublayer. red. eauto 8.
Qed.

Lemma HighResolutionModule_init_inv {py : Interpreter}
  (nc nf : list Z) (se mso : bool) (name : string)
  (n : nat) (h : HighResolutionModule.t) (n' : nat) :
  runStateT (HighResolutionModule.init nc nf se mso name) n = inr (h, n') ->
  exists n1,
    runStateT (Branches.init 4 nc nf se name) n
    = inr (HighResolutionModule.branches_func h, n1)
    /\ runStateT (FuseLayers.init nf nf mso name) n1
       = inr (HighResolutionModule.fuse_func h, n').
Proof.
  intros H. unfold HighResolutionModule.init in H. run_inv H.
  injection H as Hh Hn. subst h n'. exists n0. split; assumption.
Qed.

(** The modules of a stage, one by one: module [i] is built with
    [multi_scale_output=False] exactly when it is the last one and the stage
    was asked for it. *)
Lemma Stage_init_inv {py : Interpreter}
  (nc : list Z) (nm : Z) (nf : list Z) (se mso : bool)
  (name : string) (n : nat) (st : Stage.t) (n' : nat) :
  runStateT (Stage.init nc nm nf se mso name) n = inr (st, n') ->
  Stage._num_modules st = nm
  /\ length (Stage.stage_func_list st) = Z.to_nat nm
  /\ forall i h, nth_error (Stage.stage_func_list st) i = Some h ->
       exists k k',
         runStateT
           (HighResolutionModule.init nc nf se
              (negb ((Z.of_nat i =? nm - 1) && negb mso))
              (name ++ "_" ++ str (i + 1))%string) k
         = inr (h, k').
Proof.
  intros H. unfold Stage.init in H. run_inv H.
  injection H as Hst Hn. subst st n'.
  cbn [Stage._num_modules Stage.stage_func_list].
  split; [reflexivity |].
  unfold rangeZ, range in Hrun.
  apply (foldM_seq_inv
           (fun i (l : list HighResolutionModule.t) (_ : nat) =>
              length l = i
              /\ forall p h, nth_error l p = Some h ->
                   exists k k',
                     runStateT
                       (HighResolutionModule.init nc nf se
                          (negb ((Z.of_nat p =? nm - 1) && negb mso))
                          (name ++ "_" ++ str (p + 1))%string) k
                     = inr (h, k'))) in Hrun.
  - exact Hrun.
  - split; [reflexivity |]. intros [| p] h Hp; discriminate.
  - clear. intros i l n l' n' _ [Hlen Hall] H. run_inv H.
    injection H as Hl Hn. subst l' n'.
    split; [rewrite length_app; cbn; lia |].
    intros p h Hp.
    destruct (Nat.lt_ge_cases p (length l)) as [Hlt | Hge].
    + rewrite nth_error_app1 in Hp by assumption. apply Hall. exact Hp.
    + rewrite nth_error_app2 in Hp by assumption.
      destruct (p - length l)%nat as [| q] eqn:Hq; [| destruct q; discriminate].
      cbn in Hp. injection Hp as Hh. subst h.
      assert (p = i) by lia. subst p.
      destruct ((Z.of_nat i =? nm - 1) && negb mso);
        run_inv Hrun; injection Hrun as Ha Hn; subst a n0;
        unfold add_sublayer; cbn [negb]; eauto.
Qed.

Lemma Stage_init_blocks {py : Interpreter}
  (nc : list Z) (nm : Z) (nf : list Z) (se mso : bool)
  (name : string) (n : nat) (st : Stage.t) (n' : nat) :
  runStateT (Stage.init nc nm nf se mso name) n = inr (st, n') ->
  Forall (built_by_Branches se) (Stage.basic_blocks st).
Proof.
  intros H. apply Stage_init_inv in H. destruct H as (_ & _ & Hall).
  unfold Stage.basic_blocks. rewrite flat_map_concat_map.
  apply Forall_concat. apply Forall_map. apply Forall_forall.
  intros h Hin. apply In_nth_error in Hin. destruct Hin as [i Hi].
  destruct (Hall i h Hi) as (k & k' & Hh).
  apply HighResolutionModule_init_inv in Hh. destruct Hh as (n1 & Hb & _).
  unfold HighResolutionModule.basic_blocks.
  eapply Branches_init_blocks. exact Hb.
Qed.

Lemma LastClsOut_init_blocks {py : Interpreter}
  (ncl : list Z) (se : bool) (nfl : list Z) (name : string)
  (n : nat) (l : LastClsOut.t) (n' : nat) :
  runStateT (LastClsOut.init ncl se nfl name) n = inr (l, n') ->
  Forall (built_by_LastClsOut se) (LastClsOut.func_list l).
Proof.
  intros H. unfold LastClsOut.init in H. run_inv H.
  injection H as Hl Hn. subst l n'. cbn [LastClsOut.func_list].
  revert Hrun. unfold range. apply foldM_seq_inv_simple; [constructor |].
  clear. intros i s n s' n' Hs H. run_inv H.
  injection H as Hs' Hn. subst s' n'.
  apply Forall_app. split; [assumption |].
  constructor; [| constructor]. unfold add_sublayer. red. eauto 8.
Qed.

(** The dict [self.channels] has exactly eight keys, and at key [w] the
    three lists [w, 2w], [w, 2w, 4w], [w, 2w, 4w, 8w]. *)
Lemma channels_lookup (w : Z) (n : nat) :
  runStateT (HRNet.dict_get HRNet.channels w) n =
  if existsb (Z.eqb w) [18; 30; 32; 40; 44; 48; 60; 64]
  then inr ([[w; 2 * w]; [w; 2 * w; 4 * w]; [w; 2 * w; 4 * w; 8 * w]], n)
  else inl KeyError.
Proof.
  unfold HRNet.channels. cbn [HRNet.dict_get existsb].
  repeat match goal with
  | |- context [(?k =? w)] =>
      rewrite (Z.eqb_sym k w); destruct (Z.eqb_spec w k) as [-> | _];
      [reflexivity |]; cbn [orb]
  end.
  reflexivity.
Qed.

Lemma HRNet_init_inv {py : Interpreter}
  (w : Z) (se : bool) (cd : Z) (n : nat) (net : HRNet.t) (n' : nat) :
  runStateT (HRNet.init w se cd) n = inr (net, n') ->
  let c2 := [w; 2 * w] in
  let c3 := [w; 2 * w; 4 * w] in
  let c4 := [w; 2 * w; 4 * w; 8 * w] in
  existsb (Z.eqb w) [18; 30; 32; 40; 44; 48; 60; 64] = true
  /\ HRNet.width net = w /\ HRNet.has_se net = se /\ HRNet._class_dim net = cd
  /\ (exists k k', runStateT (TransitionLayer.init [256] c2 "tr1") k
                   = inr (HRNet.tr1 net, k'))
  /\ (exists k k', runStateT (Stage.init c2 1 c2 se true "st2") k
                   = inr (HRNet.st2 net, k'))
  /\ (exists k k', runStateT (TransitionLayer.init c2 c3 "tr2") k
                   = inr (HRNet.tr2 net, k'))
  /\ (exists k k', runStateT (Stage.init c3 4 c3 se true "st3") k
                   = inr (HRNet.st3 net, k'))
  /\ (exists k k', runStateT (TransitionLayer.init c3 c4 "tr3") k
                   = inr (HRNet.tr3 net, k'))
  /\ (exists k k', runStateT (Stage.init c4 3 c4 se true "st4") k
                   = inr (HRNet.st4 net, k'))
  /\ (exists k k', runStateT (LastClsOut.init c4 se [32; 64; 128; 256] "cls_head") k
                   = inr (HRNet.last_cls net, k')).
Proof.
  intros H c2 c3 c4. unfold HRNet.init in H.
  apply run_bind_inv in H. destruct H as (chs & n0 & Hch & H).
  rewrite channels_lookup in Hch.
  destruct (existsb (Z.eqb w) [18; 30; 32; 40; 44; 48; 60; 64]); [| discriminate].
  injection Hch as Hchs Hn0. subst chs n0.
  cbn [HRNet.unpack3] in H. run_inv H.
  injection Hrun as Ha Hn. subst a n0.
  run_inv H. injection H as Hnet Hn. subst net n'.
  cbn [HRNet.width HRNet.has_se HRNet._class_dim HRNet.tr1 HRNet.st2 HRNet.tr2
       HRNet.st3 HRNet.tr3 HRNet.st4 HRNet.last_cls].
  repeat (split; [solve [reflexivity | eauto] |]). eauto.
Qed.

Lemma HRNet_init_basic_blocks {py : Interpreter}
  (w : Z) (se : bool) (cd : Z) (n : nat) (net : HRNet.t)
  (n' : nat) :
  runStateT (HRNet.init w se cd) n = inr (net, n') ->
  Forall (built_by_Branches se) (HRNet.basic_blocks net).
Proof.
  intros H. apply HRNet_init_inv in H. cbv zeta in H.
  destruct H as (_ & _ & _ & _ & _ & (k2 & k2' & H2) & _ & (k3 & k3' & H3) & _
                 & (k4 & k4' & H4) & _).
  unfold HRNet.basic_blocks, HRNet.stages. cbn [flat_map].
  repeat (apply Forall_app; split); try constructor;
    eapply Stage_init_blocks; eassumption.
Qed.

(** ** Values of the block [forward]s over total operations *)

Section PureBlocks.
Context {Tensor : Type} {ops : Pure.Ops Tensor}.

Lemma ConvBNLayer_forward_pure (l : ConvBNLayer.t) (x : Tensor) :
  ConvBNLayer.forward l x = inr (Pure.conv_bn l x).
Proof. reflexivity. Qed.


Lemma BasicBlock_forward_pure (b : BasicBlock.t) (x : Tensor) :
  BasicBlock.downsample b = false ->
  (BasicBlock.has_se b = true -> BasicBlock.se b <> None) ->
  BasicBlock.forward b x =
  inr (Pure.relu
         (Pure.add x
            (Pure.se_opt (if BasicBlock.has_se b then BasicBlock.se b else None)
               (Pure.conv_bn (BasicBlock.conv2 b)
                  (Pure.conv_bn (BasicBlock.conv1 b) x))))).
Proof.
  intros Hds Hse. unfold BasicBlock.forward. rewrite Hds.
  destruct (BasicBlock.has_se b); [| reflexivity].
  destruct (BasicBlock.se b) as [s |]; [reflexivity | now destruct Hse].
Qed.

Lemma BottleneckBlock_forward_pure (b : BottleneckBlock.t) (x : Tensor) :
  (if BottleneckBlock.downsample b then BottleneckBlock.conv_down b <> None else True) ->
  (if BottleneckBlock.has_se b
   then BottleneckBlock.se b <> None else BottleneckBlock.se b = None) ->
  BottleneckBlock.forward b x =
  inr (Pure.relu
         (Pure.add
            (match BottleneckBlock.downsample b, BottleneckBlock.conv_down b with
             | true, Some c => Pure.conv_bn c x
             | _, _ => x
             end)
            (Pure.se_opt (BottleneckBlock.se b)
               (Pure.conv_bn (BottleneckBlock.conv3 b)
                  (Pure.conv_bn (BottleneckBlock.conv2 b)
                     (Pure.conv_bn (BottleneckBlock.conv1 b) x)))))).
Proof.
  intros Hds Hse. unfold BottleneckBlock.forward.
  destruct (BottleneckBlock.downsample b);
    [destruct (BottleneckBlock.conv_down b) as [c |]; [| now destruct Hds] |];
    (destruct (BottleneckBlock.has_se b);
     [destruct (BottleneckBlock.se b) as [s |]; [reflexivity | now destruct Hse]
     | rewrite Hse; reflexivity]).
Qed.

End PureBlocks.

Lemma FuseLayers_init_attrs (inc outc : list Z) (mso : bool) (name : string)
  (n : nat) (fl : FuseLayers.t) (n' : nat) :
  runStateT (FuseLayers.init inc outc mso name) n = inr (fl, n') ->
  FuseLayers._in_channels fl = inc
  /\ FuseLayers._actual_ch fl = (if mso then length inc else 1%nat).
Proof.
  intros H. unfold FuseLayers.init in H. run_inv H.
  injection H as Hfl _. subst fl. split; reflexivity.
Qed.

Lemma Stage_init_channels {py : Interpreter}
  (nc : list Z) (nm : Z) (nf : list Z) (se mso : bool)
  (name : string) (n : nat) (st : Stage.t) (n' : nat) :
  runStateT (Stage.init nc nm nf se mso name) n = inr (st, n') ->
  stage_has_channels st nf.
Proof.
  intros H h Hin. apply Stage_init_inv in H. destruct H as (_ & _ & Hall).
  apply In_nth_error in Hin. destruct Hin as [i Hi].
  destruct (Hall i h Hi) as (k & k' & Hh).
  apply HighResolutionModule_init_inv in Hh. destruct Hh as (n1 & _ & Hf).
  apply FuseLayers_init_attrs in Hf. apply Hf.
Qed.

(** With the assertions enabled, [HRNet.__init__] raises [AssertionError] at
    each of the eight widths: the container of the first layer is given
    strings. *)
Lemma HRNet_init_asserts {py : Interpreter} (w : Z) (se : bool) (cd : Z) (n : nat) :
  __debug__ = true ->
  existsb (Z.eqb w) [18; 30; 32; 40; 44; 48; 60; 64] = true ->
  runStateT (HRNet.init w se cd) n = inl AssertionError.
Proof.
  intros Hd H. destruct py as [d]. cbn in Hd. subst d.
  cbn [existsb] in H.
  repeat match type of H with
  | (w =? ?k) || _ = true =>
      destruct (Z.eqb_spec w k) as [-> | _];
      [clear H; destruct se; vm_compute; reflexivity | cbn [orb] in H]
  end.
  discriminate H.
Qed.

Lemma HRNet_init_unsupported {py : Interpreter} (w : Z) (se : bool) (cd : Z) (n : nat) :
  existsb (Z.eqb w) [18; 30; 32; 40; 44; 48; 60; 64] = false ->
  runStateT (HRNet.init w se cd) n = inl KeyError.
Proof.
  intros H. unfold HRNet.init.
  change (runStateT (bind ?c ?k) n)
    with (match runStateT c n with inl e => inl e | inr (a, s) => runStateT (k a) s end).
  rewrite channels_lookup, H. reflexivity.
Qed.

(** ** Loops of the [forward] methods, in the exception monad *)

Section SumForward.
Context {Tensor : Type} {P : Paddle (sum PyExc) Tensor}.

Lemma getitem_sum_Some {A : Type} (l : list A) (i : nat) (a : A) :
  nth_error l i = Some a -> (getitem l i : PyExc + A) = inr a.
Proof. unfold getitem. now intros ->. Qed.

Lemma getitem_sum_None {A : Type} (l : list A) (i : nat) :
  nth_error l i = None -> (getitem l i : PyExc + A) = inl IndexError.
Proof. unfold getitem. now intros ->. Qed.

Lemma skipn_nth_error {A : Type} (l : list A) (a : nat) (g : A) :
  nth_error l a = Some g -> skipn a l = g :: skipn (S a) l.
Proof.
  revert a. induction l as [| x l IH]; intros [| a] H; try discriminate.
  - cbn in H. injection H as ->. reflexivity.
  - cbn in H. cbn [skipn]. rewrite (IH a H). reflexivity.
Qed.

(** Indexing a list with a loop variable that runs over a range of its
    positions is iterating over that slice of the list. *)
Lemma foldM_getitem_slice {A B : Type} (f : A -> B -> PyExc + B) (l : list A)
  (len a : nat) (x : B) :
  (a + len <= length l)%nat ->
  foldM (fun idx out => g <- getitem l idx ;; f g out) (seq a len) x
  = foldM f (firstn len (skipn a l)) x.
Proof.
  revert a x. induction len as [| len IH]; intros a x Hle; [reflexivity |].
  destruct (nth_error l a) as [g |] eqn:Hg;
    [| apply nth_error_None in Hg; lia].
  rewrite (skipn_nth_error l a g Hg). cbn [seq foldM firstn].
  rewrite (getitem_sum_Some _ _ _ Hg). cbn.
  destruct (f g x) as [e | y]; [reflexivity |].
  apply IH. lia.
Qed.

Lemma Stage_forward_sequential (st : Stage.t) (input : list Tensor) :
  length (Stage.stage_func_list st) = Z.to_nat (Stage._num_modules st) ->
  Stage.forward st input
  = foldM HighResolutionModule.forward (Stage.stage_func_list st) input.
Proof.
  intros Hlen. unfold Stage.forward, rangeZ, range.
  rewrite (foldM_getitem_slice HighResolutionModule.forward) by (cbn; lia).
  cbn [skipn]. rewrite <- Hlen, firstn_all. reflexivity.
Qed.

End SumForward.

(** ** TransitionLayer *)

Lemma TransitionLayer_init_inv (inc outc : list Z) (name : string) (n : nat)
  (tl : TransitionLayer.t) (n' : nat) :
  runStateT (TransitionLayer.init inc outc name) n = inr (tl, n') ->
  length (TransitionLayer.conv_bn_func_list tl) = length outc
  /\ forall i e, nth_error (TransitionLayer.conv_bn_func_list tl) i = Some e ->
       transition_entry inc outc i e.
Proof.
  intros H. unfold TransitionLayer.init in H. run_inv H.
  injection H as Htl Hn. subst tl n'. cbn [TransitionLayer.conv_bn_func_list].
  unfold range in Hrun.
  apply (foldM_seq_inv
           (fun i (l : list (option ConvBNLayer.t)) (_ : nat) =>
              length l = i
              /\ forall p e, nth_error l p = Some e -> transition_entry inc outc p e))
    in Hrun.
  - exact Hrun.
  - split; [reflexivity |]. intros [| p] e Hp; discriminate.
  - clear. intros i l n l' n' _ [Hlen Hall] H. run_inv H.
    injection H as Hl Hn. subst l' n'.
    split; [rewrite length_app; cbn; lia |].
    intros p e Hp.
    destruct (Nat.lt_ge_cases p (length l)) as [Hlt | Hge].
    { rewrite nth_error_app1 in Hp by assumption. apply Hall. exact Hp. }
    rewrite nth_error_app2 in Hp by assumption.
    destruct (p - length l)%nat as [| q] eqn:Hq; [| destruct q; discriminate].
    cbn in Hp. injection Hp as He. subst e.
    assert (p = i) by lia. subst p. clear Hq Hge Hall Hlen.
    unfold transition_entry.
    destruct (i <? length inc)%nat.
    + run_inv Hrun.
      apply getitem_ctor_inv in Hrun0, Hrun1. cbn [fst snd] in Hrun0, Hrun1.
      destruct Hrun0 as [Hin ->], Hrun1 as [Hout ->].
      exists a1. split; [assumption |]. exists a0. split; [assumption |].
      destruct (a0 =? a1); cbn [negb] in Hrun; run_inv Hrun.
      * injection Hrun as Ha _. auto.
      * rewrite ConvBNLayer_init_run in Hrun0. injection Hrun0 as Hc Hn.
        injection Hrun as Ha _. subst. unfold add_sublayer.
        eexists _, _. split; reflexivity.
    + run_inv Hrun.
      apply getitem_ctor_inv in Hrun0, Hrun1. cbn [fst snd] in Hrun0, Hrun1.
      destruct Hrun0 as [Hin ->], Hrun1 as [Hout ->].
      rewrite ConvBNLayer_init_run in Hrun2. injection Hrun2 as Hc Hn.
      injection Hrun as Ha _. subst. unfold add_sublayer.
      exists a1. split; [assumption |].
      eexists _, _, _. split; [exact Hin |]. split; reflexivity.
Qed.

Section PureTransition.
Context {Tensor : Type} {ops : Pure.Ops Tensor}.

(** One pass of the loop of [forward]: as long as every entry finds the input
    it reads, the loop appends one output per entry. *)
Lemma TransitionLayer_forward_loop (x : list Tensor)
  (es : list (nat * option ConvBNLayer.t)) (outs0 : list Tensor) :
  Forall (fun '(idx, e) =>
            match e with
            | None => (idx < length x)%nat
            | Some _ => x <> []
            end) es ->
  exists outs,
    foldM (fun '(idx, conv_bn_func) outs =>
             match conv_bn_func with
             | None => x_idx <- getitem x idx ;; ret (outs ++ [x_idx])
             | Some conv_bn_func =>
                 if (idx <? length x)%nat
                 then x_idx <- getitem x idx ;;
                      y <- ConvBNLayer.forward conv_bn_func x_idx ;;
                      ret (outs ++ [y])
                 else x_last <- getitem_last x ;;
                      y <- ConvBNLayer.forward conv_bn_func x_last ;;
                      ret (outs ++ [y])
             end) es outs0
    = inr (outs0 ++ outs)
    /\ Forall2 (fun '(idx, e) o => transition_output x idx e o) es outs.
Proof.
  revert outs0. induction es as [| [idx e] es IH]; intros outs0 Hes.
  - exists []. rewrite app_nil_r. split; [reflexivity | constructor].
  - inversion Hes as [| p es' Hp Hes']; subst.
    assert (Hstep : exists o,
              transition_output x idx e o
              /\ forall k : list Tensor -> PyExc + list Tensor,
                   (s' <- match e with
                          | None => x_idx <- getitem x idx ;; ret (outs0 ++ [x_idx])
                          | Some conv_bn_func =>
                              if (idx <? length x)%nat
                              then x_idx <- getitem x idx ;;
                                   y <- ConvBNLayer.forward conv_bn_func x_idx ;;
                                   ret (outs0 ++ [y])
                              else x_last <- getitem_last x ;;
                                   y <- ConvBNLayer.forward conv_bn_func x_last ;;
                                   ret (outs0 ++ [y])
                          end ;; k s')
                   = k (outs0 ++ [o])).
    { destruct e as [c |].
      - unfold transition_output.
        destruct (Nat.ltb_spec idx (length x)) as [Hlt | Hge].
        + destruct (nth_error x idx) as [xi |] eqn:Hxi;
            [| apply nth_error_None in Hxi; lia].
          exists (Pure.conv_bn c xi). split; [eauto |].
          intros k. rewrite (getitem_sum_Some _ _ _ Hxi). reflexivity.
        + destruct (nth_error x (length x - 1)) as [xl |] eqn:Hxl.
          * exists (Pure.conv_bn c xl). split; [eauto |].
            intros k. unfold getitem_last.
            rewrite (getitem_sum_Some _ _ _ Hxl). reflexivity.
          * apply nth_error_None in Hxl. destruct x; [now destruct Hp |].
            cbn in Hxl. lia.
      - destruct (nth_error x idx) as [xi |] eqn:Hxi;
          [| apply nth_error_None in Hxi; lia].
        exists xi. split; [exact Hxi |].
        intros k. rewrite (getitem_sum_Some _ _ _ Hxi). reflexivity. }
    destruct Hstep as (o & Ho & Hk).
    destruct (IH (outs0 ++ [o]) Hes') as (outs & Hrun & Hall).
    exists (o :: outs). split.
    + cbn [foldM]. rewrite Hk, Hrun, <- app_assoc. reflexivity.
    + constructor; assumption.
Qed.

End PureTransition.

(** ** The layout of the layers of [FuseLayers] *)

Lemma assign_ids_app (id : nat) (fs gs : list (nat -> ConvBNLayer.t)) :
  FuseLayout.assign_ids id (fs ++ gs)
  = FuseLayout.assign_ids id fs
    ++ FuseLayout.assign_ids (id + 2 * length fs) gs.
Proof.
  revert id. induction fs as [| f fs IH]; intros id.
  - cbn. now rewrite Nat.add_0_r.
  - cbn [app FuseLayout.assign_ids length]. rewrite IH. cbn [app].
    do 3 f_equal. lia.
Qed.

Lemma assign_ids_length (id : nat) (fs : list (nat -> ConvBNLayer.t)) :
  length (FuseLayout.assign_ids id fs) = length fs.
Proof. revert id. induction fs; intros id; cbn; [reflexivity | now rewrite IHfs]. Qed.

Lemma chunk_length (inc outc : list Z) (i j : nat) :
  length (FuseLayout.chunk inc outc i j) = FuseLayout.need i j.
Proof.
  unfold FuseLayout.chunk, FuseLayout.need.
  destruct (i <? j)%nat; [reflexivity |]. now rewrite length_map, length_seq.
Qed.

Lemma flat_map_seq_S {A : Type} (f : nat -> list A) (n : nat) :
  flat_map f (seq 0 (S n)) = flat_map f (seq 0 n) ++ f n.
Proof. rewrite seq_S, flat_map_app. cbn. now rewrite app_nil_r. Qed.

Lemma row_prefix_length (inc outc : list Z) (i j : nat) :
  length (flat_map (FuseLayout.chunk inc outc i) (seq 0 j)) = FuseLayout.row_offset i j.
Proof.
  induction j as [| j IH]; [reflexivity |].
  rewrite flat_map_seq_S, length_app, IH, chunk_length. reflexivity.
Qed.

Lemma layers_prefix_length (inc outc : list Z) (i : nat) :
  length (FuseLayout.layers inc outc i) = FuseLayout.base_offset (length inc) i.
Proof.
  unfold FuseLayout.layers. induction i as [| i IH]; [reflexivity |].
  rewrite flat_map_seq_S, length_app, IH. unfold FuseLayout.row.
  rewrite row_prefix_length. reflexivity.
Qed.

Lemma firstn_S_nth_error {A : Type} (l : list A) (k : nat) (x : A) :
  nth_error l k = Some x -> firstn (S k) l = firstn k l ++ [x].
Proof.
  revert k. induction l as [| y l IH]; intros [| k] H; try discriminate.
  - injection H as ->. reflexivity.
  - cbn in H. cbn [firstn app]. f_equal. apply IH. exact H.
Qed.

Lemma firstn_S_map_seq {A : Type} (f : nat -> A) (m k : nat) :
  (k < m)%nat ->
  firstn (S k) (map f (seq 0 m)) = firstn k (map f (seq 0 m)) ++ [f k].
Proof.
  intros Hk. apply firstn_S_nth_error.
  rewrite nth_error_map, nth_error_seq.
  destruct (Nat.ltb_spec k m); [reflexivity | lia].
Qed.

Lemma getitem_ctor_nth (l : list Z) (i : nat) (n : nat) (a : Z) (n' : nat) :
  runStateT (getitem l i : Ctor Z) n = inr (a, n') ->
  nth i l 0 = a /\ n' = n /\ (i < length l)%nat.
Proof.
  intros H. apply getitem_ctor_inv in H. cbn [fst snd] in H. destruct H as [H ->].
  split; [apply nth_error_nth; exact H |]. split; [reflexivity |].
  apply nth_error_Some. congruence.
Qed.

(** The constructor builds exactly the layers of the layout, in order, with
    consecutive identities. *)
Lemma FuseLayers_init_layout (inc outc : list Z) (mso : bool) (name : string)
  (n : nat) (fl : FuseLayers.t) (n' : nat) :
  runStateT (FuseLayers.init inc outc mso name) n = inr (fl, n') ->
  let actual := if mso then length inc else 1%nat in
  FuseLayers._actual_ch fl = actual
  /\ FuseLayers._in_channels fl = inc
  /\ FuseLayers.residual_func_list fl
     = FuseLayout.assign_ids n (FuseLayout.layers inc outc actual)
  /\ n' = (n + 2 * length (FuseLayout.layers inc outc actual))%nat.
Proof.
  intros H actual. unfold FuseLayers.init in H. run_inv H.
  injection H as Hfl Hn. subst fl n'.
  cbn [FuseLayers._actual_ch FuseLayers._in_channels FuseLayers.residual_func_list].
  split; [reflexivity |]. split; [reflexivity |].
  fold actual in Hrun. unfold range in Hrun.
  apply (foldM_seq_inv
           (fun i (l : list ConvBNLayer.t) (c : nat) =>
              l = FuseLayout.assign_ids n (FuseLayout.layers inc outc i)
              /\ c = (n + 2 * length (FuseLayout.layers inc outc i))%nat))
    in Hrun; [exact Hrun | unfold FuseLayout.layers; split; cbn; [reflexivity | lia] |].
  clear. intros i l0 c0 l1 c1 _ [Hl0 Hc0] Hrow.
  unfold FuseLayout.layers. rewrite flat_map_seq_S, assign_ids_app, length_app.
  fold (FuseLayout.layers inc outc i). rewrite <- Hl0, <- Hc0. clear Hl0.
  unfold FuseLayout.row.
  apply (foldM_seq_inv
           (fun j (l : list ConvBNLayer.t) (c : nat) =>
              l = l0 ++ FuseLayout.assign_ids c0
                         (flat_map (FuseLayout.chunk inc outc i) (seq 0 j))
              /\ c = (c0 + 2 * length (flat_map (FuseLayout.chunk inc outc i)
                                        (seq 0 j)))%nat))
    in Hrow.
  { cbn [Nat.add] in Hrow. destruct Hrow as [-> ->]. split; [reflexivity | lia]. }
  { cbn. rewrite app_nil_r. split; [reflexivity | lia]. }
  clear. intros j l c l' c' _ [Hl Hc] Hstep.
  rewrite flat_map_seq_S, assign_ids_app, length_app, app_assoc, <- Hl.
  replace (c0 + 2 * length (flat_map (FuseLayout.chunk inc outc i) (seq 0 j)))%nat
    with c by lia.
  assert (Hgoal : l' = l ++ FuseLayout.assign_ids c (FuseLayout.chunk inc outc i j)
                  /\ c' = (c + 2 * length (FuseLayout.chunk inc outc i j))%nat);
    [| destruct Hgoal as [-> ->]; split; [reflexivity | lia]].
  clear Hl Hc. unfold FuseLayout.chunk.
  destruct (i <? j)%nat eqn:Hij.
  - run_inv Hstep. injection Hstep as Hl' Hc'. subst l' c'.
    apply getitem_ctor_nth in Hrun, Hrun0.
    destruct Hrun as (-> & -> & _), Hrun0 as (-> & -> & _).
    rewrite ConvBNLayer_init_run in Hrun1. injection Hrun1 as Hc1 Hn1. subst.
    unfold add_sublayer. cbn. split; [reflexivity | lia].
  - destruct (j <? i)%nat eqn:Hji.
    2:{ apply run_ret_inv in Hstep. injection Hstep as -> ->.
        apply Nat.ltb_ge in Hij, Hji. replace (i - j)%nat with 0%nat by lia.
        cbn. rewrite app_nil_r. split; [reflexivity | lia]. }
    apply Nat.ltb_lt in Hji. clear Hij.
    run_inv Hstep. destruct a0 as [pre l2].
    injection Hstep as Hl' Hc'. subst l' c'.
    apply getitem_ctor_nth in Hrun. destruct Hrun as (<- & -> & _).
    unfold range in Hrun0.
    apply (foldM_seq_inv
             (fun k (st : Z * list ConvBNLayer.t) (cc : nat) =>
                ((k < i - j)%nat ->
                 fst st = if (k =? 0)%nat then nth j inc 0 else nth j outc 0)
                /\ snd st
                   = l ++ FuseLayout.assign_ids c
                          (firstn k
                             (map (fun k =>
                                     let pre_num_filters :=
                                       if (k =? 0)%nat then nth j inc 0
                                       else nth j outc 0 in
                                     if (k =? i - j - 1)%nat
                                     then FuseLayout.layer_at pre_num_filters
                                            (nth i outc 0) 3 2 None
                                     else FuseLayout.layer_at pre_num_filters
                                            (nth j outc 0) 3 2 (Some "relu"))
                                (seq 0 (i - j))))
                /\ cc = (c + 2 * k)%nat))
      in Hrun0.
    + cbn [Nat.add fst snd] in Hrun0. destruct Hrun0 as (_ & Hl2 & Hcc).
      rewrite firstn_all2 in Hl2 by (rewrite length_map, length_seq; lia).
      rewrite length_map, length_seq. split; assumption.
    + cbn. rewrite app_nil_r. repeat split. lia.
    + clear l2 n0 pre Hrun0. intros k [pre l2] cc [pre' l3] cc' Hk (Hpre & Hl2 & Hcc) Hbody.
      cbn [fst snd] in *. specialize (Hpre ltac:(lia)).
      rewrite firstn_S_map_seq by lia. rewrite assign_ids_app, app_assoc, <- Hl2.
      rewrite firstn_length_le by (rewrite length_map, length_seq; lia).
      rewrite <- Hcc. cbv zeta. rewrite <- Hpre.
      destruct (k =? i - j - 1)%nat eqn:Hlast.
      * run_inv Hbody. injection Hbody as Hp Hl3 Hcc'. subst pre' l3 cc'.
        apply getitem_ctor_nth in Hrun. destruct Hrun as (-> & -> & _).
        rewrite ConvBNLayer_init_run in Hrun0. injection Hrun0 as Hc1 Hn1. subst.
        unfold add_sublayer. cbn [FuseLayout.assign_ids].
        split; [apply Nat.eqb_eq in Hlast; lia |].
        split; [reflexivity | lia].
      * run_inv Hbody. injection Hbody as Hp Hl3 Hcc'. subst pre' l3 cc'.
        apply getitem_ctor_nth in Hrun. destruct Hrun as (-> & -> & _).
        rewrite ConvBNLayer_init_run in Hrun0. injection Hrun0 as Hc1 Hn1. subst.
        unfold add_sublayer. cbn [FuseLayout.assign_ids].
        split; [reflexivity |].
        split; [reflexivity | lia].
Qed.

Lemma row_offset_mono (i j j' : nat) :
  (j <= j')%nat -> (FuseLayout.row_offset i j <= FuseLayout.row_offset i j')%nat.
Proof. induction 1; cbn; lia. Qed.

Lemma base_offset_mono (n i i' : nat) :
  (i <= i')%nat -> (FuseLayout.base_offset n i <= FuseLayout.base_offset n i')%nat.
Proof. induction 1; cbn; lia. Qed.

Lemma fold_left_skip {A : Type} (g : A -> nat -> A) (i : nat) (l : list nat) (r : A) :
  fold_left (fun r j => if (j =? i)%nat then r else g r j) l r
  = fold_left g (filter (fun j => negb (j =? i)%nat) l) r.
Proof.
  revert r. induction l as [| j l IH]; intros r; [reflexivity |].
  cbn [fold_left filter]. destruct (j =? i)%nat; cbn [negb fold_left]; apply IH.
Qed.

(** ** The loops of [FuseLayers.forward] over total operations *)

Section PureFuse.
Context {Tensor : Type} {ops : Pure.Ops Tensor}.
Variable self : FuseLayers.t.
Variable input : list Tensor.
Variable d : Tensor.


Lemma forward_k_loop (m a : nat) (y : Tensor) (idx : nat) :
  (idx + m <= length (FuseLayers.residual_func_list self))%nat ->
  foldM (FuseLayers.forward_k self) (seq a m) (y, idx)
  = inr (Pure.conv_bn_chain (firstn m (skipn idx (FuseLayers.residual_func_list self))) y, (idx + m)%nat).
Proof.
  revert a y idx. induction m as [| m IH]; intros a y idx Hle.
  - cbn. now rewrite Nat.add_0_r.
  - destruct (nth_error (FuseLayers.residual_func_list self) idx) as [c |] eqn:Hc;
      [| apply nth_error_None in Hc; lia].
    rewrite (skipn_nth_error (FuseLayers.residual_func_list self) idx c Hc).
    cbn [seq foldM firstn]. unfold FuseLayers.forward_k at 1. 
    rewrite (getitem_sum_Some _ _ _ Hc). cbn [bind Monad_either].
    rewrite ConvBNLayer_forward_pure. cbn [bind Monad_either ret].
    rewrite IH by lia. rewrite Nat.add_1_r.
    unfold Pure.conv_bn_chain. cbn [fold_left]. do 2 f_equal. lia.
Qed.

Lemma forward_j_step (i j : nat) (r : Tensor) (idx : nat) :
  (j < length input)%nat ->
  (idx + FuseLayout.need i j <= length (FuseLayers.residual_func_list self))%nat ->
  FuseLayers.forward_j self input i j (r, idx)
  = inr (if (j =? i)%nat then r
         else Pure.add r (fuse_contribution_at (FuseLayers.residual_func_list self) input d i j idx),
         (idx + FuseLayout.need i j)%nat).
Proof.
  intros Hj Hle. unfold FuseLayers.forward_j, fuse_contribution_at, FuseLayout.need in *.
  assert (Hin : nth_error input j = Some (nth j input d)) by (now apply nth_error_nth').
  destruct (Nat.ltb_spec i j) as [Hij | Hij].
  - destruct (nth_error (FuseLayers.residual_func_list self) idx) as [c |] eqn:Hc;
      [| apply nth_error_None in Hc; lia].
    rewrite (getitem_sum_Some _ _ _ Hc), (getitem_sum_Some _ _ _ Hin).
    cbn [bind Monad_either]. rewrite ConvBNLayer_forward_pure.
    rewrite (skipn_nth_error (FuseLayers.residual_func_list self) idx c Hc).
    destruct (Nat.eqb_spec j i) as [-> | _]; [lia |].
    rewrite Nat.add_1_r. reflexivity.
  - destruct (Nat.ltb_spec j i) as [Hji | Hji].
    + rewrite (getitem_sum_Some _ _ _ Hin). cbn [bind Monad_either].
      unfold range. rewrite forward_k_loop by exact Hle. cbn [bind Monad_either].
      destruct (Nat.eqb_spec j i) as [-> | _]; [lia |]. reflexivity.
    + assert (j = i) by lia. subst j. rewrite Nat.eqb_refl, Nat.sub_diag, Nat.add_0_r.
      reflexivity.
Qed.

Lemma forward_j_loop (i len j0 : nat) (r : Tensor) (base : nat) :
  (j0 + len <= length input)%nat ->
  (base + FuseLayout.row_offset i (j0 + len) <= length (FuseLayers.residual_func_list self))%nat ->
  foldM (FuseLayers.forward_j self input i) (seq j0 len)
    (r, (base + FuseLayout.row_offset i j0)%nat)
  = inr (fold_left
           (fun r j =>
              if (j =? i)%nat then r
              else Pure.add r
                     (fuse_contribution_at (FuseLayers.residual_func_list self) input d i j
                        (base + FuseLayout.row_offset i j)))
           (seq j0 len) r,
         (base + FuseLayout.row_offset i (j0 + len))%nat).
Proof.
  revert j0 r. induction len as [| len IH]; intros j0 r Hin Hle.
  - cbn. now rewrite Nat.add_0_r.
  - cbn [seq foldM fold_left].
    assert (Hmono := row_offset_mono i (S j0) (j0 + S len) ltac:(lia)).
    cbn [FuseLayout.row_offset] in Hmono.
    rewrite forward_j_step by lia. cbn [bind Monad_either].
    replace (base + FuseLayout.row_offset i j0 + FuseLayout.need i j0)%nat
      with (base + FuseLayout.row_offset i (S j0))%nat by (cbn; lia).
    rewrite IH by (try lia; replace (S j0 + len)%nat with (j0 + S len)%nat by lia; lia).
    replace (S j0 + len)%nat with (j0 + S len)%nat by lia. reflexivity.
Qed.

Lemma forward_i_loop (len i0 : nat) (outs : list Tensor) :
  (i0 + len <= length input)%nat ->
  ((length (FuseLayers._in_channels self)) <= length input)%nat ->
  (FuseLayout.base_offset (length (FuseLayers._in_channels self)) (i0 + len) <= length (FuseLayers.residual_func_list self))%nat ->
  foldM (FuseLayers.forward_i self input) (seq i0 len)
    (outs, FuseLayout.base_offset (length (FuseLayers._in_channels self)) i0)
  = inr (outs ++ map (fused_output self input d) (seq i0 len),
         FuseLayout.base_offset (length (FuseLayers._in_channels self)) (i0 + len)).
Proof.
  revert i0 outs. induction len as [| len IH]; intros i0 outs Hin Hn Hle.
  - cbn. now rewrite app_nil_r, Nat.add_0_r.
  - cbn [seq foldM map].
    assert (Hmono := base_offset_mono (length (FuseLayers._in_channels self)) (S i0) (i0 + S len) ltac:(lia)).
    cbn [FuseLayout.base_offset] in Hmono.
    unfold FuseLayers.forward_i at 1.
    assert (Hi : nth_error input i0 = Some (nth i0 input d))
      by (apply nth_error_nth'; lia).
    rewrite (getitem_sum_Some _ _ _ Hi). cbn [bind Monad_either].
    unfold range.
    replace (FuseLayout.base_offset (length (FuseLayers._in_channels self)) i0)
      with (FuseLayout.base_offset (length (FuseLayers._in_channels self)) i0 + FuseLayout.row_offset i0 0)%nat
      by (cbn; lia).
    rewrite forward_j_loop by (cbn [Nat.add]; lia).
    cbn [bind Monad_either Nat.add ret].
    change (FuseLayout.base_offset (length (FuseLayers._in_channels self)) i0 + FuseLayout.row_offset i0 (length (FuseLayers._in_channels self)))%nat
      with (FuseLayout.base_offset (length (FuseLayers._in_channels self)) (S i0)).
    cbn [F_relu Pure.paddle bind Monad_either].
    rewrite IH by (try lia; replace (S i0 + len)%nat with (i0 + S len)%nat by lia; lia).
    replace (S i0 + len)%nat with (i0 + S len)%nat by lia.
    rewrite <- app_assoc. cbn [app]. do 3 f_equal.
    unfold fused_output. f_equal. unfold other_branches.
    rewrite <- fold_left_skip. reflexivity.
Qed.

Lemma FuseLayers_forward_pure :
  (FuseLayers._actual_ch self <= length input)%nat ->
  ((length (FuseLayers._in_channels self)) <= length input)%nat ->
  (FuseLayout.base_offset (length (FuseLayers._in_channels self)) (FuseLayers._actual_ch self) <= length (FuseLayers.residual_func_list self))%nat ->
  foldM (FuseLayers.forward_i self input) (range (FuseLayers._actual_ch self))
    ([], 0%nat)
  = inr (map (fused_output self input d) (range (FuseLayers._actual_ch self)),
         FuseLayout.base_offset (length (FuseLayers._in_channels self)) (FuseLayers._actual_ch self))
  /\ FuseLayers.forward self input
     = inr (map (fused_output self input d) (range (FuseLayers._actual_ch self))).
Proof.
  intros Ha Hn Hle.
  assert (H := forward_i_loop (FuseLayers._actual_ch self) 0 [] Ha Hn Hle).
  cbn [FuseLayout.base_offset Nat.add app] in H.
  split; [exact H |]. unfold FuseLayers.forward. unfold range in *. rewrite H.
  reflexivity.
Qed.

End PureFuse.

(** ** Reading the layout at a position *)

Lemma flat_map_seq_split {A : Type} (f : nat -> list A) (m p : nat) :
  (p < m)%nat ->
  flat_map f (seq 0 m)
  = flat_map f (seq 0 p) ++ f p ++ flat_map f (seq (S p) (m - S p)).
Proof.
  intros Hp. replace m with (p + S (m - S p))%nat at 1 by lia.
  rewrite seq_app, flat_map_app. cbn [seq flat_map Nat.add]. reflexivity.
Qed.

Lemma firstn_skipn_middle_app {A : Type} (l1 l2 l3 : list A) :
  firstn (length l2) (skipn (length l1) (l1 ++ l2 ++ l3)) = l2.
Proof.
  rewrite skipn_app, skipn_all, Nat.sub_diag. cbn [skipn app].
  rewrite firstn_app, firstn_all, Nat.sub_diag. cbn. apply app_nil_r.
Qed.

(** The layers of the pair [(i, j)] sit at [offset n i j], with the
    identities that follow those of the layers before them. *)
Lemma layout_slice (inc outc : list Z) (actual i j id : nat) :
  (i < actual)%nat -> (j < length inc)%nat ->
  firstn (FuseLayout.need i j)
    (skipn (FuseLayout.offset (length inc) i j)
       (FuseLayout.assign_ids id (FuseLayout.layers inc outc actual)))
  = FuseLayout.assign_ids (id + 2 * FuseLayout.offset (length inc) i j)
      (FuseLayout.chunk inc outc i j).
Proof.
  intros Hi Hj. unfold FuseLayout.layers.
  rewrite (flat_map_seq_split _ actual i Hi).
  unfold FuseLayout.row at 2. rewrite (flat_map_seq_split _ (length inc) j Hj).
  rewrite <- !app_assoc, app_assoc.
  set (pre := flat_map (FuseLayout.row inc outc) (seq 0 i)
              ++ flat_map (FuseLayout.chunk inc outc i) (seq 0 j)).
  assert (Hpre : length pre = FuseLayout.offset (length inc) i j).
  { unfold pre, FuseLayout.offset. rewrite length_app, row_prefix_length.
    f_equal. apply (layers_prefix_length inc outc i). }
  rewrite !assign_ids_app, Hpre.
  rewrite <- Hpre at 1. rewrite <- (assign_ids_length id pre).
  rewrite <- (chunk_length inc outc i j).
  rewrite <- (assign_ids_length (id + 2 * FuseLayout.offset (length inc) i j)
                (FuseLayout.chunk inc outc i j)).
  apply firstn_skipn_middle_app.
Qed.

Lemma assign_ids_nth_error (id : nat) (fs : list (nat -> ConvBNLayer.t)) (p : nat) :
  nth_error (FuseLayout.assign_ids id fs) p
  = option_map (fun f => f (id + 2 * p)%nat) (nth_error fs p).
Proof.
  revert id p. induction fs as [| f fs IH]; intros id [| p]; cbn; try reflexivity.
  - now rewrite Nat.add_0_r.
  - rewrite IH. destruct (nth_error fs p); cbn; [| reflexivity].
    do 2 f_equal. lia.
Qed.

Lemma assign_ids_conv_id (id : nat) (fs : list (nat -> ConvBNLayer.t)) (p : nat)
  (c : ConvBNLayer.t) :
  Forall (fun f => forall k, nn.conv_id (ConvBNLayer._conv (f k)) = k) fs ->
  nth_error (FuseLayout.assign_ids id fs) p = Some c ->
  nn.conv_id (ConvBNLayer._conv c) = (id + 2 * p)%nat.
Proof.
  intros Hfs Hp. rewrite assign_ids_nth_error in Hp.
  destruct (nth_error fs p) as [f |] eqn:Hf; [| discriminate].
  cbn in Hp. injection Hp as <-.
  rewrite Forall_forall in Hfs. apply Hfs. eapply nth_error_In. exact Hf.
Qed.

Lemma layers_conv_id (inc outc : list Z) (actual : nat) :
  Forall (fun f => forall k, nn.conv_id (ConvBNLayer._conv (f k)) = k)
    (FuseLayout.layers inc outc actual).
Proof.
  unfold FuseLayout.layers, FuseLayout.row.
  rewrite flat_map_concat_map. apply Forall_concat, Forall_map, Forall_forall.
  intros i _. rewrite flat_map_concat_map. apply Forall_concat, Forall_map, Forall_forall.
  intros j _. unfold FuseLayout.chunk.
  destruct (i <? j)%nat.
  - constructor; [reflexivity | constructor].
  - apply Forall_map, Forall_forall. intros k _. cbv zeta.
    destruct (k =? i - j - 1)%nat; reflexivity.
Qed.

(** The identities of the layers of a [FuseLayers] are pairwise distinct. *)
Lemma assign_ids_NoDup (id : nat) (fs : list (nat -> ConvBNLayer.t)) :
  Forall (fun f => forall k, nn.conv_id (ConvBNLayer._conv (f k)) = k) fs ->
  NoDup (map (fun c => nn.conv_id (ConvBNLayer._conv c)) (FuseLayout.assign_ids id fs)).
Proof.
  intros Hfs. apply (NoDup_nth_error _).
  intros p q Hp Heq. rewrite length_map in Hp.
  rewrite !nth_error_map in Heq.
  destruct (nth_error (FuseLayout.assign_ids id fs) p) as [c |] eqn:Hc;
    [| apply nth_error_None in Hc; lia].
  destruct (nth_error (FuseLayout.assign_ids id fs) q) as [c' |] eqn:Hc';
    [| discriminate].
  cbn in Heq. injection Heq as Heq.
  rewrite (assign_ids_conv_id id fs p c Hfs Hc) in Heq.
  rewrite (assign_ids_conv_id id fs q c' Hfs Hc') in Heq. lia.
Qed.

(** ** Running computations with hidden state *)

Lemma st_bind {S A B : Type} (c : stateT S (sum PyExc) A)
  (k : A -> stateT S (sum PyExc) B) (s : S) :
  runStateT (bind c k) s
  = match runStateT c s with
    | inl e => inl e
    | inr (a, s') => runStateT (k a) s'
    end.
Proof. reflexivity. Qed.

Lemma st_ret {S A : Type} (a : A) (s : S) :
  runStateT (ret a : stateT S (sum PyExc) A) s = inr (a, s).
Proof. reflexivity. Qed.

Lemma st_getitem {S A : Type} (l : list A) (i : nat) (a : A) (s : S) :
  nth_error l i = Some a ->
  runStateT (getitem l i : stateT S (sum PyExc) A) s = inr (a, s).
Proof. unfold getitem. now intros ->. Qed.

(** ** The calls [FuseLayers.forward] makes *)

Lemma row_offset_sum (i j : nat) :
  FuseLayout.row_offset i j
  = list_sum (map (fun j => if (i <? j)%nat then 1%nat else (i - j)%nat) (seq 0 j)).
Proof.
  induction j as [| j IH]; [reflexivity |].
  rewrite seq_S, map_app, list_sum_app. cbn [FuseLayout.row_offset].
  rewrite IH. unfold FuseLayout.need. cbn. lia.
Qed.

Lemma base_offset_count (n i : nat) :
  FuseLayout.base_offset n i = fuse_layer_count n i.
Proof.
  unfold fuse_layer_count. induction i as [| i IH]; [reflexivity |].
  rewrite seq_S, map_app, list_sum_app. cbn [FuseLayout.base_offset].
  rewrite IH, row_offset_sum. cbn. lia.
Qed.

Lemma firstn_add_skipn {A : Type} (l : list A) (a b : nat) :
  firstn (a + b) l = firstn a l ++ firstn b (skipn a l).
Proof.
  revert l. induction a as [| a IH]; intros l; [reflexivity |].
  destruct l as [| x l]; cbn; [now rewrite firstn_nil | now rewrite IH].
Qed.

Lemma ids_between_app (l : list ConvBNLayer.t) (p q r : nat) :
  (p <= q <= r)%nat ->
  Recording.ids_between l p q ++ Recording.ids_between l q r
  = Recording.ids_between l p r.
Proof.
  intros H. unfold Recording.ids_between. rewrite <- map_app. f_equal.
  replace (r - p)%nat with ((q - p) + (r - q))%nat by lia.
  rewrite firstn_add_skipn, skipn_skipn.
  replace (q - p + p)%nat with q by lia. reflexivity.
Qed.

Lemma ids_between_refl (l : list ConvBNLayer.t) (p : nat) :
  Recording.ids_between l p p = [].
Proof. unfold Recording.ids_between. now rewrite Nat.sub_diag. Qed.

Section RecordingFuse.
Variable self : FuseLayers.t.
Variable input : list unit.

Lemma rec_forward_k_loop (m a idx : nat) (log : list nat) :
  (idx + m <= length (FuseLayers.residual_func_list self))%nat ->
  runStateT (foldM (FuseLayers.forward_k self) (seq a m) (tt, idx)) log
  = inr ((tt, (idx + m)%nat),
         log ++ Recording.ids_between (FuseLayers.residual_func_list self)
                  idx (idx + m)).
Proof.
  revert a idx log. induction m as [| m IH]; intros a idx log Hle.
  - cbn [seq foldM]. rewrite st_ret, Nat.add_0_r, ids_between_refl, app_nil_r.
    reflexivity.
  - destruct (nth_error (FuseLayers.residual_func_list self) idx) as [c |] eqn:Hc;
      [| apply nth_error_None in Hc; lia].
    cbn [seq foldM]. rewrite st_bind.
    unfold FuseLayers.forward_k at 1. rewrite st_bind, (st_getitem _ _ _ _ Hc).
    cbn -[foldM Recording.ids_between Nat.add].
    rewrite IH by lia.
    rewrite <- (ids_between_app _ idx (idx + 1) (idx + S m)) by lia.
    rewrite <- app_assoc.
    replace (idx + 1 + m)%nat with (idx + S m)%nat by lia.
    do 3 f_equal.
    unfold Recording.ids_between.
    replace (idx + 1 - idx)%nat with 1%nat by lia.
    rewrite (skipn_nth_error _ _ _ Hc). reflexivity.
Qed.

Lemma rec_forward_j_step (i j idx : nat) (log : list nat) :
  (j < length input)%nat ->
  (idx + FuseLayout.need i j <= length (FuseLayers.residual_func_list self))%nat ->
  runStateT (FuseLayers.forward_j self input i j (tt, idx)) log
  = inr ((tt, (idx + FuseLayout.need i j)%nat),
         log ++ Recording.ids_between (FuseLayers.residual_func_list self)
                  idx (idx + FuseLayout.need i j)).
Proof.
  intros Hj Hle. unfold FuseLayers.forward_j, FuseLayout.need in *.
  assert (Hin : nth_error input j = Some tt).
  { destruct (nth_error input j) as [[] |] eqn:E; [reflexivity |].
    apply nth_error_None in E. lia. }
  destruct (Nat.ltb_spec i j) as [Hij | Hij].
  - destruct (nth_error (FuseLayers.residual_func_list self) idx) as [c |] eqn:Hc;
      [| apply nth_error_None in Hc; lia].
    rewrite st_bind, (st_getitem _ _ _ _ Hc), st_bind, (st_getitem _ _ _ _ Hin).
    cbn -[Recording.ids_between Nat.add].
    unfold Recording.ids_between.
    replace (idx + 1 - idx)%nat with 1%nat by lia.
    rewrite (skipn_nth_error _ _ _ Hc). reflexivity.
  - destruct (Nat.ltb_spec j i) as [Hji | Hji].
    + rewrite st_bind, (st_getitem _ _ _ _ Hin), st_bind. unfold range.
      rewrite rec_forward_k_loop by exact Hle. reflexivity.
    + assert (j = i) by lia. subst j.
      rewrite st_ret, Nat.sub_diag, Nat.add_0_r, ids_between_refl, app_nil_r.
      reflexivity.
Qed.

Lemma rec_forward_j_loop (i len j0 base : nat) (log : list nat) :
  (j0 + len <= length input)%nat ->
  (base + FuseLayout.row_offset i (j0 + len)
   <= length (FuseLayers.residual_func_list self))%nat ->
  runStateT
    (foldM (FuseLayers.forward_j self input i) (seq j0 len)
       (tt, (base + FuseLayout.row_offset i j0)%nat)) log
  = inr ((tt, (base + FuseLayout.row_offset i (j0 + len))%nat),
         log ++ Recording.ids_between (FuseLayers.residual_func_list self)
                  (base + FuseLayout.row_offset i j0)
                  (base + FuseLayout.row_offset i (j0 + len))).
Proof.
  revert j0 log. induction len as [| len IH]; intros j0 log Hin Hle.
  - cbn [seq foldM]. rewrite st_ret, Nat.add_0_r, ids_between_refl, app_nil_r.
    reflexivity.
  - cbn [seq foldM]. rewrite st_bind.
    assert (Hmono := row_offset_mono i (S j0) (j0 + S len) ltac:(lia)).
    cbn [FuseLayout.row_offset] in Hmono.
    rewrite rec_forward_j_step by lia.
    replace (base + FuseLayout.row_offset i j0 + FuseLayout.need i j0)%nat
      with (base + FuseLayout.row_offset i (S j0))%nat by (cbn; lia).
    replace (j0 + S len)%nat with (S j0 + len)%nat in * by lia.
    rewrite IH by lia.
    rewrite <- app_assoc, ids_between_app; [reflexivity |].
    cbn [FuseLayout.row_offset]. lia.
Qed.

Lemma rec_forward_i_loop (len i0 : nat) (outs : list unit) (log : list nat) :
  (i0 + len <= length input)%nat ->
  (length (FuseLayers._in_channels self) <= length input)%nat ->
  (FuseLayout.base_offset (length (FuseLayers._in_channels self)) (i0 + len)
   <= length (FuseLayers.residual_func_list self))%nat ->
  exists outs',
    runStateT
      (foldM (FuseLayers.forward_i self input) (seq i0 len)
         (outs, FuseLayout.base_offset (length (FuseLayers._in_channels self)) i0))
      log
    = inr ((outs',
            FuseLayout.base_offset (length (FuseLayers._in_channels self)) (i0 + len)),
           log ++ Recording.ids_between (FuseLayers.residual_func_list self)
                    (FuseLayout.base_offset
                       (length (FuseLayers._in_channels self)) i0)
                    (FuseLayout.base_offset
                       (length (FuseLayers._in_channels self)) (i0 + len)))
    /\ length outs' = (length outs + len)%nat.
Proof.
  revert i0 outs log. induction len as [| len IH]; intros i0 outs log Hin Hn Hle.
  - exists outs. cbn [seq foldM].
    rewrite st_ret, !Nat.add_0_r, ids_between_refl, app_nil_r. auto.
  - cbn [seq foldM]. rewrite st_bind.
    assert (Hmono := base_offset_mono (length (FuseLayers._in_channels self))
                       (S i0) (i0 + S len) ltac:(lia)).
    cbn [FuseLayout.base_offset] in Hmono.
    unfold FuseLayers.forward_i at 1.
    assert (Hi : nth_error input i0 = Some tt).
    { destruct (nth_error input i0) as [[] |] eqn:E; [reflexivity |].
      apply nth_error_None in E. lia. }
    rewrite st_bind, (st_getitem _ _ _ _ Hi), st_bind. unfold range.
    assert (Hj := rec_forward_j_loop i0 (length (FuseLayers._in_channels self)) 0
                    (FuseLayout.base_offset (length (FuseLayers._in_channels self)) i0)
                    log ltac:(cbn [Nat.add]; lia) ltac:(cbn [Nat.add]; lia)).
    cbn [FuseLayout.row_offset Nat.add] in Hj. rewrite Nat.add_0_r in Hj.
    change (FuseLayout.base_offset (length (FuseLayers._in_channels self)) i0
            + FuseLayout.row_offset i0 (length (FuseLayers._in_channels self)))%nat
      with (FuseLayout.base_offset (length (FuseLayers._in_channels self)) (S i0))
      in Hj.
    rewrite Hj. clear Hj.
    cbn -[foldM Recording.ids_between FuseLayout.base_offset Nat.add].
    replace (i0 + S len)%nat with (S i0 + len)%nat in * by lia.
    destruct (IH (S i0) (outs ++ [tt])
                (log ++ Recording.ids_between (FuseLayers.residual_func_list self)
                          (FuseLayout.base_offset
                             (length (FuseLayers._in_channels self)) i0)
                          (FuseLayout.base_offset
                             (length (FuseLayers._in_channels self)) (S i0))))
      as (outs' & Hrun & Hlen); try lia.
    exists outs'. rewrite Hrun. split.
    + rewrite <- app_assoc, ids_between_app; [reflexivity |].
      split; apply base_offset_mono; lia.
    + rewrite Hlen, length_app. cbn. lia.
Qed.

End RecordingFuse.

(** ** The first layer and its container *)

Lemma append_eqb_prefix (p s1 s2 : string) :
  String.eqb (p ++ s1) (p ++ s2) = String.eqb s1 s2.
Proof.
  induction p as [| c p IH]; [reflexivity |].
  cbn [String.append String.eqb]. rewrite Ascii.eqb_refl. exact IH.
Qed.

(** The dict of [Layer1.__init__] after its four insertions: the keys are
    distinct, so each insertion appends. *)
Lemma Layer1_dict_keys {V : Type} (name : string) (b1 b2 b3 b4 : V) :
  dict_keys
    (dict_set
       (dict_set
          (dict_set (dict_set [] ("bb_" ++ name ++ "_" ++ "1") b1)
             ("bb_" ++ name ++ "_" ++ "2") b2)
          ("bb_" ++ name ++ "_" ++ "3") b3)
       ("bb_" ++ name ++ "_" ++ "4") b4)
  = [("bb_" ++ name ++ "_1"); ("bb_" ++ name ++ "_2");
     ("bb_" ++ name ++ "_3"); ("bb_" ++ name ++ "_4")]%string.
Proof.
  cbn [dict_set].
  rewrite !append_eqb_prefix. cbn [String.eqb Ascii.eqb Bool.eqb andb dict_set].
  rewrite !append_eqb_prefix. cbn [String.eqb Ascii.eqb Bool.eqb andb dict_set].
  rewrite !append_eqb_prefix. cbn [String.eqb Ascii.eqb Bool.eqb andb dict_set].
  reflexivity.
Qed.

(** [nn.Sequential] given four strings: the assertion of [add_sublayer] fails
    on the first one, unless assertions are disabled. *)
Lemma Sequential_new_strings {py : Interpreter} {L : Type} (s0 s1 s2 s3 : string)
  (n : nat) :
  runStateT (nn.Sequential_new (L := L) (map nn.PyStr [s0; s1; s2; s3])) n
  = if __debug__ then inl AssertionError
    else inr ({| nn._sub_layers :=
                   [("0", nn.PyStr s0); ("1", nn.PyStr s1);
                    ("2", nn.PyStr s2); ("3", nn.PyStr s3)]%string |}, n).
Proof.
  unfold nn.Sequential_new, py_assert. destruct __debug__; reflexivity.
Qed.

(** What [Layer1.__init__] does once its four blocks are built. *)
Lemma Layer1_init_inv {py : Interpreter} (nc : Z) (se : bool) (name : string) (n : nat)
  (l : Layer1.t) (n' : nat) :
  runStateT (Layer1.init nc se name) n = inr (l, n') ->
  __debug__ = false
  /\ nn._sub_layers (Layer1.bottleneck_block_list l)
     = [("0", nn.PyStr ("bb_" ++ name ++ "_1")); ("1", nn.PyStr ("bb_" ++ name ++ "_2"));
        ("2", nn.PyStr ("bb_" ++ name ++ "_3")); ("3", nn.PyStr ("bb_" ++ name ++ "_4"))]%string.
Proof.
  intros H. unfold Layer1.init in H.
  apply run_bind_inv in H. destruct H as (d & n1 & Hd & H).
  assert (Hkeys : dict_keys d
                  = [("bb_" ++ name ++ "_1"); ("bb_" ++ name ++ "_2");
                     ("bb_" ++ name ++ "_3"); ("bb_" ++ name ++ "_4")]%string).
  { unfold range in Hd. cbn [seq foldM Nat.eqb] in Hd.
    change (str (0 + 1)) with "1"%string in Hd.
    change (str (1 + 1)) with "2"%string in Hd.
    change (str (2 + 1)) with "3"%string in Hd.
    change (str (3 + 1)) with "4"%string in Hd.
    run_inv Hd. injection Hd as <- _.
    repeat match goal with
    | H : runStateT (bind _ _) _ = inr _ |- _ =>
        apply run_bind_inv in H; destruct H as (? & ? & _ & H);
        apply run_ret_inv in H; injection H as -> _
    end.
    apply Layer1_dict_keys. }
  rewrite Hkeys in H.
  apply run_bind_inv in H. destruct H as (c & n2 & Hc & H).
  rewrite Sequential_new_strings in Hc.
  destruct __debug__; [discriminate Hc |].
  injection Hc as <- <-. apply run_ret_inv in H. injection H as -> _.
  split; reflexivity.
Qed.

Lemma HRNet_init_la1 {py : Interpreter} (w : Z) (se : bool) (cd : Z) (n : nat)
  (net : HRNet.t) (n' : nat) :
  runStateT (HRNet.init w se cd) n = inr (net, n') ->
  exists k k', runStateT (Layer1.init 64 se "layer2") k = inr (HRNet.la1 net, k').
Proof.
  intros H. unfold HRNet.init in H.
  apply run_bind_inv in H. destruct H as (chs & n0 & Hch & H).
  rewrite channels_lookup in Hch.
  destruct (existsb (Z.eqb w) [18; 30; 32; 40; 44; 48; 60; 64]); [| discriminate].
  injection Hch as Hchs Hn0. subst chs n0.
  cbn [HRNet.unpack3] in H. run_inv H.
  injection Hrun as Ha Hn. subst a n0.
  run_inv H. injection H as Hnet Hn. subst net n'.
  cbn [HRNet.la1]. eauto.
Qed.

(** A network is built only with the assertions disabled. *)
Lemma HRNet_init_debug {py : Interpreter} (w : Z) (se : bool) (cd : Z) (n : nat)
  (net : HRNet.t) (n' : nat) :
  runStateT (HRNet.init w se cd) n = inr (net, n') -> __debug__ = false.
Proof.
  intros H. destruct (HRNet_init_la1 _ _ _ _ _ _ H) as (k & k' & Hl).
  exact (proj1 (Layer1_init_inv _ _ _ _ _ _ Hl)).
Qed.

(** ** Bottleneck blocks expand by four (C4) *)

(** C4.  Every [BottleneckBlock] expands its channel count by 4: its third
    convolution produces [num_filters * 4] channels; when [downsample] is set,
    the shortcut projection [conv_down] exists and produces [num_filters * 4]
    channels as well, and the two operands of the residual addition in
    [forward] are the output of [conv_down] and the output of [conv3] (gated by
    the squeeze-and-excitation layer when there is one), so they have the same
    channel count. *)
Theorem BottleneckBlock_expansion_4 {py : Interpreter}
  (nc nf : Z) (se : bool) (st : Z) (ds : bool)
  (name : string) (n : nat) (b : BottleneckBlock.t) (n' : nat) :
  runStateT (BottleneckBlock.init nc nf se st ds name) n = inr (b, n') ->
  nn.out_channels (ConvBNLayer._conv (BottleneckBlock.conv3 b)) = nf * 4
  /\ nn.num_channels (ConvBNLayer._batch_norm (BottleneckBlock.conv3 b)) = nf * 4
  /\ (ds = true ->
      exists c,
        BottleneckBlock.conv_down b = Some c
        /\ nn.in_channels (ConvBNLayer._conv c) = nc
        /\ nn.out_channels (ConvBNLayer._conv c) = nf * 4
        /\ nn.out_channels (ConvBNLayer._conv c)
           = nn.out_channels (ConvBNLayer._conv (BottleneckBlock.conv3 b))
        /\ forall (Tensor : Type) (ops : Pure.Ops Tensor) (x : Tensor),
             BottleneckBlock.forward b x =
             inr (Pure.relu
                    (Pure.add
                       (Pure.conv_bn c x)
                       (Pure.se_opt (BottleneckBlock.se b)
                          (Pure.conv_bn (BottleneckBlock.conv3 b)
                             (Pure.conv_bn (BottleneckBlock.conv2 b)
                                (Pure.conv_bn (BottleneckBlock.conv1 b) x))))))).
Proof.
  intros H. apply BottleneckBlock_init_inv in H.
  destruct H as (Hse & Hds & _ & _ & (k3 & H3) & Hdown & Hsel).
  rewrite ConvBNLayer_init_run in H3. injection H3 as H3.
  split; [rewrite <- H3; reflexivity |].
  split; [rewrite <- H3; reflexivity |].
  intros ->. destruct Hdown as (c & k & Hc & Hinit).
  rewrite ConvBNLayer_init_run in Hinit. injection Hinit as Hinit.
  exists c. split; [assumption |].
  split; [rewrite <- Hinit; reflexivity |].
  split; [rewrite <- Hinit; reflexivity |].
  split; [rewrite <- Hinit, <- H3; reflexivity |].
  intros Tensor ops x. rewrite BottleneckBlock_forward_pure.
  - rewrite Hds, Hc. reflexivity.
  - rewrite Hds, Hc. discriminate.
  - rewrite Hse. destruct se.
    + destruct Hsel as (s & ? & ? & -> & _). discriminate.
    + assumption.
Qed.

Lemma BottleneckBlock_expansion_4_witness :
  exists b n',
    runStateT (BottleneckBlock.init (py := python) 64 64 true 1 true "layer2_1") 4%nat = inr (b, n')
    /\ nn.out_channels (ConvBNLayer._conv (BottleneckBlock.conv3 b)) = 256
    /\ exists c, BottleneckBlock.conv_down b = Some c
                 /\ nn.out_channels (ConvBNLayer._conv c) = 256.
Proof.
  eexists _, _. split; [vm_compute; reflexivity |].
  destruct (BottleneckBlock_expansion_4 (py := python) 64 64 true 1 true "layer2_1" 4%nat _ _ eq_refl)
    as (H3 & _ & Hd).
  split; [exact H3 |].
  destruct (Hd eq_refl) as (c & Hc & _ & Hout & _).
  exists c. split; [exact Hc | exact Hout].
Defined.
(** ** Squeeze-and-excitation layers use reduction ratio 16 (C5) *)

(** The widths of a layer built as [SELayer(c, nf, 16, name)]. *)
Lemma SELayer_init_widths {py : Interpreter} (c nf : Z) (name : string) (n : nat)
  (s : SELayer.t) (n' : nat) :
  runStateT (SELayer.init c nf 16 name) n = inr (s, n') ->
  SELayer._num_channels s = c
  /\ nn.in_features (SELayer.squeeze s) = c
  /\ nn.out_features (SELayer.squeeze s) = c / 16
  /\ nn.in_features (SELayer.excitation s) = c / 16
  /\ nn.out_features (SELayer.excitation s) = nf.
Proof.
  intros H.
  destruct (SELayer_init_inv _ _ _ _ _ _ _ H) as (Hr & Hc & Hq & Hd).
  rewrite (SELayer_init_run _ _ _ _ _ Hr Hc Hq Hd) in H. injection H as Hs _.
  rewrite <- Hs. cbn.
  rewrite Z.quot_div_nonneg by lia. auto.
Qed.

(** C5.  An [SELayer] built with reduction ratio 16 over [c] channels has a
    squeeze [Linear] from [c] to [floor(c / 16)] features and an excitation
    [Linear] back from [floor(c / 16)].  The two places that instantiate an
    [SELayer], [BottleneckBlock] and [BasicBlock] with [has_se] set, pass
    ratio 16 and the output width of the block: [num_filters * 4] for a
    [BottleneckBlock], [num_filters] for a [BasicBlock].  Hence in every
    [Stage] and in every [LastClsOut], which with the four bottleneck blocks
    of [Layer1] are all that [HRNet] builds, each block built with [has_se]
    owns a layer whose squeeze maps the output width [c] of the block to
    [floor(c / 16)] features, and a block built without it owns none. *)
Theorem SELayer_reduction_ratio_16 {py : Interpreter} :
  (forall c nf name n s n',
     runStateT (SELayer.init c nf 16 name) n = inr (s, n') ->
     nn.in_features (SELayer.squeeze s) = c
     /\ nn.out_features (SELayer.squeeze s) = c / 16
     /\ nn.in_features (SELayer.excitation s) = c / 16
     /\ nn.out_features (SELayer.excitation s) = nf)
  /\ (forall nc nf st ds name n b n',
        runStateT (BottleneckBlock.init nc nf true st ds name) n = inr (b, n') ->
        exists s,
          BottleneckBlock.se b = Some s
          /\ built_with_ratio_16 (nf * 4) s
          /\ nn.in_features (SELayer.squeeze s) = nf * 4
          /\ nn.out_features (SELayer.squeeze s) = nf * 4 / 16
          /\ nn.out_channels (ConvBNLayer._conv (BottleneckBlock.conv3 b)) = nf * 4)
  /\ (forall nc nf st ds name n b n',
        runStateT (BasicBlock.init nc nf st true ds name) n = inr (b, n') ->
        exists s,
          BasicBlock.se b = Some s
          /\ built_with_ratio_16 nf s
          /\ nn.in_features (SELayer.squeeze s) = nf
          /\ nn.out_features (SELayer.squeeze s) = nf / 16
          /\ nn.out_channels (ConvBNLayer._conv (BasicBlock.conv2 b)) = nf)
  /\ (forall nc nm nf se mso name n st n',
        runStateT (Stage.init nc nm nf se mso name) n = inr (st, n') ->
        forall b, In b (Stage.basic_blocks st) ->
          let c := nn.out_channels (ConvBNLayer._conv (BasicBlock.conv2 b)) in
          if se
          then exists s,
                 BasicBlock.se b = Some s
                 /\ nn.in_features (SELayer.squeeze s) = c
                 /\ nn.out_features (SELayer.squeeze s) = c / 16
          else BasicBlock.se b = None)
  /\ (forall ncl se nfl name n l n',
        runStateT (LastClsOut.init ncl se nfl name) n = inr (l, n') ->
        forall b, In b (LastClsOut.func_list l) ->
          let c := nn.out_channels (ConvBNLayer._conv (BottleneckBlock.conv3 b)) in
          if se
          then exists s,
                 BottleneckBlock.se b = Some s
                 /\ nn.in_features (SELayer.squeeze s) = c
                 /\ nn.out_features (SELayer.squeeze s) = c / 16
          else BottleneckBlock.se b = None).
Proof.
  assert (Hbottleneck : forall nc nf se st ds name n b n',
            runStateT (BottleneckBlock.init nc nf se st ds name) n = inr (b, n') ->
            nn.out_channels (ConvBNLayer._conv (BottleneckBlock.conv3 b)) = nf * 4
            /\ if se
               then exists s,
                      BottleneckBlock.se b = Some s
                      /\ built_with_ratio_16 (nf * 4) s
                      /\ nn.in_features (SELayer.squeeze s) = nf * 4
                      /\ nn.out_features (SELayer.squeeze s) = nf * 4 / 16
               else BottleneckBlock.se b = None).
  { intros nc nf se st ds name n b n' H. apply BottleneckBlock_init_inv in H.
    destruct H as (_ & _ & _ & _ & (k3 & H3) & _ & Hse).
    rewrite ConvBNLayer_init_run in H3. injection H3 as H3.
    split; [rewrite <- H3; reflexivity |].
    destruct se; [| exact Hse].
    destruct Hse as (s & k & k' & Hs & Hinit).
    destruct (SELayer_init_widths _ _ _ _ _ _ Hinit) as (_ & Hin & Hout & _).
    exists s. split; [exact Hs |]. split; [red; eauto |]. split; assumption. }
  assert (Hbasic : forall nc nf st se ds name n b n',
            runStateT (BasicBlock.init nc nf st se ds name) n = inr (b, n') ->
            nn.out_channels (ConvBNLayer._conv (BasicBlock.conv2 b)) = nf
            /\ if se
               then exists s,
                      BasicBlock.se b = Some s
                      /\ built_with_ratio_16 nf s
                      /\ nn.in_features (SELayer.squeeze s) = nf
                      /\ nn.out_features (SELayer.squeeze s) = nf / 16
               else BasicBlock.se b = None).
  { intros nc nf st se ds name n b n' H. apply BasicBlock_init_inv in H.
    destruct H as (_ & _ & _ & (k2 & H2) & _ & Hse).
    rewrite ConvBNLayer_init_run in H2. injection H2 as H2.
    split; [rewrite <- H2; reflexivity |].
    destruct se; [| exact Hse].
    destruct Hse as (s & k & k' & Hs & Hinit).
    destruct (SELayer_init_widths _ _ _ _ _ _ Hinit) as (_ & Hin & Hout & _).
    exists s. split; [exact Hs |]. split; [red; eauto |]. split; assumption. }
  split; [| split; [| split; [| split]]].
  - intros c nf name n s n' H.
    exact (proj2 (SELayer_init_widths _ _ _ _ _ _ H)).
  - intros nc nf st ds name n b n' H.
    destruct (Hbottleneck _ _ _ _ _ _ _ _ _ H) as (Hc & s & Hs & Hb & Hin & Hout).
    exists s. auto.
  - intros nc nf st ds name n b n' H.
    destruct (Hbasic _ _ _ _ _ _ _ _ _ H) as (Hc & s & Hs & Hb & Hin & Hout).
    exists s. auto.
  - intros nc nm nf se mso name n st n' H b Hb c.
    apply Stage_init_blocks in H. rewrite Forall_forall in H.
    destruct (H b Hb) as (nc' & nf' & name' & k & k' & Hinit).
    destruct (Hbasic _ _ _ _ _ _ _ _ _ Hinit) as (Hc & Hse).
    subst c. rewrite Hc. destruct se; [| exact Hse].
    destruct Hse as (s & Hs & _ & Hin & Hout). exists s. auto.
  - intros ncl se nfl name n l n' H b Hb c.
    apply LastClsOut_init_blocks in H. rewrite Forall_forall in H.
    destruct (H b Hb) as (nc' & nf' & name' & k & k' & Hinit).
    destruct (Hbottleneck _ _ _ _ _ _ _ _ _ Hinit) as (Hc & Hse).
    subst c. rewrite Hc. destruct se; [| exact Hse].
    destruct Hse as (s & Hs & _ & Hin & Hout). exists s. auto.
Qed.

Lemma SELayer_reduction_ratio_16_witness :
  (exists s n',
     runStateT (SELayer.init (py := python) 144 144 16 "fc") 0%nat = inr (s, n')
     /\ nn.in_features (SELayer.squeeze s) = 144
     /\ nn.out_features (SELayer.squeeze s) = 9)
  /\ (exists b n' s,
        runStateT (BottleneckBlock.init (py := python) 18 32 true 1 true "cls_headconv_1")
          0%nat = inr (b, n')
        /\ BottleneckBlock.se b = Some s
        /\ nn.in_features (SELayer.squeeze s) = 128
        /\ nn.out_features (SELayer.squeeze s) = 8)
  /\ (exists b n' s,
        runStateT (BasicBlock.init (py := python) 18 18 1 true false
                     "st2_1_branch_layer_1_1") 0%nat = inr (b, n')
        /\ BasicBlock.se b = Some s
        /\ nn.in_features (SELayer.squeeze s) = 18
        /\ nn.out_features (SELayer.squeeze s) = 1)
  /\ (exists st n',
        runStateT (Stage.init (py := python) [18; 36] 1 [18; 36] true true "st2") 0%nat
        = inr (st, n')
        /\ Stage.basic_blocks st <> []
        /\ forall b, In b (Stage.basic_blocks st) ->
             exists s, BasicBlock.se b = Some s
                       /\ nn.out_features (SELayer.squeeze s)
                          = nn.out_channels (ConvBNLayer._conv (BasicBlock.conv2 b)) / 16)
  /\ (exists l n',
        runStateT (LastClsOut.init (py := python) [18; 36; 72; 144] true
                     [32; 64; 128; 256] "cls_head") 0%nat = inr (l, n')
        /\ length (LastClsOut.func_list l) = 4%nat
        /\ forall b, In b (LastClsOut.func_list l) ->
             exists s, BottleneckBlock.se b = Some s
                       /\ nn.out_features (SELayer.squeeze s)
                          = nn.out_channels
                              (ConvBNLayer._conv (BottleneckBlock.conv3 b)) / 16).
Proof.
  destruct (SELayer_reduction_ratio_16 (py := python)) as (T1 & T2 & T3 & T4 & T5).
  split; [| split; [| split; [| split]]].
  - destruct (runStateT (SELayer.init (py := python) 144 144 16 "fc") 0%nat)
      as [e | [s n']] eqn:H.
    { vm_compute in H. discriminate H. }
    destruct (T1 _ _ _ _ _ _ H) as (Hin & Hout & _).
    exists s, n'. split; [reflexivity |]. split; [exact Hin | exact Hout].
  - destruct (runStateT (BottleneckBlock.init (py := python) 18 32 true 1 true
                           "cls_headconv_1") 0%nat) as [e | [b n']] eqn:H.
    { vm_compute in H. discriminate H. }
    destruct (T2 _ _ _ _ _ _ _ _ H) as (s & Hs & _ & Hin & Hout & _).
    exists b, n', s. split; [reflexivity |]. split; [exact Hs |].
    split; [exact Hin | exact Hout].
  - destruct (runStateT (BasicBlock.init (py := python) 18 18 1 true false
                           "st2_1_branch_layer_1_1") 0%nat) as [e | [b n']] eqn:H.
    { vm_compute in H. discriminate H. }
    destruct (T3 _ _ _ _ _ _ _ _ H) as (s & Hs & _ & Hin & Hout & _).
    exists b, n', s. split; [reflexivity |]. split; [exact Hs |].
    split; [exact Hin | exact Hout].
  - destruct (runStateT (Stage.init (py := python) [18; 36] 1 [18; 36] true true "st2")
                0%nat) as [e | [st n']] eqn:H.
    { vm_compute in H. discriminate H. }
    exists st, n'. split; [reflexivity |]. split.
    + vm_compute in H. injection H as <- _. discriminate.
    + intros b Hb. destruct (T4 _ _ _ _ _ _ _ _ _ H b Hb) as (s & Hs & _ & Hout).
      exists s. split; [exact Hs | exact Hout].
  - destruct (runStateT (LastClsOut.init (py := python) [18; 36; 72; 144] true
                           [32; 64; 128; 256] "cls_head") 0%nat)
      as [e | [l n']] eqn:H.
    { vm_compute in H. discriminate H. }
    exists l, n'. split; [reflexivity |]. split.
    + vm_compute in H. injection H as <- _. reflexivity.
    + intros b Hb. destruct (T5 _ _ _ _ _ _ _ H b Hb) as (s & Hs & _ & Hout).
      exists s. split; [exact Hs | exact Hout].
Defined.

(** ** Basic blocks never down-sample (C10) *)

(** C10.  Every [BasicBlock] of a network built by [HRNet] was created by
    [Branches] without the [downsample] argument, so with [downsample=False]:
    it has no [conv_down] sub-layer, and the residual its [forward] adds is
    the unmodified block input [x].  Had [downsample] been set, [conv_down]
    would produce [num_filters * 4] channels against the [num_filters]
    channels of [conv2]. *)
Theorem BasicBlock_never_downsamples {py : Interpreter} :
  (forall w se cd n net n',
     runStateT (HRNet.init w se cd) n = inr (net, n') ->
     forall b, In b (HRNet.basic_blocks net) ->
       built_by_Branches se b
       /\ BasicBlock.downsample b = false
       /\ BasicBlock.conv_down b = None
       /\ forall (Tensor : Type) (ops : Pure.Ops Tensor) (x : Tensor),
            BasicBlock.forward b x =
            inr (Pure.relu
                   (Pure.add x
                      (Pure.se_opt (BasicBlock.se b)
                         (Pure.conv_bn (BasicBlock.conv2 b)
                            (Pure.conv_bn (BasicBlock.conv1 b) x))))))
  /\ (forall nc nf st se name n b n',
        runStateT (BasicBlock.init nc nf st se true name) n = inr (b, n') ->
        exists c,
          BasicBlock.conv_down b = Some c
          /\ nn.out_channels (ConvBNLayer._conv c) = nf * 4
          /\ nn.out_channels (ConvBNLayer._conv (BasicBlock.conv2 b)) = nf
          /\ (nf <> 0 ->
              nn.out_channels (ConvBNLayer._conv c)
              <> nn.out_channels (ConvBNLayer._conv (BasicBlock.conv2 b)))).
Proof.
  split.
  - intros w se cd n net n' H b Hb.
    apply HRNet_init_basic_blocks in H. rewrite Forall_forall in H.
    specialize (H b Hb). split; [exact H |].
    destruct H as (nc & nf & name & k & k' & H).
    apply BasicBlock_init_inv in H.
    destruct H as (Hse & Hds & _ & _ & Hdown & Hsel).
    split; [assumption |]. split; [assumption |].
    intros Tensor ops x. rewrite BasicBlock_forward_pure.
    + rewrite Hse. destruct se; [reflexivity | rewrite Hsel; reflexivity].
    + assumption.
    + rewrite Hse. intros ->. destruct Hsel as (s & ? & ? & -> & _). discriminate.
  - intros nc nf st se name n b n' H. apply BasicBlock_init_inv in H.
    destruct H as (_ & _ & _ & (k2 & H2) & (c & k & Hc & Hinit) & _).
    rewrite ConvBNLayer_init_run in H2, Hinit.
    injection H2 as H2. injection Hinit as Hinit.
    exists c. split; [assumption |].
    rewrite <- H2, <- Hinit. cbn. repeat split. lia.
Qed.

Lemma BasicBlock_never_downsamples_witness :
  (exists net n',
     runStateT (HRNet.init (py := python_O) 18 false 1000) 0%nat = inr (net, n')
     /\ forall b, In b (HRNet.basic_blocks net) -> BasicBlock.conv_down b = None)
  /\ (exists b n' c,
        runStateT (BasicBlock.init (py := python) 18 18 1 false true "b") 0%nat = inr (b, n')
        /\ BasicBlock.conv_down b = Some c
        /\ nn.out_channels (ConvBNLayer._conv c) = 72).
Proof.
  split.
  - destruct (runStateT (HRNet.init (py := python_O) 18 false 1000) 0%nat) as [e | [net n']] eqn:H.
    + vm_compute in H. discriminate H.
    + exists net, n'. split; [reflexivity |].
      intros b Hb.
      apply (proj1 (BasicBlock_never_downsamples (py := python_O)) 18 false 1000 0%nat net n' H b Hb).
  - eexists _, _.
    destruct (proj2 (BasicBlock_never_downsamples (py := python))
                18 18 1 false "b"%string 0%nat _ _ eq_refl)
      as (c & Hc & Hout & _).
    exists c. split; [vm_compute; reflexivity |]. split; assumption.
Defined.

(** ** Stages and their modules (C3) *)

(** C3.  [HRNet] builds stage 2 of 1, stage 3 of 4 and stage 4 of 3
    [HighResolutionModule]s.  A [Stage] holds exactly [num_modules] modules;
    module [i] is built with [multi_scale_output=False] exactly when it is the
    last one and the stage was built with [multi_scale_output=False]; and
    [Stage.forward] applies the modules one after the other, in order, to the
    list of branch tensors. *)
Theorem Stage_modules_and_forward {py : Interpreter} :
  (forall w se cd n net n',
     runStateT (HRNet.init w se cd) n = inr (net, n') ->
     Stage._num_modules (HRNet.st2 net) = 1
     /\ Stage._num_modules (HRNet.st3 net) = 4
     /\ Stage._num_modules (HRNet.st4 net) = 3
     /\ length (Stage.stage_func_list (HRNet.st2 net)) = 1%nat
     /\ length (Stage.stage_func_list (HRNet.st3 net)) = 4%nat
     /\ length (Stage.stage_func_list (HRNet.st4 net)) = 3%nat)
  /\ (forall nc nm nf se mso name n st n',
        runStateT (Stage.init nc nm nf se mso name) n = inr (st, n') ->
        Stage._num_modules st = nm
        /\ length (Stage.stage_func_list st) = Z.to_nat nm
        /\ (forall i h, nth_error (Stage.stage_func_list st) i = Some h ->
              let last_single := (Z.of_nat i =? nm - 1) && negb mso in
              (exists k k',
                 runStateT
                   (HighResolutionModule.init nc nf se (negb last_single)
                      (name ++ "_" ++ str (i + 1))%string) k
                 = inr (h, k'))
              /\ FuseLayers._actual_ch (HighResolutionModule.fuse_func h)
                 = (if last_single then 1%nat else length nf))
        /\ forall (Tensor : Type) (P : Paddle (sum PyExc) Tensor)
             (input : list Tensor),
             Stage.forward st input
             = foldM HighResolutionModule.forward (Stage.stage_func_list st) input).
Proof.
  split.
  - intros w se cd n net n' H. apply HRNet_init_inv in H. cbv zeta in H.
    destruct H as (_ & _ & _ & _ & _ & (k2 & k2' & H2) & _ & (k3 & k3' & H3) & _
                   & (k4 & k4' & H4) & _).
    apply Stage_init_inv in H2, H3, H4.
    destruct H2 as (-> & -> & _), H3 as (-> & -> & _), H4 as (-> & -> & _).
    repeat split.
  - intros nc nm nf se mso name n st n' H.
    destruct (Stage_init_inv _ _ _ _ _ _ _ _ _ H) as (Hnm & Hlen & Hall).
    split; [assumption |]. split; [assumption |]. split.
    + intros i h Hi last_single. destruct (Hall i h Hi) as (k & k' & Hh).
      split; [eauto |].
      apply HighResolutionModule_init_inv in Hh. destruct Hh as (n1 & _ & Hf).
      apply FuseLayers_init_attrs in Hf. destruct Hf as [_ ->].
      subst last_single. destruct ((Z.of_nat i =? nm - 1) && negb mso); reflexivity.
    + intros Tensor P input. apply Stage_forward_sequential. congruence.
Qed.

Lemma Stage_modules_and_forward_witness :
  (exists net n',
     runStateT (HRNet.init (py := python_O) 18 false 1000) 0%nat = inr (net, n')
     /\ length (Stage.stage_func_list (HRNet.st2 net)) = 1%nat
     /\ length (Stage.stage_func_list (HRNet.st3 net)) = 4%nat
     /\ length (Stage.stage_func_list (HRNet.st4 net)) = 3%nat)
  /\ (exists st n',
        runStateT (Stage.init (py := python) [18; 36] 2 [18; 36] false false "s") 0%nat = inr (st, n')
        /\ length (Stage.stage_func_list st) = 2%nat
        /\ forall i h, nth_error (Stage.stage_func_list st) i = Some h ->
             FuseLayers._actual_ch (HighResolutionModule.fuse_func h)
             = (if (Z.of_nat i =? 1) then 1%nat else 2%nat)).
Proof.
  split.
  - destruct (runStateT (HRNet.init (py := python_O) 18 false 1000) 0%nat) as [e | [net n']] eqn:H.
    + vm_compute in H. discriminate H.
    + exists net, n'. split; [reflexivity |].
      apply (proj1 (Stage_modules_and_forward (py := python_O)) 18 false 1000 0%nat net n' H).
  - destruct (runStateT (Stage.init (py := python) [18; 36] 2 [18; 36] false false "s") 0%nat)
      as [e | [st n']] eqn:H.
    + vm_compute in H. discriminate H.
    + exists st, n'. split; [reflexivity |].
      destruct (proj2 (Stage_modules_and_forward (py := python))
                  [18; 36] 2 [18; 36] false false "s"%string 0%nat st n' H)
        as (_ & Hlen & Hall & _).
      split; [exact Hlen |].
      intros i h Hi. rewrite (proj2 (Hall i h Hi)).
      cbn. rewrite andb_true_r. reflexivity.
Defined.

(** ** The channel table and the exported constructors (C2) *)

(** What a constructor does with its keyword arguments. *)
Lemma HRNet_kw_run {py : Interpreter} (w : Z) (args : kwargs) (n : nat) :
  runStateT (HRNet_kw w args) n
  = match kw_width args, kw_other args with
    | None, [] =>
        runStateT (HRNet.init w
                     (match kw_has_se args with Some b => b | None => false end)
                     (match kw_class_dim args with Some c => c | None => 1000 end)) n
    | _, _ => inl TypeError
    end.
Proof.
  unfold HRNet_kw. destruct (kw_width args); [reflexivity |].
  destruct (kw_other args); reflexivity.
Qed.

Lemma HRNet_se_kw_run {py : Interpreter} (w : Z) (args : kwargs) (n : nat) :
  runStateT (HRNet_se_kw w args) n
  = match kw_width args, kw_has_se args, kw_other args with
    | None, None, [] =>
        runStateT (HRNet.init w true
                     (match kw_class_dim args with Some c => c | None => 1000 end)) n
    | _, _, _ => inl TypeError
    end.
Proof.
  unfold HRNet_se_kw. destruct (kw_width args); [reflexivity |].
  destruct (kw_has_se args); [reflexivity |].
  destruct (kw_other args); reflexivity.
Qed.

(** The sixteen constructors are [HRNet(width=w, ...)] at the eight widths of
    the table. *)
Lemma variants_cases {py : Interpreter} (w : Z) (se : bool)
  (ctor : kwargs -> Ctor HRNet.t) :
  In (w, se, ctor) variants ->
  (se = false /\ ctor = HRNet_kw w \/ se = true /\ ctor = HRNet_se_kw w)
  /\ existsb (Z.eqb w) [18; 30; 32; 40; 44; 48; 60; 64] = true.
Proof.
  intros Hin. unfold variants in Hin. cbn [In] in Hin.
  repeat (destruct Hin as [Hin | Hin];
          [injection Hin as <- <- <-; split; [| reflexivity];
           first [left; split; reflexivity | right; split; reflexivity] |]).
  destruct Hin.
Qed.

(** C2.  Under the default interpreter none of the sixteen exported
    constructors returns a network, whatever its keyword arguments: the first
    layer gives the keys of a dict to [nn.Sequential], whose [add_sublayer]
    asserts that a sub-layer is a layer.  Called without arguments, each of
    them raises [AssertionError].  The widths of the constructors are the
    eight keys of the channels table, and any other width raises [KeyError].
    Under any interpreter, a network that a constructor does return was built
    with assertions disabled, has the width its name announces, and its
    stages 2, 3 and 4 are built with the channel-width lists [w, 2w],
    [w, 2w, 4w] and [w, 2w, 4w, 8w]. *)
Theorem HRNet_constructors_raise :
  (forall w se ctor, In (w, se, ctor) (variants (py := python)) ->
     In w supported_widths
     /\ (forall args n, returns (runStateT (ctor args) n) = false)
     /\ (forall n, runStateT (ctor no_kwargs) n = inl AssertionError))
  /\ (forall (py : Interpreter) w se ctor, In (w, se, ctor) variants ->
        forall args n net n',
          runStateT (ctor args) n = inr (net, n') ->
          __debug__ = false
          /\ HRNet.width net = w
          /\ HRNet.has_se net
             = (se || match kw_has_se args with Some b => b | None => false end)
          /\ stage_has_channels (HRNet.st2 net) [w; 2 * w]
          /\ stage_has_channels (HRNet.st3 net) [w; 2 * w; 4 * w]
          /\ stage_has_channels (HRNet.st4 net) [w; 2 * w; 4 * w; 8 * w])
  /\ (forall (py : Interpreter) w, In w supported_widths ->
        exists se ctor, In (w, se, ctor) variants)
  /\ (forall (py : Interpreter) w se cd n, ~ In w supported_widths ->
        runStateT (HRNet.init w se cd) n = inl KeyError).
Proof.
  assert (Hinit : forall (py : Interpreter) w se cd n net n',
            runStateT (HRNet.init w se cd) n = inr (net, n') ->
            __debug__ = false
            /\ HRNet.width net = w /\ HRNet.has_se net = se
            /\ stage_has_channels (HRNet.st2 net) [w; 2 * w]
            /\ stage_has_channels (HRNet.st3 net) [w; 2 * w; 4 * w]
            /\ stage_has_channels (HRNet.st4 net) [w; 2 * w; 4 * w; 8 * w]).
  { intros py w se cd n net n' H.
    split; [exact (HRNet_init_debug _ _ _ _ _ _ H) |].
    apply HRNet_init_inv in H. cbv zeta in H.
    destruct H as (_ & Hwd & Hse & _ & _ & (k2 & k2' & H2) & _ & (k3 & k3' & H3) & _
                   & (k4 & k4' & H4) & _).
    split; [assumption |]. split; [assumption |].
    split; [exact (Stage_init_channels _ _ _ _ _ _ _ _ _ H2) |].
    split; [exact (Stage_init_channels _ _ _ _ _ _ _ _ _ H3) |].
    exact (Stage_init_channels _ _ _ _ _ _ _ _ _ H4). }
  split; [| split; [| split]].
  - intros w se ctor Hin.
    destruct (variants_cases _ _ _ Hin) as [Hcase Hw].
    split.
    { apply existsb_exists in Hw. destruct Hw as (k & Hk & Hwk).
      apply Z.eqb_eq in Hwk. subst k. exact Hk. }
    assert (Hraise : forall b cd n,
              runStateT (HRNet.init (py := python) w b cd) n = inl AssertionError).
    { intros b cd n. apply HRNet_init_asserts; [reflexivity | exact Hw]. }
    split.
    + intros args n. destruct Hcase as [[_ ->] | [_ ->]].
      * rewrite HRNet_kw_run. destruct (kw_width args); [reflexivity |].
        destruct (kw_other args); [| reflexivity]. rewrite Hraise. reflexivity.
      * rewrite HRNet_se_kw_run. destruct (kw_width args); [reflexivity |].
        destruct (kw_has_se args); [reflexivity |].
        destruct (kw_other args); [| reflexivity]. rewrite Hraise. reflexivity.
    + intros n. destruct Hcase as [[_ ->] | [_ ->]].
      * rewrite HRNet_kw_run.
        cbn [no_kwargs kw_width kw_other kw_has_se kw_class_dim]. apply Hraise.
      * rewrite HRNet_se_kw_run.
        cbn [no_kwargs kw_width kw_other kw_has_se kw_class_dim]. apply Hraise.
  - intros py w se ctor Hin args n net n' H.
    destruct (variants_cases _ _ _ Hin) as [Hcase _].
    destruct Hcase as [[-> ->] | [-> ->]].
    + rewrite HRNet_kw_run in H. destruct (kw_width args); [discriminate H |].
      destruct (kw_other args); [| discriminate H].
      destruct (Hinit _ _ _ _ _ _ _ H) as (Hd & Hwd & Hs & Hrest).
      cbn [orb]. rewrite Hs. auto.
    + rewrite HRNet_se_kw_run in H. destruct (kw_width args); [discriminate H |].
      destruct (kw_has_se args); [discriminate H |].
      destruct (kw_other args); [| discriminate H].
      destruct (Hinit _ _ _ _ _ _ _ H) as (Hd & Hwd & Hs & Hrest).
      cbn [orb]. rewrite Hs. auto.
  - intros py w Hw. unfold supported_widths in Hw. cbn [In] in Hw. unfold variants.
    repeat (destruct Hw as [<- | Hw];
            [eexists false, _; cbn [In];
             first [ left; reflexivity
                   | right; left; reflexivity
                   | do 2 right; left; reflexivity
                   | do 3 right; left; reflexivity
                   | do 4 right; left; reflexivity
                   | do 5 right; left; reflexivity
                   | do 6 right; left; reflexivity
                   | do 7 right; left; reflexivity ] |]).
    destruct Hw.
  - intros py w se cd n Hw. apply HRNet_init_unsupported.
    destruct (existsb (Z.eqb w) [18; 30; 32; 40; 44; 48; 60; 64]) eqn:E;
      [| reflexivity].
    exfalso. apply Hw. apply existsb_exists in E. destruct E as (k & Hk & Hwk).
    apply Z.eqb_eq in Hwk. subst k. exact Hk.
Qed.

Lemma HRNet_constructors_raise_witness :
  runStateT (HRNet_W18_C (py := python) no_kwargs) 0%nat = inl AssertionError
  /\ runStateT (SE_HRNet_W64_C (py := python) no_kwargs) 7%nat = inl AssertionError
  /\ (exists net n',
        runStateT (HRNet_W18_C (py := python_O) no_kwargs) 0%nat = inr (net, n')
        /\ HRNet.width net = 18
        /\ stage_has_channels (HRNet.st2 net) [18; 36]
        /\ stage_has_channels (HRNet.st3 net) [18; 36; 72]
        /\ stage_has_channels (HRNet.st4 net) [18; 36; 72; 144])
  /\ (exists se ctor, In (44, se, ctor) (variants (py := python)))
  /\ runStateT (HRNet.init (py := python) 20 false 1000) 0%nat = inl KeyError.
Proof.
  destruct HRNet_constructors_raise as (T1 & T2 & T3 & T4).
  split; [| split; [| split; [| split]]].
  - destruct (T1 18 false (HRNet_W18_C (py := python))) as (_ & _ & H).
    { left. reflexivity. }
    exact (H 0%nat).
  - destruct (T1 64 true (SE_HRNet_W64_C (py := python))) as (_ & _ & H).
    { do 15 right. left. reflexivity. }
    exact (H 7%nat).
  - destruct (runStateT (HRNet_W18_C (py := python_O) no_kwargs) 0%nat)
      as [e | [net n']] eqn:H.
    { vm_compute in H. discriminate H. }
    destruct (T2 python_O 18 false (HRNet_W18_C (py := python_O))
                ltac:(left; reflexivity) no_kwargs 0%nat net n' H)
      as (_ & Hw & _ & H2 & H3 & H4).
    exists net, n'. split; [reflexivity |]. repeat split; assumption.
  - apply (T3 python 44). do 4 right. left. reflexivity.
  - apply (T4 python).
    intros H. cbn in H.
    repeat (destruct H as [H | H]; [discriminate H |]). exact H.
Defined.

Lemma Forall2_nth_error_l {A B : Type} (R : A -> B -> Prop) (l1 : list A)
  (l2 : list B) (i : nat) (a : A) :
  Forall2 R l1 l2 -> nth_error l1 i = Some a ->
  exists b, nth_error l2 i = Some b /\ R a b.
Proof.
  intros H. revert i. induction H as [| x y l1 l2 Hxy H IH]; intros [| i] Hi;
    try discriminate.
  - injection Hi as ->. exists y. split; [reflexivity | assumption].
  - apply IH. exact Hi.
Qed.

Lemma nth_error_combine_seq {A : Type} (l : list A) (a i : nat) (e : A) :
  nth_error l i = Some e ->
  nth_error (combine (seq a (length l)) l) i = Some ((a + i)%nat, e).
Proof.
  revert a i. induction l as [| x l IH]; intros a [| i] H; try discriminate.
  - injection H as ->. cbn. now rewrite Nat.add_0_r.
  - cbn in H. cbn [length seq combine nth_error]. rewrite (IH (S a) i H).
    f_equal. f_equal. lia.
Qed.

Lemma In_combine_seq {A : Type} (l : list A) (a i : nat) (e : A) :
  In (i, e) (combine (seq a (length l)) l) -> nth_error l (i - a) = Some e /\ (a <= i)%nat.
Proof.
  revert a. induction l as [| x l IH]; intros a H; [destruct H |].
  cbn [length seq combine In] in H. destruct H as [H | H].
  - injection H as -> ->. rewrite Nat.sub_diag. split; [reflexivity | lia].
  - apply IH in H. destruct H as [H Hle].
    replace (i - a)%nat with (S (i - S a)) by lia. split; [exact H | lia].
Qed.

Lemma nth_error_Some_lt {A : Type} (l : list A) (i : nat) (a : A) :
  nth_error l i = Some a -> (i < length l)%nat.
Proof. intros H. apply nth_error_Some. congruence. Qed.

(** ** Transition layers (C9) *)

(** C9.  For a [TransitionLayer] and a list [x] of as many tensors as the
    layer has input branches: at every position [i] below [len(in_channels)]
    with [in_channels[i] == out_channels[i]] the stored conv function is
    [None] and [forward] returns [x[i]] unchanged; at every new position
    [i >= len(in_channels)] the stored function is a stride-2 3x3 [ConvBNLayer]
    from [in_channels[-1]] to [out_channels[i]] channels and the output is that
    layer applied to the last input [x[-1]]; and the output list has length
    [len(out_channels)]. *)
Theorem TransitionLayer_forward_spec (inc outc : list Z) (name : string) (n : nat)
  (tl : TransitionLayer.t) (n' : nat) :
  runStateT (TransitionLayer.init inc outc name) n = inr (tl, n') ->
  forall (Tensor : Type) (ops : Pure.Ops Tensor) (x : list Tensor),
    length x = length inc ->
    exists outs,
      TransitionLayer.forward tl x = inr outs
      /\ length outs = length outc
      /\ (forall i c_i,
            nth_error inc i = Some c_i -> nth_error outc i = Some c_i ->
            nth_error (TransitionLayer.conv_bn_func_list tl) i = Some None
            /\ nth_error outs i = nth_error x i)
      /\ (forall i, (length inc <= i < length outc)%nat ->
            exists c x_last,
              nth_error (TransitionLayer.conv_bn_func_list tl) i = Some (Some c)
              /\ nn.kernel_size (ConvBNLayer._conv c) = 3
              /\ nn.stride (ConvBNLayer._conv c) = 2
              /\ nth_error inc (length inc - 1)
                 = Some (nn.in_channels (ConvBNLayer._conv c))
              /\ nth_error outc i = Some (nn.out_channels (ConvBNLayer._conv c))
              /\ nth_error x (length x - 1) = Some x_last
              /\ nth_error outs i = Some (Pure.conv_bn c x_last)).
Proof.
  intros H Tensor ops x Hx.
  apply TransitionLayer_init_inv in H. destruct H as [Hlen Hall].
  set (l := TransitionLayer.conv_bn_func_list tl) in *.
  destruct (TransitionLayer_forward_loop x (enumerate l) []) as (outs & Hrun & Hout).
  { apply Forall_forall. intros [idx e] Hin. unfold enumerate, range in Hin.
    apply In_combine_seq in Hin. rewrite Nat.sub_0_r in Hin. destruct Hin as [Hin _].
    destruct (Hall idx e Hin) as (out_i & Hout & He).
    destruct (Nat.ltb_spec idx (length inc)) as [Hlt | Hge].
    - destruct He as (in_i & Hini & He).
      destruct e; [intros ->; cbn in Hx; lia | lia].
    - destruct He as (in_last & c & k & Hlast & -> & _).
      intros ->. destruct inc; [discriminate Hlast | discriminate Hx]. }
  exists outs. cbn [app] in Hrun. split; [exact Hrun |].
  assert (Hlo : length outs = length l).
  { apply Forall2_length in Hout. unfold enumerate, range in Hout.
    rewrite length_combine, length_seq, Nat.min_id in Hout. congruence. }
  split; [congruence |].
  assert (Hget : forall i e, nth_error l i = Some e ->
                   exists o, nth_error outs i = Some o /\ transition_output x i e o).
  { intros i e Hi.
    apply (Forall2_nth_error_l _ _ _ i (i, e)) in Hout; [exact Hout |].
    unfold enumerate, range. apply (nth_error_combine_seq l 0 i e Hi). }
  split.
  - intros i c_i Hin Hou.
    destruct (nth_error l i) as [e |] eqn:Hi.
    2:{ apply nth_error_None in Hi. apply nth_error_Some_lt in Hou. lia. }
    destruct (Hall i e Hi) as (out_i & Hout_i & He).
    rewrite Hou in Hout_i. injection Hout_i as <-.
    destruct (Nat.ltb_spec i (length inc)) as [Hlt | Hge].
    2:{ apply nth_error_Some_lt in Hin. lia. }
    destruct He as (in_i & Hin_i & He). rewrite Hin in Hin_i. injection Hin_i as <-.
    rewrite Z.eqb_refl in He. subst e. split; [reflexivity |].
    destruct (Hget i None Hi) as (o & Ho & Hrel).
    unfold transition_output in Hrel. congruence.
  - intros i [Hge Hlt].
    destruct (nth_error l i) as [e |] eqn:Hi.
    2:{ apply nth_error_None in Hi. lia. }
    destruct (Hall i e Hi) as (out_i & Hout_i & He).
    destruct (Nat.ltb_spec i (length inc)) as [Hlt' | _]; [lia |].
    destruct He as (in_last & c & k & Hlast & -> & Hc).
    destruct (Hget i (Some c) Hi) as (o & Ho & Hrel).
    unfold transition_output in Hrel.
    destruct (Nat.ltb_spec i (length x)) as [Hlt' | _]; [lia |].
    destruct Hrel as (x_last & Hxl & ->).
    rewrite ConvBNLayer_init_run in Hc. injection Hc as Hc. subst c.
    eexists _, x_last. split; [reflexivity |].
    cbn [ConvBNLayer._conv nn.kernel_size nn.stride nn.in_channels nn.out_channels].
    auto 10.
Qed.

Lemma TransitionLayer_forward_spec_witness :
  exists tl n' outs,
    runStateT (TransitionLayer.init [18; 36] [18; 36; 72] "tr2") 0%nat = inr (tl, n')
    /\ TransitionLayer.forward (P := Pure.paddle (ops := Graph.ops)) tl
         [Graph.Input 0; Graph.Input 1] = inr outs
    /\ length outs = 3%nat
    /\ nth_error outs 0 = Some (Graph.Input 0)
    /\ nth_error outs 1 = Some (Graph.Input 1)
    /\ exists c, nn.stride (ConvBNLayer._conv c) = 2
                 /\ nth_error outs 2 = Some (Pure.conv_bn c (Graph.Input 1)).
Proof.
  destruct (runStateT (TransitionLayer.init [18; 36] [18; 36; 72] "tr2") 0%nat)
    as [e | [tl n']] eqn:H.
  { vm_compute in H. discriminate H. }
  destruct (TransitionLayer_forward_spec _ _ _ _ _ _ H Graph.t Graph.ops
              [Graph.Input 0; Graph.Input 1] eq_refl)
    as (outs & Hrun & Hlen & Hsame & Hnew).
  exists tl, n', outs. split; [reflexivity |]. split; [exact Hrun |].
  split; [exact Hlen |].
  split; [apply (proj2 (Hsame 0%nat 18 eq_refl eq_refl)) |].
  split; [apply (proj2 (Hsame 1%nat 36 eq_refl eq_refl)) |].
  destruct (Hnew 2%nat ltac:(cbn; lia))
    as (c & x_last & _ & _ & Hstride & _ & _ & Hlast & Hout).
  cbn in Hlast. injection Hlast as <-.
  exists c. split; [exact Hstride | exact Hout].
Defined.

(** ** Fusion of the branches (C1) *)

(** C1.  [FuseLayers.forward], on as many inputs as the layer has input
    branches, returns one output per output branch [i]; output [i] is the ReLU
    of the sum of [input[i]] and of the contribution of every other branch
    [j], added in increasing order of [j].  For [j > i] the contribution is
    [input[j]] passed through a 1x1 [ConvBNLayer], from [in_channels[j]] to
    [out_channels[i]] channels and without activation, then up-sampled with
    mode "nearest" by the scale factor [2 ** (j - i)].  For [j < i] it is
    [input[j]] passed through a chain of [i - j] stride-2 3x3 layers.  ([d] is
    a default tensor for the list accesses; it is never read.) *)
Theorem FuseLayers_forward_fuses (inc outc : list Z) (mso : bool) (name : string)
  (n0 : nat) (fl : FuseLayers.t) (n1 : nat) :
  runStateT (FuseLayers.init inc outc mso name) n0 = inr (fl, n1) ->
  forall (Tensor : Type) (ops : Pure.Ops Tensor) (input : list Tensor) (d : Tensor),
    length input = length inc ->
    (mso = false -> inc <> []) ->
    exists outs,
      FuseLayers.forward fl input = inr outs
      /\ length outs = FuseLayers._actual_ch fl
      /\ (forall i, (i < FuseLayers._actual_ch fl)%nat ->
            nth_error outs i
            = Some (Pure.relu
                      (fold_left
                         (fun residual j =>
                            Pure.add residual (fuse_contribution fl input d i j))
                         (other_branches (length inc) i)
                         (nth i input d))))
      /\ (forall i j, (i < FuseLayers._actual_ch fl)%nat ->
            (i < j < length inc)%nat ->
            exists c,
              nth_error (FuseLayers.residual_func_list fl)
                (FuseLayout.offset (length inc) i j) = Some c
              /\ nn.kernel_size (ConvBNLayer._conv c) = 1
              /\ nn.stride (ConvBNLayer._conv c) = 1
              /\ nn.in_channels (ConvBNLayer._conv c) = nth j inc 0
              /\ nn.out_channels (ConvBNLayer._conv c) = nth i outc 0
              /\ nn.act (ConvBNLayer._batch_norm c) = None
              /\ fuse_contribution fl input d i j
                 = Pure.upsample (Pure.conv_bn c (nth j input d))
                     (2 ^ Z.of_nat (j - i)) "nearest")
      /\ (forall i j, (i < FuseLayers._actual_ch fl)%nat -> (j < i)%nat ->
            exists chain,
              chain = firstn (i - j)
                        (skipn (FuseLayout.offset (length inc) i j)
                           (FuseLayers.residual_func_list fl))
              /\ length chain = (i - j)%nat
              /\ Forall (fun c => nn.kernel_size (ConvBNLayer._conv c) = 3
                                  /\ nn.stride (ConvBNLayer._conv c) = 2) chain
              /\ fuse_contribution fl input d i j
                 = Pure.conv_bn_chain chain (nth j input d)).
Proof.
  intros H Tensor ops input d Hlen Hne.
  apply FuseLayers_init_layout in H. cbv zeta in H.
  destruct H as (Hact & Hinc & HL & _).
  set (actual := if mso then length inc else 1%nat) in *.
  assert (Hactual : (actual <= length inc)%nat).
  { unfold actual. destruct mso; [lia |].
    destruct inc; [now destruct (Hne eq_refl) | cbn; lia]. }
  assert (HlenL : length (FuseLayers.residual_func_list fl)
                  = FuseLayout.base_offset (length inc) actual).
  { rewrite HL, assign_ids_length. apply layers_prefix_length. }
  destruct (FuseLayers_forward_pure fl input d) as [_ Hfwd].
  { rewrite Hact. lia. }
  { rewrite Hinc. lia. }
  { rewrite Hinc, Hact, HlenL. lia. }
  exists (map (fused_output fl input d) (range (FuseLayers._actual_ch fl))).
  split; [exact Hfwd |].
  split; [unfold range; now rewrite length_map, length_seq |].
  split; [| split].
  - intros i Hi. unfold range. rewrite nth_error_map, nth_error_seq.
    destruct (Nat.ltb_spec i (FuseLayers._actual_ch fl)); [| lia].
    cbn. unfold fused_output. rewrite Hinc. reflexivity.
  - intros i j Hi Hij. rewrite Hact in Hi.
    assert (Hslice := layout_slice inc outc actual i j n0 Hi ltac:(lia)).
    rewrite <- HL in Hslice. unfold FuseLayout.chunk, FuseLayout.need in Hslice.
    destruct (Nat.ltb_spec i j) as [_ | ?]; [| lia]. cbn in Hslice.
    destruct (skipn (FuseLayout.offset (length inc) i j)
                (FuseLayers.residual_func_list fl)) as [| c rest] eqn:Hskip;
      [discriminate Hslice |].
    cbn in Hslice. injection Hslice as Hc.
    exists c. split.
    { rewrite <- (Nat.add_0_r (FuseLayout.offset (length inc) i j)).
      rewrite <- nth_error_skipn, Hskip. reflexivity. }
    rewrite Hc. cbn. repeat (split; [reflexivity |]).
    unfold fuse_contribution, fuse_contribution_at, FuseLayout.need.
    rewrite Hinc, Hskip. destruct (Nat.ltb_spec i j) as [_ | ?]; [| lia].
    cbn. rewrite Hc. reflexivity.
  - intros i j Hi Hji. rewrite Hact in Hi.
    assert (Hslice := layout_slice inc outc actual i j n0 Hi ltac:(lia)).
    rewrite <- HL in Hslice. unfold FuseLayout.chunk, FuseLayout.need in Hslice.
    destruct (Nat.ltb_spec i j) as [? | _]; [lia |].
    eexists. split; [reflexivity |].
    split.
    { rewrite Hslice, assign_ids_length, length_map, length_seq. reflexivity. }
    split.
    { rewrite Hslice. clear.
      generalize (n0 + 2 * FuseLayout.offset (length inc) i j)%nat.
      induction (seq 0 (i - j)) as [| k ks IH]; intros id; cbn; constructor.
      - destruct (k =? i - j - 1)%nat; cbn; split; reflexivity.
      - apply IH. }
    unfold fuse_contribution, fuse_contribution_at, FuseLayout.need.
    rewrite Hinc. destruct (Nat.ltb_spec i j) as [? | _]; [lia |]. reflexivity.
Qed.

Lemma FuseLayers_forward_fuses_witness :
  exists fl n1 outs c,
    runStateT (FuseLayers.init [18; 36] [18; 36] true "st2_1") 0%nat = inr (fl, n1)
    /\ FuseLayers.forward (P := Pure.paddle (ops := Graph.ops)) fl
         [Graph.Input 0; Graph.Input 1] = inr outs
    /\ length outs = 2%nat
    /\ nn.kernel_size (ConvBNLayer._conv c) = 1
    /\ nth_error outs 0
       = Some (Graph.Relu
                 (Graph.Add (Graph.Input 0)
                    (Graph.Upsample
                       (Graph.BatchNorm (ConvBNLayer._batch_norm c)
                          (Graph.Conv2D (ConvBNLayer._conv c) (Graph.Input 1)))
                       2 "nearest"))).
Proof.
  destruct (runStateT (FuseLayers.init [18; 36] [18; 36] true "st2_1") 0%nat)
    as [e | [fl n1]] eqn:H.
  { vm_compute in H. discriminate H. }
  destruct (FuseLayers_forward_fuses _ _ _ _ _ _ _ H Graph.t Graph.ops
              [Graph.Input 0; Graph.Input 1] (Graph.Input 0) eq_refl
              (fun E => ltac:(discriminate E)))
    as (outs & Hrun & Hlen & Hout & Hup & _).
  destruct (FuseLayers_init_attrs _ _ _ _ _ _ _ H) as [_ Hact]. cbn in Hact.
  rewrite Hact in Hlen, Hout, Hup.
  destruct (Hup 0%nat 1%nat ltac:(lia) ltac:(cbn; lia))
    as (c & _ & Hk & _ & _ & _ & _ & Hc).
  exists fl, n1, outs, c. split; [reflexivity |]. split; [exact Hrun |].
  split; [exact Hlen |]. split; [exact Hk |].
  rewrite (Hout 0%nat ltac:(lia)).
  change (other_branches (length [18; 36]) 0) with [1%nat].
  cbn [fold_left nth]. rewrite Hc. reflexivity.
Defined.

(** ** The running index of [FuseLayers.forward] (C8) *)

(** C8.  For a [FuseLayers] instance, the number of [ConvBNLayer]s the
    constructor appends to [residual_func_list] is [fuse_layer_count]: for
    each output [i < actual_ch], one per [j > i] and [i - j] per [j < i].  The
    layers are pairwise distinct objects.  On as many inputs as there are input
    branches, [forward] never indexes the list out of bounds, its running
    index [residual_func_idx] ends at the length of the list, and the layers
    it calls, in order, are exactly the layers of the list, in order: each
    constructed layer is called exactly once per call of [forward]. *)
Theorem FuseLayers_index_in_bounds (inc outc : list Z) (mso : bool) (name : string)
  (n0 : nat) (fl : FuseLayers.t) (n1 : nat) :
  runStateT (FuseLayers.init inc outc mso name) n0 = inr (fl, n1) ->
  length (FuseLayers.residual_func_list fl)
  = fuse_layer_count (length inc) (FuseLayers._actual_ch fl)
  /\ NoDup (map Recording.layer_id (FuseLayers.residual_func_list fl))
  /\ (forall (Tensor : Type) (ops : Pure.Ops Tensor) (input : list Tensor),
        length input = length inc -> (mso = false -> inc <> []) ->
        exists outs,
          foldM (FuseLayers.forward_i fl input) (range (FuseLayers._actual_ch fl))
            ([], 0%nat)
          = inr (outs, length (FuseLayers.residual_func_list fl)))
  /\ (forall input : list unit,
        length input = length inc -> (mso = false -> inc <> []) ->
        exists outs,
          runStateT (FuseLayers.forward (P := Recording.paddle) fl input) []
          = inr (outs, map Recording.layer_id (FuseLayers.residual_func_list fl))).
Proof.
  intros H. apply FuseLayers_init_layout in H. cbv zeta in H.
  destruct H as (Hact & Hinc & HL & _).
  set (actual := if mso then length inc else 1%nat) in *.
  assert (HlenL : length (FuseLayers.residual_func_list fl)
                  = FuseLayout.base_offset (length inc) actual).
  { rewrite HL, assign_ids_length. apply layers_prefix_length. }
  assert (Hactual : (mso = false -> inc <> []) -> (actual <= length inc)%nat).
  { intros Hne. unfold actual. destruct mso; [lia |].
    destruct inc; [now destruct (Hne eq_refl) | cbn; lia]. }
  split; [rewrite HlenL, Hact; apply base_offset_count |].
  split; [rewrite HL; apply assign_ids_NoDup, layers_conv_id |].
  split.
  - intros Tensor ops input Hlen Hne. specialize (Hactual Hne).
    destruct input as [| d input'] eqn:Einput.
    + (* no branch at all: nothing to loop over *)
      assert (actual = 0%nat) by (cbn in Hlen; lia).
      exists []. rewrite Hact, HlenL. replace actual with 0%nat. reflexivity.
    + rewrite <- Einput in *.
      destruct (FuseLayers_forward_pure fl input d) as [Hloop _].
      { rewrite Hact. lia. }
      { rewrite Hinc. lia. }
      { rewrite Hinc, Hact, HlenL. lia. }
      eexists. rewrite Hloop, Hinc, Hact, HlenL. reflexivity.
  - intros input Hlen Hne. specialize (Hactual Hne).
    destruct (rec_forward_i_loop fl input actual 0 [] []) as (outs & Hrun & _).
    { lia. }
    { rewrite Hinc. lia. }
    { rewrite Hinc, HlenL. cbn [Nat.add]. lia. }
    exists outs. unfold FuseLayers.forward. rewrite st_bind.
    unfold range. rewrite Hact.
    cbn [FuseLayout.base_offset Nat.add app] in Hrun. rewrite Hrun.
    rewrite st_ret. do 2 f_equal.
    unfold Recording.ids_between. rewrite Hinc, <- HlenL, Nat.sub_0_r.
    cbn [skipn]. rewrite firstn_all. reflexivity.
Qed.

Lemma FuseLayers_index_in_bounds_witness :
  exists fl n1 outs,
    runStateT (FuseLayers.init [18; 36; 72] [18; 36; 72] true "st3_1") 0%nat
    = inr (fl, n1)
    /\ length (FuseLayers.residual_func_list fl) = 7%nat
    /\ runStateT (FuseLayers.forward (P := Recording.paddle) fl [tt; tt; tt]) []
       = inr (outs, map Recording.layer_id (FuseLayers.residual_func_list fl)).
Proof.
  destruct (runStateT (FuseLayers.init [18; 36; 72] [18; 36; 72] true "st3_1") 0%nat)
    as [e | [fl n1]] eqn:H.
  { vm_compute in H. discriminate H. }
  destruct (FuseLayers_index_in_bounds _ _ _ _ _ _ _ H) as (Hlen & _ & _ & Hrec).
  destruct (Hrec [tt; tt; tt] eq_refl (fun E => ltac:(discriminate E)))
    as (outs & Hrun).
  exists fl, n1, outs. split; [reflexivity |]. split; [| exact Hrun].
  rewrite Hlen.
  destruct (FuseLayers_init_attrs _ _ _ _ _ _ _ H) as [_ ->]. reflexivity.
Defined.

(** ** Single-precision numbers *)




















#[global] Opaque Float32.floats.






(** ** Squeeze-and-excitation (C7) *)





(** ** The forward pass of a network stops at its first layer (C6) *)

Section HiddenForward.
Context {S Tensor : Type} {P : Paddle (stateT S (sum PyExc)) Tensor}.



End HiddenForward.


(** * Further properties of the layers *)

(** ** Squeeze-and-excitation needs sixteen channels *)

Lemma SELayer_init_outcome {py : Interpreter} (nc nf r : Z) (name : string) (n : nat) :
  runStateT (SELayer.init nc nf r name) n =
  if r =? 0 then inl ZeroDivisionError
  else if nc <? 0 then inl ValueError
  else if nc =? 0 then inl ZeroDivisionError
  else if __debug__ && negb ((0 <? nc) && (0 <? Z.quot nc r)) then inl AssertionError
  else if Z.quot nc r <? 0 then inl ValueError
  else if Z.quot nc r =? 0 then inl ZeroDivisionError
  else if __debug__ && negb ((0 <? Z.quot nc r) && (0 <? nf)) then inl AssertionError
  else
    inr ({| SELayer.pool2d_gap := {| nn.output_size := 1 |};
            SELayer._num_channels := nc;
            SELayer.squeeze :=
              {| nn.fc_id := n; nn.in_features := nc; nn.out_features := Z.quot nc r;
                 nn.weight_attr := (name ++ "_sqz_weights")%string;
                 nn.bias_attr_name := (name ++ "_sqz_offset")%string |};
            SELayer.excitation :=
              {| nn.fc_id := S n; nn.in_features := Z.quot nc r; nn.out_features := nf;
                 nn.weight_attr := (name ++ "_exc_weights")%string;
                 nn.bias_attr_name := (name ++ "_exc_offset")%string |} |},
         S (S n)).
Proof.
  unfold SELayer.init, int_truediv, inv_sqrt.
  destruct (r =? 0); [reflexivity |].
  cbn [bind ret Monad_stateT runStateT Monad_either].
  destruct (nc <? 0); [reflexivity |].
  destruct (nc =? 0); [reflexivity |].
  cbn [bind ret Monad_stateT runStateT Monad_either].
  rewrite Linear_new_run.
  destruct (__debug__ && negb ((0 <? nc) && (0 <? Z.quot nc r))); [reflexivity |].
  destruct (Z.quot nc r <? 0); [reflexivity |].
  destruct (Z.quot nc r =? 0); [reflexivity |].
  cbn [bind ret Monad_stateT runStateT Monad_either].
  rewrite Linear_new_run.
  destruct (__debug__ && negb ((0 <? Z.quot nc r) && (0 <? nf))); reflexivity.
Qed.

Lemma SELayer_init_16 {py : Interpreter} (c : Z) (name : string) (n : nat) :
  (16 <= c -> exists s, runStateT (SELayer.init c c 16 name) n = inr (s, S (S n))
                        /\ nn.out_features (SELayer.squeeze s) = c / 16).
Proof.
  intros Hc.
  assert (Hq : 0 < Z.quot c 16).
  { rewrite Z.quot_div_nonneg by lia. apply Z.div_str_pos. lia. }
  rewrite SELayer_init_run by lia.
  eexists. split; [reflexivity |]. cbn. apply Z.quot_div_nonneg; lia.
Qed.

(** Below sixteen channels, under the default interpreter. *)
Lemma SELayer_init_small (c nf : Z) (name : string) (n : nat) :
  (c < 0 -> runStateT (SELayer.init (py := python) c nf 16 name) n = inl ValueError)
  /\ (c = 0 ->
      runStateT (SELayer.init (py := python) c nf 16 name) n = inl ZeroDivisionError)
  /\ (0 < c < 16 ->
      runStateT (SELayer.init (py := python) c nf 16 name) n = inl AssertionError).
Proof.
  rewrite SELayer_init_outcome. change (16 =? 0) with false. cbv iota.
  cbn [__debug__ python andb].
  split; [| split]; intros Hc.
  - destruct (Z.ltb_spec c 0); [reflexivity | lia].
  - subst c. reflexivity.
  - destruct (Z.ltb_spec c 0); [lia |]. destruct (Z.eqb_spec c 0); [lia |].
    assert (Hq : Z.quot c 16 = 0) by (apply Z.quot_small; lia).
    rewrite Hq. destruct (Z.ltb_spec 0 c); [| lia]. reflexivity.
Qed.

(** X1.  Under the default interpreter an [SELayer] with reduction ratio 16
    cannot be built over fewer than 16 channels.  [SELayer(c, nf, 16, name)]
    raises [ValueError] for [c < 0] ([math.sqrt] of a negative number),
    [ZeroDivisionError] for [c = 0] ([1.0 / math.sqrt(0.0)]), and
    [AssertionError] for [0 < c < 16]: the intermediate width [int(c / 16)]
    is 0, and the squeeze [nn.Linear(c, 0)] fails the assertion that the
    dimensions of a parameter are positive, before the second
    [1.0 / math.sqrt] is reached.  Hence, for positive [num_channels] and
    [stride], a [BasicBlock] with [has_se] and [0 < num_filters < 16] and a
    [BottleneckBlock] with [has_se] and [0 < num_filters < 4] raise
    [AssertionError]. *)
Theorem SE_blocks_need_16_channels (nc nf st : Z) (ds : bool) (name : string)
  (n : nat) :
  0 < nc -> 0 < st ->
  (nf < 0 -> runStateT (SELayer.init (py := python) nf nf 16 name) n = inl ValueError)
  /\ (nf = 0 ->
      runStateT (SELayer.init (py := python) nf nf 16 name) n = inl ZeroDivisionError)
  /\ (0 < nf < 16 ->
      runStateT (SELayer.init (py := python) nf nf 16 name) n = inl AssertionError
      /\ runStateT (BasicBlock.init (py := python) nc nf st true ds name) n
         = inl AssertionError)
  /\ (0 < nf < 4 ->
      runStateT (BottleneckBlock.init (py := python) nc nf true st ds name) n
      = inl AssertionError).
Proof.
  intros _ _.
  destruct (SELayer_init_small nf nf name n) as (Hneg & Hzero & Hsmall).
  split; [exact Hneg |]. split; [exact Hzero |]. split.
  - intros H. split; [exact (Hsmall H) |].
    unfold BasicBlock.init.
    assert (Hs := fun k => proj2 (proj2 (SELayer_init_small nf nf ("fc" ++ name) k)) H).
    destruct ds; repeat (rewrite ctor_bind, ?ConvBNLayer_init_run, ?ctor_ret, ?Hs);
      reflexivity.
  - intros H.
    unfold BottleneckBlock.init.
    assert (Hs := fun k => proj2 (proj2 (SELayer_init_small (nf * 4) (nf * 4)
                                            ("fc" ++ name) k)) ltac:(lia)).
    destruct ds; repeat (rewrite ctor_bind, ?ConvBNLayer_init_run, ?ctor_ret, ?Hs);
      reflexivity.
Qed.

Lemma SE_blocks_need_16_channels_witness :
  runStateT (SELayer.init (py := python) 8 8 16 "fc") 0%nat = inl AssertionError
  /\ runStateT (BasicBlock.init (py := python) 8 8 1 true false "b") 0%nat
     = inl AssertionError
  /\ runStateT (BottleneckBlock.init (py := python) 8 2 true 1 false "b") 0%nat
     = inl AssertionError
  /\ runStateT (SELayer.init (py := python) 0 0 16 "fc") 0%nat = inl ZeroDivisionError.
Proof.
  destruct (SE_blocks_need_16_channels 8 8 1 false "b" 0 ltac:(lia) ltac:(lia))
    as (_ & _ & H1 & _).
  destruct (SE_blocks_need_16_channels 8 8 1 false "fc" 0 ltac:(lia) ltac:(lia))
    as (_ & _ & H1' & _).
  destruct (SE_blocks_need_16_channels 8 2 1 false "b" 0 ltac:(lia) ltac:(lia))
    as (_ & _ & _ & H2).
  destruct (SE_blocks_need_16_channels 8 0 1 false "fc" 0 ltac:(lia) ltac:(lia))
    as (_ & H0 & _).
  split; [exact (proj1 (H1' ltac:(lia))) |].
  split; [exact (proj2 (H1 ltac:(lia))) |].
  split; [exact (H2 ltac:(lia)) |].
  exact (H0 eq_refl).
Defined.

(** ** Transition layers: the remaining cases *)

Section TransitionOutputs.
Context {Tensor : Type} {ops : Pure.Ops Tensor}.

(** On at least as many inputs as the layer has input branches, [forward]
    returns one output per entry of [conv_bn_func_list]. *)
Lemma TransitionLayer_forward_outputs (inc outc : list Z) (name : string) (n : nat)
  (tl : TransitionLayer.t) (n' : nat) (x : list Tensor) :
  runStateT (TransitionLayer.init inc outc name) n = inr (tl, n') ->
  (length inc <= length x)%nat ->
  exists outs,
    TransitionLayer.forward tl x = inr outs
    /\ length outs = length outc
    /\ forall i e, nth_error (TransitionLayer.conv_bn_func_list tl) i = Some e ->
         transition_entry inc outc i e
         /\ exists o, nth_error outs i = Some o /\ transition_output x i e o.
Proof.
  intros H Hx. apply TransitionLayer_init_inv in H. destruct H as [Hlen Hall].
  set (l := TransitionLayer.conv_bn_func_list tl) in *.
  destruct (TransitionLayer_forward_loop x (enumerate l) []) as (outs & Hrun & Hout).
  { apply Forall_forall. intros [idx e] Hin. unfold enumerate, range in Hin.
    apply In_combine_seq in Hin. rewrite Nat.sub_0_r in Hin. destruct Hin as [Hin _].
    destruct (Hall idx e Hin) as (out_i & Hout & He).
    destruct (Nat.ltb_spec idx (length inc)) as [Hlt | Hge].
    - destruct He as (in_i & Hini & He).
      destruct e; [intros ->; cbn in Hx; lia | lia].
    - destruct He as (in_last & c & k & Hlast & -> & _).
      intros ->. destruct inc; [discriminate Hlast | cbn in Hx; lia]. }
  exists outs. cbn [app] in Hrun. split; [exact Hrun |].
  assert (Hlo : length outs = length l).
  { apply Forall2_length in Hout. unfold enumerate, range in Hout.
    rewrite length_combine, length_seq, Nat.min_id in Hout. congruence. }
  split; [congruence |].
  intros i e Hi. split; [apply Hall; exact Hi |].
  apply (Forall2_nth_error_l _ _ _ i (i, e)) in Hout; [exact Hout |].
  unfold enumerate, range. apply (nth_error_combine_seq l 0 i e Hi).
Qed.

End TransitionOutputs.

(** X2.  For a [TransitionLayer] and a list [x] of at least as many tensors
    as the layer has input branches: at every position [i] below
    [len(in_channels)] where the widths differ, the stored function is a
    stride-1 3x3 [ConvBNLayer] (padding 1, ReLU) from [in_channels[i]] to
    [out_channels[i]] channels, and the output at [i] is that layer applied to
    [x[i]]. *)
Theorem TransitionLayer_changed_width (inc outc : list Z) (name : string) (n : nat)
  (tl : TransitionLayer.t) (n' : nat) :
  runStateT (TransitionLayer.init inc outc name) n = inr (tl, n') ->
  forall (Tensor : Type) (ops : Pure.Ops Tensor) (x : list Tensor),
    (length inc <= length x)%nat ->
    exists outs,
      TransitionLayer.forward tl x = inr outs
      /\ forall i c_in c_out,
           nth_error inc i = Some c_in -> nth_error outc i = Some c_out ->
           c_in <> c_out ->
           exists c x_i,
             nth_error (TransitionLayer.conv_bn_func_list tl) i = Some (Some c)
             /\ nn.kernel_size (ConvBNLayer._conv c) = 3
             /\ nn.stride (ConvBNLayer._conv c) = 1
             /\ nn.padding (ConvBNLayer._conv c) = 1
             /\ nn.in_channels (ConvBNLayer._conv c) = c_in
             /\ nn.out_channels (ConvBNLayer._conv c) = c_out
             /\ nn.act (ConvBNLayer._batch_norm c) = Some "relu"%string
             /\ nth_error x i = Some x_i
             /\ nth_error outs i = Some (Pure.conv_bn c x_i).
Proof.
  intros H Tensor ops x Hx.
  destruct (TransitionLayer_forward_outputs _ _ _ _ _ _ x H Hx)
    as (outs & Hrun & Hlen & Hget).
  exists outs. split; [exact Hrun |].
  intros i c_in c_out Hin Hou Hne.
  apply TransitionLayer_init_inv in H. destruct H as [Hl _].
  destruct (nth_error (TransitionLayer.conv_bn_func_list tl) i) as [e |] eqn:Hi.
  2:{ apply nth_error_None in Hi. apply nth_error_Some_lt in Hou. lia. }
  destruct (Hget i e Hi) as ((out_i & Hout_i & He) & (o & Ho & Hrel)).
  rewrite Hou in Hout_i. injection Hout_i as <-.
  assert (Hlt : (i < length inc)%nat) by (eapply nth_error_Some_lt; exact Hin).
  destruct (Nat.ltb_spec i (length inc)) as [_ | ?]; [| lia].
  destruct He as (in_i & Hin_i & He). rewrite Hin in Hin_i. injection Hin_i as <-.
  destruct (Z.eqb_spec c_in c_out) as [? | _]; [contradiction |].
  destruct He as (c & k & -> & Hc).
  rewrite ConvBNLayer_init_run in Hc. injection Hc as Hc. subst c.
  unfold transition_output in Hrel.
  destruct (Nat.ltb_spec i (length x)) as [_ | ?]; [| lia].
  destruct Hrel as (x_i & Hxi & ->).
  eexists _, x_i. split; [reflexivity |]. cbn. auto 10.
Qed.

Lemma TransitionLayer_changed_width_witness :
  exists tl n' outs c,
    runStateT (TransitionLayer.init [256] [18; 36] "tr1") 0%nat = inr (tl, n')
    /\ TransitionLayer.forward (P := Pure.paddle (ops := Graph.ops)) tl
         [Graph.Input 0] = inr outs
    /\ nn.stride (ConvBNLayer._conv c) = 1
    /\ nn.in_channels (ConvBNLayer._conv c) = 256
    /\ nn.out_channels (ConvBNLayer._conv c) = 18
    /\ nth_error outs 0 = Some (Pure.conv_bn c (Graph.Input 0)).
Proof.
  destruct (runStateT (TransitionLayer.init [256] [18; 36] "tr1") 0%nat)
    as [e | [tl n']] eqn:H.
  { vm_compute in H. discriminate H. }
  destruct (TransitionLayer_changed_width _ _ _ _ _ _ H Graph.t Graph.ops
              [Graph.Input 0] ltac:(cbn; lia))
    as (outs & Hrun & Hconv).
  destruct (Hconv 0%nat 256 18 eq_refl eq_refl ltac:(lia))
    as (c & x_i & _ & _ & Hst & _ & Hin & Hout & _ & Hx & Ho).
  cbn in Hx. injection Hx as <-.
  exists tl, n', outs, c. split; [reflexivity |]. auto 10.
Defined.

Lemma getitem_ctor_ok {A : Type} (l : list A) (i : nat) (a : A) (n : nat) :
  nth_error l i = Some a -> runStateT (getitem l i : Ctor A) n = inr (a, n).
Proof. unfold getitem. now intros ->. Qed.


Lemma nth_error_lt_Some {A : Type} (l : list A) (i : nat) :
  (i < length l)%nat -> exists a, nth_error l i = Some a.
Proof.
  intros H. destruct (nth_error l i) as [a |] eqn:E; [eauto |].
  apply nth_error_None in E. lia.
Qed.




(** ** Branches *)


Lemma append_at_last {A : Type} (ll : list (list A)) (row : list A) (a : A) (n : nat) :
  runStateT (Branches.append_at (ll ++ [row]) (length ll) a) n
  = inr (ll ++ [row ++ [a]], n).
Proof.
  unfold Branches.append_at. rewrite ctor_bind.
  rewrite (getitem_ctor_ok _ _ row) by (rewrite nth_error_app2, Nat.sub_diag; [reflexivity | lia]).
  rewrite ctor_ret. do 2 f_equal.
  rewrite firstn_app, firstn_all, Nat.sub_diag. cbn [firstn]. rewrite app_nil_r.
  rewrite skipn_all2 by (rewrite length_app; cbn; lia). reflexivity.
Qed.

Lemma nth_error_snoc {A : Type} (l : list A) (a : A) (p : nat) (x : A) :
  nth_error (l ++ [a]) p = Some x ->
  nth_error l p = Some x \/ (p = length l /\ x = a).
Proof.
  intros Hp. destruct (Nat.lt_ge_cases p (length l)) as [Hlt | Hge].
  - rewrite nth_error_app1 in Hp by assumption. now left.
  - rewrite nth_error_app2 in Hp by assumption.
    destruct (p - length l)%nat as [| q] eqn:Hq; [| destruct q; discriminate].
    cbn in Hp. injection Hp as <-. right. split; [lia | reflexivity].
Qed.

Lemma Branches_init_rows {py : Interpreter}
  (bn : Z) (inc outc : list Z) (se : bool) (name : string)
  (n : nat) (br : Branches.t) (n' : nat) :
  runStateT (Branches.init bn inc outc se name) n = inr (br, n') ->
  length (Branches.basic_block_list br) = length outc
  /\ branch_rows bn inc outc se name (Branches.basic_block_list br).
Proof.
  intros H. unfold Branches.init in H. run_inv H.
  injection H as Hb Hn. subst br n'. cbn [Branches.basic_block_list].
  unfold range in Hrun.
  apply (foldM_seq_inv
           (fun i (ll : list (list BasicBlock.t)) (_ : nat) =>
              length ll = i /\ branch_rows bn inc outc se name ll)) in Hrun.
  - exact Hrun.
  - split; [reflexivity |]. intros [| p] row Hp; discriminate.
  - clear. intros i ll n ll' n' _ [Hlen Hrows] H.
    unfold rangeZ, range in H.
    apply (foldM_seq_inv
             (fun j (ll' : list (list BasicBlock.t)) (_ : nat) =>
                exists row, ll' = ll ++ [row] /\ length row = j
                  /\ forall q b, nth_error row q = Some b ->
                       branch_block inc outc se name i q b)) in H.
    + cbn [Nat.add] in H. destruct H as (row & -> & Hrow & Hblocks).
      split; [rewrite length_app; cbn; lia |].
      intros p r Hp. apply nth_error_snoc in Hp. destruct Hp as [Hp | [-> ->]].
      * apply Hrows. exact Hp.
      * rewrite Hlen. split; assumption.
    + exists []. repeat split. intros [| q] b Hq; discriminate.
    + clear - Hlen. intros j s n s' n' _ (row & -> & Hrow & Hblocks) H.
      run_inv H. rewrite <- Hlen in H. rewrite append_at_last in H.
      injection H as <- <-. unfold add_sublayer.
      exists (row ++ [a1]). split; [reflexivity |].
      split; [rewrite length_app; cbn; lia |].
      intros q b Hq. apply nth_error_snoc in Hq. destruct Hq as [Hq | [-> ->]].
      * apply Hblocks. exact Hq.
      * rewrite Hrow.
        apply getitem_ctor_inv in Hrun0. cbn [fst snd] in Hrun0.
        destruct Hrun0 as [Hout ->].
        exists a, a0, n0, n2. split; [exact Hout |]. split; [| exact Hrun1].
        destruct (j =? 0)%nat; apply getitem_ctor_inv in Hrun; cbn [fst] in Hrun;
          destruct Hrun as [Hrun _]; [exact Hrun | congruence].
Qed.






(** *** [Branches.forward] *)

Section PureLoops.
Context {A B : Type}.

(** A loop that only threads a value through total steps is a fold. *)
Lemma foldM_fold_left (f : A -> B -> PyExc + B) (g : A -> B -> B) (l : list A) (x : B) :
  Forall (fun a => forall y, f a y = inr (g a y)) l ->
  foldM f l x = inr (fold_left (fun y a => g a y) l x).
Proof.
  intros H. revert x. induction H as [| a l Ha _ IH]; intros x; [reflexivity |].
  cbn [foldM fold_left]. rewrite Ha. apply IH.
Qed.

(** A loop over [enumerate(x)] that appends one output per element. *)
Lemma foldM_enumerate_outs (body : nat * A -> list B -> PyExc + list B)
  (g : nat -> A -> B) (x : list A) (a : nat) (outs : list B) :
  (forall i xi outs, nth_error x i = Some xi ->
     body ((a + i)%nat, xi) outs = inr (outs ++ [g (a + i)%nat xi])) ->
  foldM body (combine (seq a (length x)) x) outs
  = inr (outs ++ map (fun p => g (fst p) (snd p)) (combine (seq a (length x)) x)).
Proof.
  revert a outs. induction x as [| x0 x IH]; intros a outs H.
  - cbn. now rewrite app_nil_r.
  - cbn [length seq combine foldM map fst snd].
    assert (H0 := H 0%nat x0 outs eq_refl). rewrite Nat.add_0_r in H0.
    rewrite H0. cbn [bind Monad_either].
    rewrite IH.
    + rewrite <- app_assoc. reflexivity.
    + intros i xi outs' Hi. replace (S a + i)%nat with (a + S i)%nat by lia.
      apply H. exact Hi.
Qed.

(** The same loop stops at the first element whose step raises. *)
Lemma foldM_enumerate_raise (body : nat * A -> list B -> PyExc + list B)
  (g : nat -> A -> B) (e : PyExc) (x : list A) (k a : nat) (outs : list B) :
  (k < length x)%nat ->
  (forall i xi outs, (i < k)%nat -> nth_error x i = Some xi ->
     body ((a + i)%nat, xi) outs = inr (outs ++ [g (a + i)%nat xi])) ->
  (forall xi outs, nth_error x k = Some xi -> body ((a + k)%nat, xi) outs = inl e) ->
  foldM body (combine (seq a (length x)) x) outs = inl e.
Proof.
  revert k a outs. induction x as [| x0 x IH]; intros k a outs Hk Hok Herr.
  - cbn in Hk. lia.
  - cbn [length seq combine foldM].
    destruct k as [| k].
    + assert (H0 := Herr x0 outs eq_refl). rewrite Nat.add_0_r in H0.
      rewrite H0. reflexivity.
    + assert (H0 := Hok 0%nat x0 outs ltac:(lia) eq_refl). rewrite Nat.add_0_r in H0.
      rewrite H0. cbn [bind Monad_either].
      apply (IH k); [cbn in Hk; lia | |].
      * intros i xi outs' Hi Hx. replace (S a + i)%nat with (a + S i)%nat by lia.
        apply Hok; [lia | exact Hx].
      * intros xi outs' Hx. replace (S a + k)%nat with (a + S k)%nat by lia.
        apply Herr. exact Hx.
Qed.

End PureLoops.

Lemma nth_error_enumerate_map {A B : Type} (g : nat -> A -> B) (x : list A) (i : nat) :
  nth_error (map (fun p => g (fst p) (snd p)) (enumerate x)) i
  = option_map (g i) (nth_error x i).
Proof.
  rewrite nth_error_map. unfold enumerate, range.
  destruct (nth_error x i) as [xi |] eqn:Hi.
  - rewrite (nth_error_combine_seq x 0 i xi Hi). reflexivity.
  - destruct (nth_error (combine (seq 0 (length x)) x) i) as [[p q] |] eqn:E;
      [| reflexivity].
    apply nth_error_Some_lt in E. rewrite length_combine, length_seq, Nat.min_id in E.
    apply nth_error_None in Hi. lia.
Qed.

Section PureBranches.
Context {Tensor : Type} {ops : Pure.Ops Tensor}.

Lemma BasicBlock_forward_value {py : Interpreter}
  (se : bool) (b : BasicBlock.t) (x : Tensor) :
  built_by_Branches se b ->
  BasicBlock.forward b x = inr (basic_block_value b x).
Proof.
  intros (nc & nf & name & k & k' & H). apply BasicBlock_init_inv in H.
  destruct H as (Hse & Hds & _ & _ & _ & Hsel).
  rewrite BasicBlock_forward_pure.
  - unfold basic_block_value. rewrite Hse.
    destruct se; [reflexivity | rewrite Hsel; reflexivity].
  - exact Hds.
  - rewrite Hse. intros ->. destruct Hsel as (s & ? & ? & -> & _). discriminate.
Qed.

Lemma branch_block_built {py : Interpreter}
  (inc outc : list Z) (se : bool) (name : string) (i j : nat)
  (b : BasicBlock.t) :
  branch_block inc outc se name i j b -> built_by_Branches se b.
Proof. intros (in_ch & out_i & k & k' & _ & _ & H). red. eauto 8. Qed.

Lemma Branches_forward_value {py : Interpreter}
  (bn : Z) (inc outc : list Z) (se : bool) (name : string)
  (ll : list (list BasicBlock.t)) (x : list Tensor) :
  branch_rows bn inc outc se name ll ->
  ((length x <= length ll)%nat ->
   Branches.forward {| Branches.basic_block_list := ll |} x
   = inr (map (fun p => branch_value (nth (fst p) ll []) (snd p)) (enumerate x)))
  /\ ((length ll < length x)%nat ->
      Branches.forward {| Branches.basic_block_list := ll |} x = inl IndexError).
Proof.
  intros Hrows.
  assert (Hstep : forall i xi (outs : list Tensor), (i < length ll)%nat ->
            (basic_block_list <- getitem ll i ;;
             conv <- foldM (fun basic_block_func conv =>
                              BasicBlock.forward basic_block_func conv)
                       basic_block_list xi ;;
             ret (outs ++ [conv]))
            = inr (outs ++ [branch_value (nth i ll []) xi])).
  { intros i xi outs Hi.
    destruct (nth_error_lt_Some ll i Hi) as (row & Hrow).
    rewrite (getitem_sum_Some _ _ _ Hrow). cbn [bind Monad_either].
    rewrite (nth_error_nth _ _ _ Hrow).
    rewrite (foldM_fold_left _ basic_block_value).
    - reflexivity.
    - apply Forall_forall. intros b Hb y. apply In_nth_error in Hb.
      destruct Hb as (j & Hj).
      apply (BasicBlock_forward_value se).
      eapply branch_block_built. apply (proj2 (Hrows i row Hrow) j b Hj). }
  unfold Branches.forward, enumerate, range. cbn [Branches.basic_block_list].
  split; intros Hlen.
  - rewrite (foldM_enumerate_outs _ (fun i xi => branch_value (nth i ll []) xi)).
    + reflexivity.
    + intros i xi outs Hi. cbn [Nat.add]. apply Hstep.
      apply nth_error_Some_lt in Hi. lia.
  - apply (foldM_enumerate_raise _ (fun i xi => branch_value (nth i ll []) xi)
             IndexError x (length ll)).
    + exact Hlen.
    + intros i xi outs Hi _. cbn [Nat.add]. apply Hstep. exact Hi.
    + intros xi outs _. cbn [Nat.add].
      rewrite getitem_sum_None by (apply nth_error_None; lia). reflexivity.
Qed.

End PureBranches.

(** X5.  [Branches.forward], for the branches of a constructed layer: on at
    most as many inputs as there are branches it returns one output per
    input, output [i] being [x[i]] passed through the blocks of branch [i] one
    after the other, each block adding its input to its (optionally gated)
    second convolution; on more inputs than branches it raises
    [IndexError]. *)
Theorem Branches_forward_branches {py : Interpreter}
  (bn : Z) (inc outc : list Z) (se : bool)
  (name : string) (n : nat) (br : Branches.t) (n' : nat) :
  runStateT (Branches.init bn inc outc se name) n = inr (br, n') ->
  forall (Tensor : Type) (ops : Pure.Ops Tensor) (x : list Tensor),
    ((length x <= length outc)%nat ->
     exists outs,
       Branches.forward br x = inr outs
       /\ length outs = length x
       /\ forall i xi, nth_error x i = Some xi ->
            exists row,
              nth_error (Branches.basic_block_list br) i = Some row
              /\ nth_error outs i
                 = Some (fold_left
                           (fun conv b =>
                              Pure.relu
                                (Pure.add conv
                                   (Pure.se_opt (BasicBlock.se b)
                                      (Pure.conv_bn (BasicBlock.conv2 b)
                                         (Pure.conv_bn (BasicBlock.conv1 b) conv)))))
                           row xi))
    /\ ((length outc < length x)%nat -> Branches.forward br x = inl IndexError).
Proof.
  intros H Tensor ops x. apply Branches_init_rows in H. destruct H as [Hlen Hrows].
  destruct br as [ll]. cbn [Branches.basic_block_list] in *.
  destruct (Branches_forward_value bn inc outc se name ll x Hrows) as [Hok Herr].
  rewrite Hlen in Hok, Herr. split; [| exact Herr].
  intros Hx. eexists. split; [apply Hok; exact Hx |].
  split.
  { unfold enumerate, range. now rewrite length_map, length_combine, length_seq, Nat.min_id. }
  intros i xi Hi.
  destruct (nth_error_lt_Some ll i) as (row & Hrow).
  { apply nth_error_Some_lt in Hi. lia. }
  exists row. split; [exact Hrow |].
  rewrite (nth_error_enumerate_map (fun i xi => branch_value (nth i ll []) xi)), Hi.
  cbn [option_map].
  rewrite (nth_error_nth _ _ _ Hrow). reflexivity.
Qed.

Lemma Branches_forward_branches_witness :
  exists br n',
    runStateT (Branches.init (py := python) 4 [18; 36] [18; 36] false "st2_1") 0%nat = inr (br, n')
    /\ (exists outs,
          Branches.forward (P := Pure.paddle (ops := Graph.ops)) br
            [Graph.Input 0; Graph.Input 1] = inr outs
          /\ length outs = 2%nat)
    /\ Branches.forward (P := Pure.paddle (ops := Graph.ops)) br
         [Graph.Input 0; Graph.Input 1; Graph.Input 2] = inl IndexError.
Proof.
  destruct (runStateT (Branches.init (py := python) 4 [18; 36] [18; 36] false "st2_1") 0%nat)
    as [e | [br n']] eqn:H.
  { vm_compute in H. discriminate H. }
  exists br, n'. split; [reflexivity |].
  split.
  - destruct (proj1 (Branches_forward_branches (py := python) _ _ _ _ _ _ _ _ H Graph.t Graph.ops
                       [Graph.Input 0; Graph.Input 1]) ltac:(cbn; lia))
      as (outs & Hrun & Hlen & _).
    exists outs. split; [exact Hrun | exact Hlen].
  - apply (proj2 (Branches_forward_branches (py := python) _ _ _ _ _ _ _ _ H Graph.t Graph.ops
                    [Graph.Input 0; Graph.Input 1; Graph.Input 2])).
    cbn. lia.
Defined.

(** ** The classification head blocks: [LastClsOut] *)

Lemma BottleneckBlock_init_returns {py : Interpreter}
  (nc nf : Z) (se : bool) (st : Z) (ds : bool)
  (name : string) (n : nat) :
  (se = true -> 16 <= nf * 4) ->
  exists b n', runStateT (BottleneckBlock.init nc nf se st ds name) n = inr (b, n').
Proof.
  intros Hse. unfold BottleneckBlock.init.
  destruct se.
  - destruct ds.
    + destruct (SELayer_init_16 (nf * 4) ("fc" ++ name)
                         (S (S (S (S (S (S (S (S n))))))))
                  (Hse eq_refl)) as (s & Hs & _).
      eexists _, _.
      repeat (rewrite ctor_bind, ?ConvBNLayer_init_run, ?ctor_ret, ?Hs). reflexivity.
    + destruct (SELayer_init_16 (nf * 4) ("fc" ++ name) (S (S (S (S (S (S n))))))
                  (Hse eq_refl)) as (s & Hs & _).
      eexists _, _.
      repeat (rewrite ctor_bind, ?ConvBNLayer_init_run, ?ctor_ret, ?Hs). reflexivity.
  - destruct ds; eexists _, _; reflexivity.
Qed.

Lemma LastClsOut_init_blocks_at {py : Interpreter}
  (ncl : list Z) (se : bool) (nfl : list Z) (name : string)
  (n : nat) (l : LastClsOut.t) (n' : nat) :
  runStateT (LastClsOut.init ncl se nfl name) n = inr (l, n') ->
  length (LastClsOut.func_list l) = length ncl
  /\ forall idx b, nth_error (LastClsOut.func_list l) idx = Some b ->
       head_block ncl nfl se name idx b.
Proof.
  intros H. unfold LastClsOut.init in H. run_inv H.
  injection H as Hl Hn. subst l n'. cbn [LastClsOut.func_list].
  unfold range in Hrun.
  apply (foldM_seq_inv
           (fun i (fl : list BottleneckBlock.t) (_ : nat) =>
              length fl = i
              /\ forall idx b, nth_error fl idx = Some b ->
                   head_block ncl nfl se name idx b)) in Hrun.
  - exact Hrun.
  - split; [reflexivity |]. intros [| p] b Hp; discriminate.
  - clear. intros i fl n fl' n' _ [Hlen Hall] H. run_inv H.
    injection H as -> ->. unfold add_sublayer.
    split; [rewrite length_app; cbn; lia |].
    intros idx b Hb. apply nth_error_snoc in Hb. destruct Hb as [Hb | [-> ->]].
    + apply Hall. exact Hb.
    + rewrite Hlen.
      apply getitem_ctor_inv in Hrun, Hrun0. cbn [fst snd] in Hrun, Hrun0.
      destruct Hrun as [Hin ->], Hrun0 as [Hnf ->].
      red. eauto 10.
Qed.

Section PureHead.
Context {Tensor : Type} {ops : Pure.Ops Tensor}.

Lemma BottleneckBlock_forward_value {py : Interpreter}
  (se : bool) (b : BottleneckBlock.t) (x : Tensor) :
  built_by_LastClsOut se b ->
  BottleneckBlock.forward b x = inr (bottleneck_block_value b x).
Proof.
  intros (nc & nf & name & k & k' & H). apply BottleneckBlock_init_inv in H.
  destruct H as (Hse & Hds & _ & _ & _ & (c & kc & Hc & _) & Hsel).
  rewrite BottleneckBlock_forward_pure.
  - unfold bottleneck_block_value. rewrite Hds, Hc. reflexivity.
  - rewrite Hds, Hc. discriminate.
  - rewrite Hse. destruct se; [| exact Hsel].
    destruct Hsel as (s & ? & ? & -> & _). discriminate.
Qed.

Lemma head_block_built {py : Interpreter}
  (ncl nfl : list Z) (se : bool) (name : string) (idx : nat)
  (b : BottleneckBlock.t) :
  head_block ncl nfl se name idx b -> built_by_LastClsOut se b.
Proof. intros (in_idx & nf_idx & k & k' & _ & _ & H). red. eauto 8. Qed.

Lemma LastClsOut_forward_value {py : Interpreter}
  (ncl nfl : list Z) (se : bool) (name : string)
  (fl : list BottleneckBlock.t) (x : list Tensor) (d : BottleneckBlock.t) :
  (forall idx b, nth_error fl idx = Some b -> head_block ncl nfl se name idx b) ->
  ((length x <= length fl)%nat ->
   LastClsOut.forward {| LastClsOut.func_list := fl |} x
   = inr (map (fun p => bottleneck_block_value (nth (fst p) fl d) (snd p))
            (enumerate x)))
  /\ ((length fl < length x)%nat ->
      LastClsOut.forward {| LastClsOut.func_list := fl |} x = inl IndexError).
Proof.
  intros Hall.
  assert (Hstep : forall i xi (outs : list Tensor), (i < length fl)%nat ->
            (func <- getitem fl i ;;
             out <- BottleneckBlock.forward func xi ;;
             ret (outs ++ [out]))
            = inr (outs ++ [bottleneck_block_value (nth i fl d) xi])).
  { intros i xi outs Hi.
    destruct (nth_error_lt_Some fl i Hi) as (b & Hb).
    rewrite (getitem_sum_Some _ _ _ Hb). cbn [bind Monad_either].
    rewrite (nth_error_nth _ _ _ Hb).
    rewrite (BottleneckBlock_forward_value se).
    - reflexivity.
    - eapply head_block_built. apply (Hall i b Hb). }
  unfold LastClsOut.forward, enumerate, range. cbn [LastClsOut.func_list].
  split; intros Hlen.
  - rewrite (foldM_enumerate_outs _ (fun i xi => bottleneck_block_value (nth i fl d) xi)).
    + reflexivity.
    + intros i xi outs Hi. cbn [Nat.add]. apply Hstep.
      apply nth_error_Some_lt in Hi. lia.
  - apply (foldM_enumerate_raise _ (fun i xi => bottleneck_block_value (nth i fl d) xi)
             IndexError x (length fl)).
    + exact Hlen.
    + intros i xi outs Hi _. cbn [Nat.add]. apply Hstep. exact Hi.
    + intros xi outs _. cbn [Nat.add].
      rewrite getitem_sum_None by (apply nth_error_None; lia). reflexivity.
Qed.

End PureHead.



(** ** How many branches a module and a stage return *)

Section PureStage.
Context {Tensor : Type} {ops : Pure.Ops Tensor}.

Lemma FuseLayers_forward_outputs (inc outc : list Z) (mso : bool) (name : string)
  (n : nat) (fl : FuseLayers.t) (n' : nat) (input : list Tensor) :
  runStateT (FuseLayers.init inc outc mso name) n = inr (fl, n') ->
  length input = length inc -> (mso = false -> inc <> []) ->
  exists outs,
    FuseLayers.forward fl input = inr outs
    /\ length outs = (if mso then length inc else 1%nat)
    /\ forall d, outs = map (fused_output fl input d) (range (FuseLayers._actual_ch fl)).
Proof.
  intros H Hlen Hne. apply FuseLayers_init_layout in H. cbv zeta in H.
  destruct H as (Hact & Hinc & HL & _).
  set (actual := if mso then length inc else 1%nat) in *.
  assert (HlenL : length (FuseLayers.residual_func_list fl)
                  = FuseLayout.base_offset (length inc) actual).
  { rewrite HL, assign_ids_length. apply layers_prefix_length. }
  assert (Hactual : (actual <= length inc)%nat).
  { unfold actual. destruct mso; [lia |].
    destruct inc; [now destruct (Hne eq_refl) | cbn; lia]. }
  destruct input as [| d0 input'] eqn:Einput.
  - assert (actual = 0%nat) by (cbn in Hlen; lia).
    exists []. unfold FuseLayers.forward. rewrite Hact. replace actual with 0%nat.
    repeat split.
  - rewrite <- Einput in *.
    destruct (FuseLayers_forward_pure fl input d0) as [_ Hfwd].
    { rewrite Hact. lia. }
    { rewrite Hinc. lia. }
    { rewrite Hinc, Hact, HlenL. lia. }
    eexists. split; [exact Hfwd |].
    split; [unfold range; now rewrite length_map, length_seq, Hact |].
    intros d.
    destruct (FuseLayers_forward_pure fl input d) as [_ Hfwd'].
    { rewrite Hact. lia. }
    { rewrite Hinc. lia. }
    { rewrite Hinc, Hact, HlenL. lia. }
    congruence.
Qed.

Lemma HighResolutionModule_forward_outputs {py : Interpreter}
  (nc nf : list Z) (se mso : bool)
  (name : string) (n : nat) (h : HighResolutionModule.t) (n' : nat)
  (x : list Tensor) :
  runStateT (HighResolutionModule.init nc nf se mso name) n = inr (h, n') ->
  length x = length nf -> (mso = false -> nf <> []) ->
  exists outs,
    HighResolutionModule.forward h x = inr outs
    /\ length outs = (if mso then length nf else 1%nat).
Proof.
  intros H Hx Hne. apply HighResolutionModule_init_inv in H.
  destruct H as (n1 & Hb & Hf).
  apply Branches_init_rows in Hb. destruct Hb as [Hlen Hrows].
  unfold HighResolutionModule.forward.
  destruct (HighResolutionModule.branches_func h) as [ll].
  cbn [Branches.basic_block_list] in *.
  rewrite (proj1 (Branches_forward_value 4 nc nf se name ll x Hrows)) by lia.
  cbn [bind Monad_either].
  destruct (FuseLayers_forward_outputs nf nf mso name n1 _ n'
              (map (fun p => branch_value (nth (fst p) ll []) (snd p)) (enumerate x)) Hf)
    as (outs & Hrun & Hout & _).
  { unfold enumerate, range.
    now rewrite length_map, length_combine, length_seq, Nat.min_id. }
  { exact Hne. }
  rewrite Hrun. exists outs. split; [reflexivity | exact Hout].
Qed.

Lemma Stage_forward_outputs {py : Interpreter} (nc : list Z) (nm : Z) (nf : list Z)
  (se mso : bool) (name : string) (n : nat) (st : Stage.t) (n' : nat)
  (x : list Tensor) :
  runStateT (Stage.init nc nm nf se mso name) n = inr (st, n') ->
  length x = length nf -> nf <> [] ->
  exists outs,
    Stage.forward st x = inr outs
    /\ length outs = (if (0 <? nm) && negb mso then 1%nat else length nf)
    /\ (nm <= 0 -> Stage.stage_func_list st = [] /\ outs = x).
Proof.
  intros H Hx Hne. apply Stage_init_inv in H.
  destruct H as (Hnm & Hlen & Hall).
  rewrite Stage_forward_sequential by congruence.
  set (l := Stage.stage_func_list st) in *.
  assert (Hloop : forall (k : nat) (pre suf : list HighResolutionModule.t)
                    (y : list Tensor),
             l = pre ++ suf -> length pre = k -> length y = length nf ->
             exists outs,
               foldM HighResolutionModule.forward suf y = inr outs
               /\ length outs
                  = (if match suf with [] => false | _ => true end && negb mso
                     then 1%nat else length nf)
               /\ (suf = [] -> outs = y)).
  { intros k pre suf. revert k pre.
    induction suf as [| h suf IH]; intros k pre y Hl Hk Hy.
    - exists y. cbn. auto.
    - assert (Hh : nth_error l k = Some h).
      { rewrite Hl, nth_error_app2, Hk, Nat.sub_diag by lia. reflexivity. }
      destruct (Hall k h Hh) as (k1 & k2 & Hinit).
      assert (Hlast : (Z.of_nat k =? nm - 1) = match suf with [] => true | _ => false end).
      { assert (Hll : length l = (k + S (length suf))%nat)
          by (rewrite Hl, length_app; cbn; lia).
        destruct suf; cbn [length] in Hll.
        - apply Z.eqb_eq. lia.
        - apply Z.eqb_neq. lia. }
      destruct (HighResolutionModule_forward_outputs _ _ _ _ _ _ _ _ y Hinit Hy)
        as (outs1 & Hrun1 & Hlen1).
      { intros _. exact Hne. }
      cbn [foldM]. rewrite Hrun1. cbn [bind Monad_either].
      rewrite Hlast in Hlen1.
      destruct suf as [| h' suf'].
      + exists outs1. cbn [foldM]. split; [reflexivity |].
        split; [| discriminate].
        cbn [andb negb] in *. destruct mso; exact Hlen1.
      + cbn [andb negb] in Hlen1.
        destruct (IH (S k) (pre ++ [h]) outs1) as (outs & Hrun & Hlen2 & _).
        * rewrite <- app_assoc. exact Hl.
        * rewrite length_app. cbn. lia.
        * exact Hlen1.
        * exists outs. split; [exact Hrun |]. split; [exact Hlen2 | discriminate]. }
  destruct (Hloop 0%nat [] l x eq_refl eq_refl Hx) as (outs & Hrun & Hlo & Hid).
  exists outs. split; [exact Hrun |].
  assert (Hl0 : match l with [] => false | _ => true end = (0 <? nm)).
  { destruct l; cbn [length] in Hlen.
    - symmetry. apply Z.ltb_ge. lia.
    - symmetry. apply Z.ltb_lt. lia. }
  rewrite Hl0 in Hlo. split; [exact Hlo |].
  intros Hz. assert (Hnil : l = []) by (destruct l; [reflexivity | cbn in Hlen; lia]).
  split; [exact Hnil | apply Hid; exact Hnil].
Qed.

End PureStage.

(** X7.  [Stage.forward], for a constructed stage and a list of as many
    tensors as the stage has branches ([len(num_filters)], at least one):
    every module returns as many tensors as it receives, except a last module
    built with [multi_scale_output=False], which returns one.  So the stage
    returns [len(num_filters)] tensors, or a single one when it has at least
    one module and was built with [multi_scale_output=False]; with
    [num_modules <= 0] it has no module and returns its input unchanged. *)
Theorem Stage_forward_branch_count {py : Interpreter} (nc : list Z) (nm : Z) (nf : list Z)
  (se mso : bool) (name : string) (n : nat) (st : Stage.t) (n' : nat) :
  runStateT (Stage.init nc nm nf se mso name) n = inr (st, n') ->
  forall (Tensor : Type) (ops : Pure.Ops Tensor) (x : list Tensor),
    length x = length nf -> nf <> [] ->
    exists outs,
      Stage.forward st x = inr outs
      /\ length outs = (if (0 <? nm) && negb mso then 1%nat else length nf)
      /\ (nm <= 0 -> Stage.stage_func_list st = [] /\ outs = x).
Proof.
  intros H Tensor ops x Hx Hne.
  exact (Stage_forward_outputs nc nm nf se mso name n st n' x H Hx Hne).
Qed.

Lemma Stage_forward_branch_count_witness :
  exists st n' outs,
    runStateT (Stage.init (py := python) [18; 36] 1 [18; 36] false true "st2") 0%nat = inr (st, n')
    /\ Stage.forward (P := Pure.paddle (ops := Graph.ops)) st
         [Graph.Input 0; Graph.Input 1] = inr outs
    /\ length outs = 2%nat.
Proof.
  destruct (runStateT (Stage.init (py := python) [18; 36] 1 [18; 36] false true "st2") 0%nat)
    as [e | [st n']] eqn:H.
  { vm_compute in H. discriminate H. }
  destruct (Stage_forward_branch_count (py := python) _ _ _ _ _ _ _ _ _ H Graph.t Graph.ops
              [Graph.Input 0; Graph.Input 1] eq_refl ltac:(discriminate))
    as (outs & Hrun & Hlen & _).
  exists st, n', outs. split; [reflexivity |]. split; [exact Hrun | exact Hlen].
Defined.

(** ** The transitions and the classification head of a network *)

Ltac width_cases H :=
  cbn [existsb] in H;
  repeat match type of H with
  | (?w =? ?k) || _ = true =>
      destruct (Z.eqb_spec w k) as [-> | _]; [clear H | cbn [orb] in H]
  end;
  [.. | discriminate H].

(** The part of [HRNet.__init__] after the stages. *)
Lemma HRNet_init_head_inv {py : Interpreter}
  (w : Z) (se : bool) (cd : Z) (n : nat) (net : HRNet.t)
  (n' : nat) :
  runStateT (HRNet.init w se cd) n = inr (net, n') ->
  exists k,
    HRNet.cls_head_conv_list net
    = FuseLayout.assign_ids k
        [FuseLayout.layer_at 128 256 3 2 (Some "relu"%string);
         FuseLayout.layer_at 256 512 3 2 (Some "relu"%string);
         FuseLayout.layer_at 512 1024 3 2 (Some "relu"%string)]
    /\ HRNet.conv_last net
       = FuseLayout.layer_at 1024 2048 1 1 (Some "relu"%string) (k + 6)%nat
    /\ HRNet.pool2d_avg net = {| nn.output_size := 1 |}
    /\ HRNet.out net
       = {| nn.fc_id := (k + 8)%nat; nn.in_features := 2048; nn.out_features := cd;
            nn.weight_attr := "fc_weights"; nn.bias_attr_name := "fc_offset" |}.
Proof.
  intros H. unfold HRNet.init in H.
  apply run_bind_inv in H. destruct H as (chs & n0 & Hch & H).
  rewrite channels_lookup in Hch.
  destruct (existsb (Z.eqb w) [18; 30; 32; 40; 44; 48; 60; 64]); [| discriminate].
  injection Hch as Hchs Hn0. subst chs n0.
  cbn [HRNet.unpack3] in H. run_inv H.
  injection Hrun as Ha Hn. subst a n0.
  run_inv H. injection H as Hnet Hn. subst net n'.
  cbn [HRNet.cls_head_conv_list HRNet.conv_last HRNet.pool2d_avg HRNet.out].
  match goal with
  | Hl : runStateT (foldM _ (range 3) []) ?k = inr (?l, _),
    Hc : runStateT (ConvBNLayer.init 1024 2048 1 1 1 _) _ = inr (?c, _),
    Hs : runStateT (inv_sqrt 2048) _ = _,
    Ho : runStateT (nn.Linear_new 2048 cd _ _) _ = inr (?o, _) |- _ =>
      exists k; cbn in Hl; injection Hl as Hl Hk; subst;
      rewrite ConvBNLayer_init_run in Hc; injection Hc as Hc Hk; subst;
      cbn in Hs; injection Hs as Hs Hk; subst;
      rewrite Linear_new_run in Ho;
      destruct (__debug__ && negb ((0 <? 2048) && (0 <? cd))); [discriminate Ho |];
      injection Ho as Ho Hk; subst
  end.
  unfold add_sublayer, FuseLayout.layer_at. cbn.
  rewrite !Nat.add_succ_r, Nat.add_0_r. repeat split.
Qed.

(** X8.  The transition layers of a network of width [w]: [tr1] turns the
    256-channel output of the first layer into two branches, a stride-1 3x3
    layer to [w] channels and a stride-2 3x3 layer to [2w] channels; [tr2] and
    [tr3] pass the existing branches through unchanged ([None] entries) and
    add one branch, a stride-2 3x3 layer from the last branch ([2w] to [4w],
    then [4w] to [8w] channels). *)
Theorem HRNet_transitions {py : Interpreter}
  (w : Z) (se : bool) (cd : Z) (n : nat) (net : HRNet.t)
  (n' : nat) :
  runStateT (HRNet.init w se cd) n = inr (net, n') ->
  (exists k,
     TransitionLayer.conv_bn_func_list (HRNet.tr1 net)
     = [Some (FuseLayout.layer_at 256 w 3 1 (Some "relu"%string) k);
        Some (FuseLayout.layer_at 256 (2 * w) 3 2 (Some "relu"%string) (S (S k)))])
  /\ (exists k,
        TransitionLayer.conv_bn_func_list (HRNet.tr2 net)
        = [None; None;
           Some (FuseLayout.layer_at (2 * w) (4 * w) 3 2 (Some "relu"%string) k)])
  /\ (exists k,
        TransitionLayer.conv_bn_func_list (HRNet.tr3 net)
        = [None; None; None;
           Some (FuseLayout.layer_at (4 * w) (8 * w) 3 2 (Some "relu"%string) k)]).
Proof.
  intros H. apply HRNet_init_inv in H. cbv zeta in H.
  destruct H as (Hw & _ & _ & _ & (k1 & k1' & H1) & _ & (k2 & k2' & H2) & _
                 & (k3 & k3' & H3) & _).
  destruct (HRNet.tr1 net) as [l1], (HRNet.tr2 net) as [l2], (HRNet.tr3 net) as [l3].
  cbn [TransitionLayer.conv_bn_func_list].
  width_cases Hw;
    vm_compute in H1; vm_compute in H2; vm_compute in H3;
    injection H1 as <- _; injection H2 as <- _; injection H3 as <- _;
    (split; [exists k1; reflexivity |]);
    (split; [exists k2; reflexivity | exists k3; reflexivity]).
Qed.

Lemma HRNet_transitions_witness :
  exists net n' c,
    runStateT (HRNet.init (py := python_O) 18 false 1000) 0%nat = inr (net, n')
    /\ TransitionLayer.conv_bn_func_list (HRNet.tr2 net) = [None; None; Some c]
    /\ nn.in_channels (ConvBNLayer._conv c) = 36
    /\ nn.out_channels (ConvBNLayer._conv c) = 72
    /\ nn.stride (ConvBNLayer._conv c) = 2.
Proof.
  destruct (runStateT (HRNet.init (py := python_O) 18 false 1000) 0%nat) as [e | [net n']] eqn:H.
  { vm_compute in H. discriminate H. }
  destruct (HRNet_transitions (py := python_O) 18 false 1000 0 net n' H) as (_ & (k & H2) & _).
  exists net, n'. eexists. split; [reflexivity |]. split; [exact H2 |].
  repeat split.
Defined.

(** X9.  The classification head of a network, whatever its width: the four
    blocks of [last_cls] produce 128, 256, 512 and 1024 channels (their third
    convolution and their shortcut projection both do, from [w], [2w], [4w]
    and [8w] input channels); [cls_head_conv_list[idx]] is a stride-2 3x3
    layer from the width of block [idx] to the width of block [idx + 1], so
    that the two operands of each addition of the head have the same channel
    count; [conv_last] is a 1x1 layer from 1024 to 2048 channels, the pooling
    has output size 1, and [out] is a [Linear] from 2048 to [class_dim]
    features. *)
Theorem HRNet_head_channels {py : Interpreter}
  (w : Z) (se : bool) (cd : Z) (n : nat) (net : HRNet.t)
  (n' : nat) :
  runStateT (HRNet.init w se cd) n = inr (net, n') ->
  let widths (b : BottleneckBlock.t) :=
    (option_map (fun c => (nn.in_channels (ConvBNLayer._conv c),
                           nn.out_channels (ConvBNLayer._conv c)))
       (BottleneckBlock.conv_down b),
     nn.out_channels (ConvBNLayer._conv (BottleneckBlock.conv3 b))) in
  let conv (c : ConvBNLayer.t) :=
    (nn.in_channels (ConvBNLayer._conv c), nn.out_channels (ConvBNLayer._conv c),
     nn.kernel_size (ConvBNLayer._conv c), nn.stride (ConvBNLayer._conv c)) in
  map widths (LastClsOut.func_list (HRNet.last_cls net))
  = [(Some (w, 128), 128); (Some (2 * w, 256), 256);
     (Some (4 * w, 512), 512); (Some (8 * w, 1024), 1024)]
  /\ map conv (HRNet.cls_head_conv_list net)
     = [(128, 256, 3, 2); (256, 512, 3, 2); (512, 1024, 3, 2)]
  /\ conv (HRNet.conv_last net) = (1024, 2048, 1, 1)
  /\ nn.output_size (HRNet.pool2d_avg net) = 1
  /\ nn.in_features (HRNet.out net) = 2048
  /\ nn.out_features (HRNet.out net) = cd.
Proof.
  intros H widths conv.
  destruct (HRNet_init_head_inv _ _ _ _ _ _ H) as (k & -> & -> & -> & ->).
  split; [| cbn; repeat split].
  apply HRNet_init_inv in H. cbv zeta in H.
  destruct H as (_ & _ & _ & _ & _ & _ & _ & _ & _ & _ & (k1 & k1' & H)).
  apply LastClsOut_init_blocks_at in H. destruct H as [Hlen Hall].
  destruct (LastClsOut.func_list (HRNet.last_cls net))
    as [| b0 [| b1 [| b2 [| b3 [| b4 l]]]]]; try discriminate Hlen.
  assert (Hb : forall idx b in_idx nf,
             nth_error [b0; b1; b2; b3] idx = Some b ->
             nth_error [w; 2 * w; 4 * w; 8 * w] idx = Some in_idx ->
             nth_error [32; 64; 128; 256] idx = Some nf ->
             widths b = (Some (in_idx, nf * 4), nf * 4)).
  { intros idx b in_idx nf Hb Hin Hnf.
    destruct (Hall idx b Hb) as (in' & nf' & q & q' & Hin' & Hnf' & Hinit).
    rewrite Hin in Hin'. rewrite Hnf in Hnf'.
    injection Hin' as <-. injection Hnf' as <-.
    apply BottleneckBlock_init_inv in Hinit.
    destruct Hinit as (_ & _ & _ & _ & (k3 & H3) & (c & kc & Hc & Hcinit) & _).
    rewrite ConvBNLayer_init_run in H3, Hcinit.
    injection H3 as H3. injection Hcinit as Hcinit.
    unfold widths. rewrite Hc, <- H3, <- Hcinit. reflexivity. }
  cbn [map].
  rewrite (Hb 0%nat b0 w 32 eq_refl eq_refl eq_refl).
  rewrite (Hb 1%nat b1 (2 * w) 64 eq_refl eq_refl eq_refl).
  rewrite (Hb 2%nat b2 (4 * w) 128 eq_refl eq_refl eq_refl).
  rewrite (Hb 3%nat b3 (8 * w) 256 eq_refl eq_refl eq_refl).
  reflexivity.
Qed.

Lemma HRNet_head_channels_witness :
  exists net n',
    runStateT (HRNet.init (py := python_O) 18 false 1000) 0%nat = inr (net, n')
    /\ nn.in_features (HRNet.out net) = 2048
    /\ nn.out_features (HRNet.out net) = 1000
    /\ map (fun c => nn.out_channels (ConvBNLayer._conv c)) (HRNet.cls_head_conv_list net)
       = [256; 512; 1024].
Proof.
  destruct (runStateT (HRNet.init (py := python_O) 18 false 1000) 0%nat) as [e | [net n']] eqn:H.
  { vm_compute in H. discriminate H. }
  destruct (HRNet_head_channels (py := python_O) 18 false 1000 0 net n' H)
    as (_ & Hconv & _ & _ & Hin & Hout).
  exists net, n'. split; [reflexivity |]. split; [exact Hin |]. split; [exact Hout |].
  destruct (HRNet.cls_head_conv_list net) as [| c0 [| c1 [| c2 [| c3 l]]]];
    try discriminate Hconv.
  cbn [map] in *. congruence.
Defined.

(** ** What [Layer1] gives to its container *)

(** Once its four blocks are built, [Layer1.__init__] fails the assertion of
    [add_sublayer], unless assertions are disabled. *)
Lemma Layer1_init_outcome {py : Interpreter} (nc : Z) (se : bool) (name : string)
  (n : nat) :
  exists n',
    runStateT (Layer1.init nc se name) n
    = if __debug__ then inl AssertionError
      else inr ({| Layer1.bottleneck_block_list :=
                     {| nn._sub_layers :=
                          [("0", nn.PyStr ("bb_" ++ name ++ "_1"));
                           ("1", nn.PyStr ("bb_" ++ name ++ "_2"));
                           ("2", nn.PyStr ("bb_" ++ name ++ "_3"));
                           ("3", nn.PyStr ("bb_" ++ name ++ "_4"))]%string |} |}, n').
Proof.
  unfold Layer1.init, range. cbn [seq foldM Nat.eqb].
  change (str (0 + 1)) with "1"%string. change (str (1 + 1)) with "2"%string.
  change (str (2 + 1)) with "3"%string. change (str (3 + 1)) with "4"%string.
  assert (Hok : forall c ds nm k,
            exists b k', runStateT (BottleneckBlock.init c 64 se 1 ds nm) k = inr (b, k')).
  { intros c ds nm k. apply BottleneckBlock_init_returns. intros _. lia. }
  destruct (Hok nc true (name ++ "_" ++ "1")%string n) as (b1 & k1 & H1).
  destruct (Hok 256 false (name ++ "_" ++ "2")%string k1) as (b2 & k2 & H2).
  destruct (Hok 256 false (name ++ "_" ++ "3")%string k2) as (b3 & k3 & H3).
  destruct (Hok 256 false (name ++ "_" ++ "4")%string k3) as (b4 & k4 & H4).
  exists k4.
  rewrite !ctor_bind, H1, ctor_ret, !ctor_bind, H2, ctor_ret, !ctor_bind, H3, ctor_ret,
    !ctor_bind, H4, !ctor_ret.
  rewrite Layer1_dict_keys, ctor_bind, Sequential_new_strings.
  destruct __debug__; reflexivity.
Qed.

(** X10.  [Layer1.__init__] builds four [BottleneckBlock]s as the values of a
    dict with the keys [bb_<name>_1] to [bb_<name>_4], and unpacks that dict
    with a star into the arguments of [nn.Sequential]: the container is given
    the four keys, which are strings, and none of the blocks.  Under the
    default interpreter the constructor therefore raises the
    [AssertionError] of [add_sublayer], with or without
    squeeze-and-excitation.  With assertions disabled it returns; and
    whenever it returns, the sub-layers of the container are the four key
    strings, under the names [0] to [3], and no block is among them. *)
Theorem Layer1_sequential_receives_keys {py : Interpreter} (nc : Z) (se : bool)
  (name : string) (n : nat) :
  0 < nc ->
  (__debug__ = true -> runStateT (Layer1.init nc se name) n = inl AssertionError)
  /\ (__debug__ = false ->
      exists l n', runStateT (Layer1.init nc se name) n = inr (l, n'))
  /\ (forall l n',
        runStateT (Layer1.init nc se name) n = inr (l, n') ->
        __debug__ = false
        /\ nn._sub_layers (Layer1.bottleneck_block_list l)
           = [("0", nn.PyStr ("bb_" ++ name ++ "_1"));
              ("1", nn.PyStr ("bb_" ++ name ++ "_2"));
              ("2", nn.PyStr ("bb_" ++ name ++ "_3"));
              ("3", nn.PyStr ("bb_" ++ name ++ "_4"))]%string
        /\ forall b,
             ~ In (nn.PyLayer b)
                 (nn.Sequential_values (Layer1.bottleneck_block_list l))).
Proof.
  intros _. destruct (Layer1_init_outcome nc se name n) as (k & Hrun).
  split; [| split].
  - intros Hd. rewrite Hrun, Hd. reflexivity.
  - intros Hd. rewrite Hrun, Hd. eauto.
  - intros l n' H. destruct (Layer1_init_inv _ _ _ _ _ _ H) as [Hd Hsub].
    split; [exact Hd |]. split; [exact Hsub |].
    intros b. unfold nn.Sequential_values. rewrite Hsub. cbn [map snd In].
    intros Hin.
    repeat (destruct Hin as [Hin | Hin]; [discriminate Hin |]). exact Hin.
Qed.

Lemma Layer1_sequential_receives_keys_witness :
  runStateT (Layer1.init (py := python) 64 false "layer2") 0%nat = inl AssertionError
  /\ runStateT (Layer1.init (py := python) 64 true "layer2") 0%nat = inl AssertionError
  /\ exists l n',
       runStateT (Layer1.init (py := python_O) 64 false "layer2") 0%nat = inr (l, n')
       /\ nn.Sequential_values (Layer1.bottleneck_block_list l)
          = [nn.PyStr "bb_layer2_1"; nn.PyStr "bb_layer2_2";
             nn.PyStr "bb_layer2_3"; nn.PyStr "bb_layer2_4"]%string.
Proof.
  split; [| split].
  - destruct (Layer1_sequential_receives_keys (py := python) 64 false "layer2" 0
                ltac:(lia)) as (H & _).
    exact (H eq_refl).
  - destruct (Layer1_sequential_receives_keys (py := python) 64 true "layer2" 0
                ltac:(lia)) as (H & _).
    exact (H eq_refl).
  - destruct (Layer1_sequential_receives_keys (py := python_O) 64 false "layer2" 0
                ltac:(lia)) as (_ & Hret & Hinv).
    destruct (Hret eq_refl) as (l & n' & H).
    exists l, n'. split; [exact H |].
    destruct (Hinv l n' H) as (_ & Hsub & _).
    unfold nn.Sequential_values. rewrite Hsub. reflexivity.
Defined.

(** ** [Layer1.forward] calls a string *)

Section PureNet.
Context {Tensor : Type} {ops : Pure.Ops Tensor}.

Lemma Layer1_forward_pure {py : Interpreter} (nc : Z) (se : bool) (name : string)
  (n : nat) (l : Layer1.t) (n' : nat) (x : Tensor) :
  runStateT (Layer1.init nc se name) n = inr (l, n') ->
  Layer1.forward l x = inl TypeError.
Proof.
  intros H. destruct (Layer1_init_inv _ _ _ _ _ _ H) as [_ Hsub].
  unfold Layer1.forward, nn.Sequential_values. rewrite Hsub. reflexivity.
Qed.

End PureNet.

(** X11.  Over total framework operations, [Layer1.forward] of a constructed
    [Layer1] raises [TypeError] on every input, before it calls any framework
    operation: the first sub-layer its loop takes from the container is a
    string, and a string is not callable.  Consequently [HRNet.forward] of a
    constructed network raises [TypeError] on every input, after the two
    layers of the stem and before the first transition. *)
Theorem HRNet_forward_raises {py : Interpreter} (Tensor : Type) (ops : Pure.Ops Tensor) :
  (forall nc se name n l n' (x : Tensor),
     runStateT (Layer1.init nc se name) n = inr (l, n') ->
     Layer1.forward l x = inl TypeError)
  /\ (forall w se cd n net n' (input : Tensor),
        runStateT (HRNet.init w se cd) n = inr (net, n') ->
        Layer1.forward (HRNet.la1 net)
          (Pure.conv_bn (HRNet.conv_layer1_2 net)
             (Pure.conv_bn (HRNet.conv_layer1_1 net) input)) = inl TypeError
        /\ HRNet.forward net input = inl TypeError).
Proof.
  split.
  - intros nc se name n l n' x H. exact (Layer1_forward_pure _ _ _ _ _ _ x H).
  - intros w se cd n net n' input H.
    destruct (HRNet_init_la1 _ _ _ _ _ _ H) as (k & k' & Hl).
    assert (Hla1 := Layer1_forward_pure _ _ _ _ _ _
                      (Pure.conv_bn (HRNet.conv_layer1_2 net)
                         (Pure.conv_bn (HRNet.conv_layer1_1 net) input)) Hl).
    split; [exact Hla1 |].
    unfold HRNet.forward.
    repeat (rewrite ConvBNLayer_forward_pure; cbn [bind Monad_either]).
    rewrite Hla1. reflexivity.
Qed.

Lemma HRNet_forward_raises_witness :
  (exists l n',
     runStateT (Layer1.init (py := python_O) 64 false "layer2") 0%nat = inr (l, n')
     /\ Layer1.forward (P := Pure.paddle (ops := Shapes.ops)) l
          {| Shapes.dims := [1; 64; 56; 56] |} = inl TypeError)
  /\ (exists net n',
        runStateT (HRNet.init (py := python_O) 18 false 1000) 0%nat = inr (net, n')
        /\ HRNet.forward (P := Pure.paddle (ops := Shapes.ops)) net
             {| Shapes.dims := [1; 3; 224; 224] |} = inl TypeError).
Proof.
  destruct (HRNet_forward_raises (py := python_O) Shapes.t Shapes.ops) as [T1 T2].
  split.
  - destruct (runStateT (Layer1.init (py := python_O) 64 false "layer2") 0%nat)
      as [e | [l n']] eqn:H.
    { vm_compute in H. discriminate H. }
    exists l, n'. split; [reflexivity |]. exact (T1 _ _ _ _ _ _ _ H).
  - destruct (runStateT (HRNet.init (py := python_O) 18 false 1000) 0%nat)
      as [e | [net n']] eqn:H.
    { vm_compute in H. discriminate H. }
    exists net, n'. split; [reflexivity |]. exact (proj2 (T2 _ _ _ _ _ _ _ H)).
Defined.

(** ** Shapes through the residual blocks *)

Lemma conv_out_size_1 (s : Z) : conv_out_size s 1 1 ((1 - 1) / 2) = s.
Proof. unfold conv_out_size. change ((1 - 1) / 2) with 0. rewrite Z.div_1_r. lia. Qed.

Lemma conv_out_size_3 (s : Z) : conv_out_size s 3 1 ((3 - 1) / 2) = s.
Proof. unfold conv_out_size. change ((3 - 1) / 2) with 1. rewrite Z.div_1_r. lia. Qed.

Lemma conv_out_size_half (a : Z) : conv_out_size (2 * a) 3 2 ((3 - 1) / 2) = a.
Proof.
  unfold conv_out_size. change ((3 - 1) / 2) with 1.
  replace (2 * a + 2 * 1 - 3) with (1 + (a - 1) * 2) by lia.
  rewrite Z.div_add by lia. change (1 / 2) with 0. lia.
Qed.

Section BlockShapes.
Context {Tensor : Type} {ops : Pure.Ops Tensor}.
Hypothesis HS : Shape_contract.

(** A layer with kernel 1 or 3 and stride 1 keeps the spatial sizes. *)
Lemma layer_at_shape_same (nc nf fs : Z) (act : option string) (id : nat)
  (x : Tensor) (N H W : Z) :
  fs = 1 \/ fs = 3 -> 1 <= H -> 1 <= W ->
  Pure.shape x = [N; nc; H; W] ->
  Pure.shape (Pure.conv_bn (FuseLayout.layer_at nc nf fs 1 act id) x) = [N; nf; H; W].
Proof.
  intros Hfs HH HW Hx. unfold Pure.conv_bn, FuseLayout.layer_at.
  cbn [ConvBNLayer._conv ConvBNLayer._batch_norm].
  apply (sc_batch_norm HS); [| reflexivity].
  rewrite (sc_conv2d HS _ _ N nc H W Hx); cbn [nn.in_channels nn.groups nn.stride
    nn.kernel_size nn.padding nn.out_channels]; try reflexivity; try lia.
  - destruct Hfs as [-> | ->];
      [rewrite !conv_out_size_1 | rewrite !conv_out_size_3]; reflexivity.
  - destruct Hfs as [-> | ->]; [change ((1 - 1) / 2) with 0
                               | change ((3 - 1) / 2) with 1]; lia.
  - destruct Hfs as [-> | ->]; [change ((1 - 1) / 2) with 0
                               | change ((3 - 1) / 2) with 1]; lia.
Qed.

(** A 3x3 layer with stride 2 halves even spatial sizes. *)
Lemma layer_at_shape_half (nc nf : Z) (act : option string) (id : nat)
  (x : Tensor) (N a b : Z) :
  1 <= a -> 1 <= b ->
  Pure.shape x = [N; nc; 2 * a; 2 * b] ->
  Pure.shape (Pure.conv_bn (FuseLayout.layer_at nc nf 3 2 act id) x) = [N; nf; a; b].
Proof.
  intros Ha Hb Hx. unfold Pure.conv_bn, FuseLayout.layer_at.
  cbn [ConvBNLayer._conv ConvBNLayer._batch_norm].
  apply (sc_batch_norm HS); [| reflexivity].
  rewrite (sc_conv2d HS _ _ N nc (2 * a) (2 * b) Hx); cbn [nn.in_channels nn.groups
    nn.stride nn.kernel_size nn.padding nn.out_channels]; try reflexivity; try lia.
  - rewrite !conv_out_size_half. reflexivity.
  - change ((3 - 1) / 2) with 1. lia.
  - change ((3 - 1) / 2) with 1. lia.
Qed.

(** A squeeze-and-excitation layer keeps the shape of its input. *)
Lemma se_opt_shape {py : Interpreter}
  (C r : Z) (name : string) (k : nat) (s : SELayer.t) (k' : nat)
  (x : Tensor) (N H W : Z) :
  runStateT (SELayer.init C C r name) k = inr (s, k') ->
  Pure.shape x = [N; C; H; W] ->
  Pure.shape (Pure.se_opt (Some s) x) = [N; C; H; W].
Proof.
  intros Hinit Hx.
  destruct (SELayer_init_inv _ _ _ _ _ _ _ Hinit) as (Hr & HC & Hq & Hd).
  rewrite (SELayer_init_run _ _ _ _ _ Hr HC Hq Hd) in Hinit. injection Hinit as Hs _.
  assert (Hpool : nn.output_size (SELayer.pool2d_gap s) = 1) by now subst s.
  assert (Hsq_in : nn.in_features (SELayer.squeeze s) = C) by now subst s.
  assert (Hmed : nn.in_features (SELayer.excitation s)
                 = nn.out_features (SELayer.squeeze s)) by now subst s.
  assert (Hex_out : nn.out_features (SELayer.excitation s) = C) by now subst s.
  clear Hs. unfold Pure.se_opt, Pure.se_gate.
  assert (H1 := sc_adaptive_avg_pool2d HS _ _ N C H W Hpool Hx).
  assert (H2 := sc_squeeze HS _ N C H1).
  rewrite <- Hsq_in in H2.
  assert (H3 := sc_linear HS _ _ N H2).
  rewrite <- (sc_relu HS), <- Hmed in H3.
  assert (H4 := sc_linear HS _ _ N H3).
  rewrite Hex_out, <- (sc_sigmoid HS) in H4.
  apply (sc_mul HS); [exact Hx |].
  apply (sc_unsqueeze HS). exact H4.
Qed.

Lemma basic_block_shape {py : Interpreter} (C : Z) (se : bool) (name : string) (k : nat)
  (b : BasicBlock.t) (k' : nat) (x : Tensor) (N H W : Z) :
  runStateT (BasicBlock.init C C 1 se false name) k = inr (b, k') ->
  1 <= H -> 1 <= W ->
  Pure.shape x = [N; C; H; W] ->
  Pure.shape (basic_block_value b x) = [N; C; H; W].
Proof.
  intros Hinit HH HW Hx. apply BasicBlock_init_inv in Hinit.
  destruct Hinit as (_ & _ & (k1 & H1) & (k2 & H2) & _ & Hse).
  rewrite ConvBNLayer_init_run in H1, H2. injection H1 as H1. injection H2 as H2.
  unfold basic_block_value. rewrite <- H1, <- H2.
  assert (Hc : Pure.shape
                 (Pure.conv_bn (FuseLayout.layer_at C C 3 1 None k2)
                    (Pure.conv_bn (FuseLayout.layer_at C C 3 1 (Some "relu"%string) k1) x))
               = [N; C; H; W]).
  { apply layer_at_shape_same; [now right | assumption | assumption |].
    apply layer_at_shape_same; [now right | assumption | assumption | exact Hx]. }
  rewrite (sc_relu HS), (sc_add HS); [exact Hx |].
  rewrite Hx. symmetry.
  destruct se.
  - destruct Hse as (s & ks & ks' & -> & Hs). eapply se_opt_shape; eassumption.
  - rewrite Hse. exact Hc.
Qed.

Lemma bottleneck_block_shape {py : Interpreter}
  (nc nf : Z) (se ds : bool) (name : string) (k : nat)
  (b : BottleneckBlock.t) (k' : nat) (x : Tensor) (N H W : Z) :
  runStateT (BottleneckBlock.init nc nf se 1 ds name) k = inr (b, k') ->
  (ds = false -> nc = nf * 4) ->
  1 <= H -> 1 <= W ->
  Pure.shape x = [N; nc; H; W] ->
  Pure.shape (bottleneck_block_value b x) = [N; nf * 4; H; W].
Proof.
  intros Hinit Hds HH HW Hx. apply BottleneckBlock_init_inv in Hinit.
  destruct Hinit as (_ & _ & (k1 & H1) & (k2 & H2) & (k3 & H3) & Hdown & Hse).
  rewrite ConvBNLayer_init_run in H1, H2, H3.
  injection H1 as H1. injection H2 as H2. injection H3 as H3.
  unfold bottleneck_block_value. rewrite <- H1, <- H2, <- H3.
  assert (Hc : Pure.shape
                 (Pure.conv_bn (FuseLayout.layer_at nf (nf * 4) 1 1 None k3)
                    (Pure.conv_bn (FuseLayout.layer_at nf nf 3 1 (Some "relu"%string) k2)
                       (Pure.conv_bn
                          (FuseLayout.layer_at nc nf 1 1 (Some "relu"%string) k1) x)))
               = [N; nf * 4; H; W]).
  { apply layer_at_shape_same; [now left | assumption | assumption |].
    apply layer_at_shape_same; [now right | assumption | assumption |].
    apply layer_at_shape_same; [now left | assumption | assumption | exact Hx]. }
  assert (Hres : Pure.shape
                   (match BottleneckBlock.conv_down b with
                    | Some c => Pure.conv_bn c x
                    | None => x
                    end) = [N; nf * 4; H; W]).
  { destruct ds.
    - destruct Hdown as (c & kc & -> & Hcinit).
      rewrite ConvBNLayer_init_run in Hcinit. injection Hcinit as <-.
      apply (layer_at_shape_same nc (nf * 4) 1 None kc);
        [now left | assumption | assumption | exact Hx].
    - rewrite Hdown, Hx, (Hds eq_refl). reflexivity. }
  rewrite (sc_relu HS), (sc_add HS); [exact Hres |].
  rewrite Hres. symmetry.
  destruct se.
  - destruct Hse as (s & ks & ks' & -> & Hs). eapply se_opt_shape; eassumption.
  - rewrite Hse. exact Hc.
Qed.

Lemma BottleneckBlock_forward_value_init {py : Interpreter}
  (nc nf : Z) (se : bool) (st : Z) (ds : bool)
  (name : string) (k : nat) (b : BottleneckBlock.t) (k' : nat) (x : Tensor) :
  runStateT (BottleneckBlock.init nc nf se st ds name) k = inr (b, k') ->
  BottleneckBlock.forward b x = inr (bottleneck_block_value b x).
Proof.
  intros H. apply BottleneckBlock_init_inv in H.
  destruct H as (Hse & Hds & _ & _ & _ & Hdown & Hsel).
  rewrite BottleneckBlock_forward_pure.
  - unfold bottleneck_block_value. rewrite Hds. destruct ds.
    + destruct Hdown as (c & kc & -> & _). reflexivity.
    + rewrite Hdown. reflexivity.
  - rewrite Hds. destruct ds; [| exact I].
    destruct Hdown as (c & kc & -> & _). discriminate.
  - rewrite Hse. destruct se; [| exact Hsel].
    destruct Hsel as (s & ? & ? & -> & _). discriminate.
Qed.

End BlockShapes.

Lemma same_dims_refl (a : list Z) : Shapes.same_dims a a = true.
Proof.
  induction a as [| x a IH]; [reflexivity |].
  cbn [Shapes.same_dims]. rewrite Z.eqb_refl. exact IH.
Qed.

Lemma Shapes_contract : Shape_contract (ops := Shapes.ops).
Proof.
  constructor.
  { intros c x N C H W Hx HC _ Hs HH HW.
    cbn [Pure.shape Pure.conv2d Shapes.ops Shapes.dims] in *. rewrite Hx.
    rewrite (proj2 (Z.eqb_eq _ _) HC), (proj2 (Z.ltb_lt _ _) Hs),
      (proj2 (Z.leb_le _ _) HH), (proj2 (Z.leb_le _ _) HW).
    reflexivity. }
  { intros b x N C H W Hx HC.
    cbn [Pure.shape Pure.batch_norm Shapes.ops Shapes.dims] in *. rewrite Hx.
    rewrite (proj2 (Z.eqb_eq _ _) HC). reflexivity. }
  2-8: cbn; intros;
    repeat match goal with
    | H : Shapes.dims _ = _ |- _ => rewrite H; clear H
    | H : nn.output_size _ = _ |- _ => rewrite H; clear H
    end;
    first [reflexivity | rewrite Z.eqb_refl; reflexivity].
  { intros x y Hxy. cbn [Pure.shape Pure.add Shapes.ops] in *.
    rewrite <- Hxy, same_dims_refl. reflexivity. }
  { intros x g N C H W Hx Hg. cbn [Pure.shape Pure.mul Shapes.ops] in *.
    rewrite Hx, Hg, !Z.eqb_refl. exact Hx. }
  intros x N C Hx HC. cbn [Pure.shape Pure.reshape Shapes.ops Shapes.dims] in *.
  rewrite Hx. cbn [map]. change (-1 =? -1) with true. cbv iota.
  destruct (Z.eqb_spec C (-1)) as [? | _]; [lia |].
  f_equal. unfold Shapes.product. cbn [fold_right].
  replace (N * (C * (1 * (1 * 1)))) with (N * C) by lia.
  replace (- (-1 * (C * 1))) with C by lia.
  apply Z.div_mul. lia.
Qed.

(** X12.  Shapes through the residual blocks, under the shape rules of the
    framework operations, for an input of shape [N, C, H, W] with positive
    spatial sizes.  A [BasicBlock] built with as many filters as channels,
    stride 1 and no shortcut projection (what [Branches] builds inside a
    stage) returns a tensor of the shape of its input.  A stride-1
    [BottleneckBlock] returns [N, 4 * num_filters, H, W], either with the
    shortcut projection or, without it, when the input already has
    [4 * num_filters] channels.  With or without squeeze-and-excitation. *)
Theorem Residual_block_shapes {py : Interpreter} (Tensor : Type) (ops : Pure.Ops Tensor)
  (x : Tensor) (N H W : Z) :
  Shape_contract -> 1 <= H -> 1 <= W ->
  (forall C se name k b k',
     runStateT (BasicBlock.init C C 1 se false name) k = inr (b, k') ->
     Pure.shape x = [N; C; H; W] ->
     exists y, BasicBlock.forward b x = inr y /\ Pure.shape y = [N; C; H; W])
  /\ (forall nc nf se ds name k b k',
        runStateT (BottleneckBlock.init nc nf se 1 ds name) k = inr (b, k') ->
        (ds = false -> nc = nf * 4) ->
        Pure.shape x = [N; nc; H; W] ->
        exists y, BottleneckBlock.forward b x = inr y
                  /\ Pure.shape y = [N; nf * 4; H; W]).
Proof.
  intros HS HH HW. split.
  - intros C se name k b k' Hinit Hx. exists (basic_block_value b x). split.
    + apply (BasicBlock_forward_value se). red. eauto 8.
    + exact (basic_block_shape HS C se name k b k' x N H W Hinit HH HW Hx).
  - intros nc nf se ds name k b k' Hinit Hds Hx.
    exists (bottleneck_block_value b x). split.
    + exact (BottleneckBlock_forward_value_init _ _ _ _ _ _ _ _ _ x Hinit).
    + exact (bottleneck_block_shape HS nc nf se ds name k b k' x N H W Hinit Hds HH HW Hx).
Qed.

Lemma Residual_block_shapes_witness :
  (exists b k' y,
     runStateT (BasicBlock.init (py := python) 18 18 1 true false "st2_1_branch_layer_1_1") 0%nat
     = inr (b, k')
     /\ BasicBlock.forward (P := Pure.paddle (ops := Shapes.ops)) b
          {| Shapes.dims := [1; 18; 56; 56] |} = inr y
     /\ Shapes.dims y = [1; 18; 56; 56])
  /\ (exists b k' y,
        runStateT (BottleneckBlock.init (py := python) 64 64 false 1 true "layer2_1") 0%nat
        = inr (b, k')
        /\ BottleneckBlock.forward (P := Pure.paddle (ops := Shapes.ops)) b
             {| Shapes.dims := [1; 64; 56; 56] |} = inr y
        /\ Shapes.dims y = [1; 256; 56; 56]).
Proof.
  split.
  - destruct (runStateT (BasicBlock.init (py := python) 18 18 1 true false "st2_1_branch_layer_1_1")
                0%nat) as [e | [b k']] eqn:H.
    { vm_compute in H. discriminate H. }
    destruct (proj1 (Residual_block_shapes (py := python) Shapes.t Shapes.ops
                       {| Shapes.dims := [1; 18; 56; 56] |} 1 56 56 Shapes_contract
                       ltac:(lia) ltac:(lia)) 18 true _ 0%nat b k' H eq_refl)
      as (y & Hy & Hs).
    exists b, k', y. split; [reflexivity |]. split; [exact Hy | exact Hs].
  - destruct (runStateT (BottleneckBlock.init (py := python) 64 64 false 1 true "layer2_1") 0%nat)
      as [e | [b k']] eqn:H.
    { vm_compute in H. discriminate H. }
    destruct (proj2 (Residual_block_shapes (py := python) Shapes.t Shapes.ops
                       {| Shapes.dims := [1; 64; 56; 56] |} 1 56 56 Shapes_contract
                       ltac:(lia) ltac:(lia)) 64 64 false true _ 0%nat b k' H
                ltac:(discriminate) eq_refl)
      as (y & Hy & Hs).
    exists b, k', y. split; [reflexivity |]. split; [exact Hy | exact Hs].
Defined.

(** ** Shapes through the fusion of the branches *)

Lemma pow2_level_pos (e : nat) (h : Z) : 1 <= h -> 1 <= 2 ^ Z.of_nat e * h.
Proof.
  intros Hh. assert (0 < 2 ^ Z.of_nat e) by (apply Z.pow_pos_nonneg; lia). nia.
Qed.

Lemma pow2_level_succ (e : nat) (h : Z) :
  2 ^ Z.of_nat (S e) * h = 2 * (2 ^ Z.of_nat e * h).
Proof. rewrite Nat2Z.inj_succ, Z.pow_succ_r by lia. lia. Qed.

Lemma pow2_level_add (a b : nat) (h : Z) :
  2 ^ Z.of_nat a * h * 2 ^ Z.of_nat b = 2 ^ Z.of_nat (a + b) * h.
Proof. rewrite Nat2Z.inj_add, Z.pow_add_r by lia. lia. Qed.

(** The contribution of input [j] to output [i], read off the layout. *)
Lemma fuse_contribution_chunk {Tensor : Type} {ops : Pure.Ops Tensor}
  (inc outc : list Z) (mso : bool) (name : string) (n : nat) (fl : FuseLayers.t)
  (n' : nat) (input : list Tensor) (d : Tensor) (i j : nat) :
  runStateT (FuseLayers.init inc outc mso name) n = inr (fl, n') ->
  (i < FuseLayers._actual_ch fl)%nat -> (j < length inc)%nat ->
  fuse_contribution fl input d i j
  = let y := Pure.conv_bn_chain
               (FuseLayout.assign_ids (n + 2 * FuseLayout.offset (length inc) i j)
                  (FuseLayout.chunk inc outc i j))
               (nth j input d) in
    if (i <? j)%nat then Pure.upsample y (2 ^ Z.of_nat (j - i)) "nearest" else y.
Proof.
  intros H Hi Hj. apply FuseLayers_init_layout in H. cbv zeta in H.
  destruct H as (Hact & Hinc & HL & _). rewrite Hact in Hi.
  unfold fuse_contribution, fuse_contribution_at. rewrite Hinc, HL.
  rewrite <- (chunk_length inc outc i j).
  rewrite chunk_length, (layout_slice inc outc _ i j n Hi Hj). reflexivity.
Qed.

Section FuseShapes.
Context {Tensor : Type} {ops : Pure.Ops Tensor}.
Hypothesis HS : Shape_contract.
Variables (N h w : Z).
Hypothesis Hh : 1 <= h.
Hypothesis Hw : 1 <= w.

(** A chain of stride-2 layers as the constructor builds it for [j < i]:
    [len] layers halve the sizes [len] times; the last one gives the width
    of the output branch. *)
Lemma down_chain_shape (cj ci : Z) (m len a id e : nat) (x : Tensor) :
  (a + len = m)%nat -> (len <= e)%nat ->
  Pure.shape x = level_shape N cj e h w ->
  Pure.shape
    (Pure.conv_bn_chain
       (FuseLayout.assign_ids id
          (map (fun k =>
                  let pre_num_filters := if (k =? 0)%nat then cj else cj in
                  if (k =? m - 1)%nat
                  then FuseLayout.layer_at pre_num_filters ci 3 2 None
                  else FuseLayout.layer_at pre_num_filters cj 3 2 (Some "relu"%string))
             (seq a len)))
       x)
  = level_shape N (if (len =? 0)%nat then cj else ci) (e - len) h w.
Proof.
  revert a id e x. induction len as [| len IH]; intros a id e x Ha He Hx.
  - cbn. rewrite Nat.sub_0_r. exact Hx.
  - cbn [seq map FuseLayout.assign_ids]. unfold Pure.conv_bn_chain in *.
    cbn [fold_left Nat.eqb]. cbv zeta.
    destruct e as [| e]; [lia |].
    unfold level_shape in Hx. rewrite !pow2_level_succ in Hx.
    replace (if (a =? 0)%nat then cj else cj) with cj by (destruct (a =? 0)%nat; reflexivity).
    destruct (Nat.eqb_spec a (m - 1)) as [Hlast | Hlast].
    + assert (len = 0%nat) by lia. subst len. cbn [seq map FuseLayout.assign_ids fold_left].
      rewrite (layer_at_shape_half HS cj ci None id x N _ _
                 (pow2_level_pos e h Hh) (pow2_level_pos e w Hw) Hx).
      replace (S e - 1)%nat with e by lia. reflexivity.
    + assert (Hy := layer_at_shape_half HS cj cj (Some "relu"%string) id x N _ _
                      (pow2_level_pos e h Hh) (pow2_level_pos e w Hw) Hx).
      rewrite (IH (S a) (S (S id)) e _ ltac:(lia) ltac:(lia) Hy).
      destruct len; [lia |]. cbn [Nat.eqb].
      replace (S e - S (S len))%nat with (e - S len)%nat by lia. reflexivity.
Qed.

Lemma fold_left_add_shape (f : nat -> Tensor) (S0 : list Z) (l : list nat) (r : Tensor) :
  (forall j, In j l -> Pure.shape (f j) = S0) ->
  Pure.shape r = S0 ->
  Pure.shape (fold_left (fun residual j => Pure.add residual (f j)) l r) = S0.
Proof.
  revert r. induction l as [| j l IH]; intros r Hf Hr; [exact Hr |].
  cbn [fold_left]. apply IH.
  - intros j' Hj'. apply Hf. now right.
  - rewrite (sc_add HS); [exact Hr |]. rewrite Hr. symmetry. apply Hf. now left.
Qed.

(** Every contribution to output [i] has the shape of branch [i]. *)
Lemma fuse_contribution_shape (cs : list Z) (mso : bool) (name : string) (n : nat)
  (fl : FuseLayers.t) (n' : nat) (input : list Tensor) (d : Tensor) (k i j : nat) :
  runStateT (FuseLayers.init cs cs mso name) n = inr (fl, n') ->
  pyramid N cs k h w input -> (length cs <= S k)%nat ->
  (i < FuseLayers._actual_ch fl)%nat -> (i < length cs)%nat -> (j < length cs)%nat ->
  j <> i ->
  Pure.shape (fuse_contribution fl input d i j) = level_shape N (nth i cs 0) (k - i) h w.
Proof.
  intros Hinit [Hlen Hpyr] Hk Hi Hic Hj Hne.
  rewrite (fuse_contribution_chunk cs cs mso name n fl n' input d i j Hinit Hi Hj).
  cbv zeta.
  assert (Hxj : Pure.shape (nth j input d) = level_shape N (nth j cs 0) (k - j) h w).
  { apply Hpyr; apply nth_error_nth'; lia. }
  unfold FuseLayout.chunk.
  destruct (Nat.ltb_spec i j) as [Hij | Hij].
  - cbn [FuseLayout.assign_ids]. unfold Pure.conv_bn_chain. cbn [fold_left].
    unfold level_shape in *.
    rewrite (sc_upsample HS _ _ _ N (nth i cs 0) (2 ^ Z.of_nat (k - j) * h)
               (2 ^ Z.of_nat (k - j) * w)).
    + rewrite !pow2_level_add. replace (k - j + (j - i))%nat with (k - i)%nat by lia.
      reflexivity.
    + apply (layer_at_shape_same HS); [now left | | | exact Hxj]; apply pow2_level_pos;
        assumption.
    + apply Z.pow_pos_nonneg; lia.
  - assert (Hji : (j < i)%nat) by lia.
    assert (Hchain := down_chain_shape (nth j cs 0) (nth i cs 0) (i - j) (i - j) 0
                        (n + 2 * FuseLayout.offset (length cs) i j) (k - j)
                        (nth j input d) eq_refl ltac:(lia) Hxj).
    replace (k - j - (i - j))%nat with (k - i)%nat in Hchain by lia.
    destruct (Nat.eqb_spec (i - j) 0) as [? | _]; [lia |].
    exact Hchain.
Qed.

Lemma fused_output_shape (cs : list Z) (mso : bool) (name : string) (n : nat)
  (fl : FuseLayers.t) (n' : nat) (input : list Tensor) (d : Tensor) (k i : nat) :
  runStateT (FuseLayers.init cs cs mso name) n = inr (fl, n') ->
  pyramid N cs k h w input -> (length cs <= S k)%nat ->
  (i < FuseLayers._actual_ch fl)%nat -> (i < length cs)%nat ->
  Pure.shape (fused_output fl input d i) = level_shape N (nth i cs 0) (k - i) h w.
Proof.
  intros Hinit Hpyr Hk Hi Hic. unfold fused_output.
  rewrite (sc_relu HS).
  apply (fold_left_add_shape (fun j => fuse_contribution fl input d i j)).
  - intros j Hj. unfold other_branches in Hj. apply filter_In in Hj.
    destruct Hj as [Hj Hne]. apply in_seq in Hj.
    destruct (FuseLayers_init_attrs _ _ _ _ _ _ _ Hinit) as [Hinc _].
    rewrite Hinc in Hj.
    apply (fuse_contribution_shape cs mso name n fl n' input d k i j Hinit Hpyr Hk Hi Hic);
      [lia |].
    intros ->. rewrite Nat.eqb_refl in Hne. discriminate.
  - destruct Hpyr as [Hlen Hpyr]. apply Hpyr; apply nth_error_nth'; lia.
Qed.

End FuseShapes.

Section StageShapes.
Context {Tensor : Type} {ops : Pure.Ops Tensor}.
Hypothesis HS : Shape_contract.
Variables (N h w : Z).
Hypothesis Hh : 1 <= h.
Hypothesis Hw : 1 <= w.

Lemma FuseLayers_forward_pyramid (cs : list Z) (mso : bool) (name : string) (n : nat)
  (fl : FuseLayers.t) (n' : nat) (k : nat) (input : list Tensor) :
  runStateT (FuseLayers.init cs cs mso name) n = inr (fl, n') ->
  cs <> [] -> (length cs <= S k)%nat ->
  pyramid N cs k h w input ->
  exists outs,
    FuseLayers.forward fl input = inr outs
    /\ pyramid N (if mso then cs else firstn 1 cs) k h w outs.
Proof.
  intros Hinit Hne Hk Hpyr.
  destruct (FuseLayers_forward_outputs cs cs mso name n fl n' input Hinit (proj1 Hpyr)
              (fun _ => Hne)) as (outs & Hrun & Hlen & Hmap).
  destruct (FuseLayers_init_attrs _ _ _ _ _ _ _ Hinit) as [_ Hact].
  exists outs. split; [exact Hrun |].
  assert (Hcs : length (if mso then cs else firstn 1 cs)
                = (if mso then length cs else 1%nat)).
  { destruct mso; [reflexivity |]. destruct cs; [contradiction | reflexivity]. }
  split; [congruence |].
  intros j c x Hc Hx.
  assert (Hj : (j < FuseLayers._actual_ch fl)%nat).
  { apply nth_error_Some_lt in Hx. rewrite Hact. lia. }
  assert (Hjc : (j < length cs)%nat).
  { apply nth_error_Some_lt in Hc. rewrite Hcs in Hc.
    destruct mso; [exact Hc |]. destruct cs; [contradiction | cbn; lia]. }
  assert (Hcj : c = nth j cs 0).
  { symmetry. apply nth_error_nth.
    destruct mso; [exact Hc |].
    rewrite nth_error_firstn in Hc. destruct (j <? 1)%nat; [exact Hc | discriminate]. }
  rewrite (Hmap x) in Hx. unfold range in Hx.
  rewrite nth_error_map, nth_error_seq in Hx.
  destruct (Nat.ltb_spec j (FuseLayers._actual_ch fl)); [| lia].
  cbn in Hx. injection Hx as Hx. rewrite <- Hx at 1. rewrite Hcj.
  exact (fused_output_shape HS N h w Hh Hw cs mso name n fl n' input x k j Hinit Hpyr
           Hk Hj Hjc).
Qed.

Lemma branch_value_shape {py : Interpreter}
  (cs : list Z) (bn : Z) (se : bool) (name : string) (i : nat)
  (row : list BasicBlock.t) (x : Tensor) (c : Z) (e : nat) :
  (forall j b, nth_error row j = Some b -> branch_block cs cs se name i j b) ->
  nth_error cs i = Some c ->
  Pure.shape x = level_shape N c e h w ->
  Pure.shape (branch_value row x) = level_shape N c e h w.
Proof.
  intros Hrow Hc. revert x.
  assert (Hall : Forall (fun b => exists nm q q',
                           runStateT (BasicBlock.init c c 1 se false nm) q = inr (b, q'))
                   row).
  { apply Forall_forall. intros b Hb. apply In_nth_error in Hb. destruct Hb as (j & Hj).
    destruct (Hrow j b Hj) as (in_ch & out_i & q & q' & Hout & Hin & Hinit).
    rewrite Hc in Hout. injection Hout as <-.
    assert (in_ch = c) by (destruct (j =? 0)%nat; congruence). subst in_ch. eauto. }
  clear Hrow. unfold branch_value.
  induction Hall as [| b row (nm & q & q' & Hb) _ IH]; intros x Hx; [exact Hx |].
  cbn [fold_left]. apply IH.
  apply (basic_block_shape HS c se nm q b q' x N _ _ Hb
           (pow2_level_pos e h Hh) (pow2_level_pos e w Hw) Hx).
Qed.

Lemma Branches_forward_pyramid {py : Interpreter}
  (cs : list Z) (bn : Z) (se : bool) (name : string)
  (ll : list (list BasicBlock.t)) (k : nat) (x : list Tensor) :
  branch_rows bn cs cs se name ll -> length ll = length cs ->
  pyramid N cs k h w x ->
  pyramid N cs k h w
    (map (fun p => branch_value (nth (fst p) ll []) (snd p)) (enumerate x)).
Proof.
  intros Hrows Hll [Hlen Hpyr]. split.
  { unfold enumerate, range.
    now rewrite length_map, length_combine, length_seq, Nat.min_id. }
  intros j c y Hc Hy.
  rewrite (nth_error_enumerate_map (fun i xi => branch_value (nth i ll []) xi)) in Hy.
  destruct (nth_error x j) as [xj |] eqn:Hxj; [| discriminate].
  cbn in Hy. injection Hy as <-.
  destruct (nth_error_lt_Some ll j) as (row & Hrow).
  { apply nth_error_Some_lt in Hc. lia. }
  rewrite (nth_error_nth _ _ _ Hrow).
  apply (branch_value_shape cs bn se name j row xj c (k - j)
           (proj2 (Hrows j row Hrow)) Hc).
  apply Hpyr; assumption.
Qed.

Lemma HighResolutionModule_forward_pyramid {py : Interpreter}
  (cs : list Z) (se mso : bool)
  (name : string) (n : nat) (hm : HighResolutionModule.t) (n' : nat) (k : nat)
  (x : list Tensor) :
  runStateT (HighResolutionModule.init cs cs se mso name) n = inr (hm, n') ->
  cs <> [] -> (length cs <= S k)%nat ->
  pyramid N cs k h w x ->
  exists outs,
    HighResolutionModule.forward hm x = inr outs
    /\ pyramid N (if mso then cs else firstn 1 cs) k h w outs.
Proof.
  intros H Hne Hk Hpyr. apply HighResolutionModule_init_inv in H.
  destruct H as (n1 & Hb & Hf).
  apply Branches_init_rows in Hb. destruct Hb as [Hlen Hrows].
  unfold HighResolutionModule.forward.
  destruct (HighResolutionModule.branches_func hm) as [ll].
  cbn [Branches.basic_block_list] in *.
  rewrite (proj1 (Branches_forward_value 4 cs cs se name ll x Hrows))
    by (rewrite (proj1 Hpyr); lia).
  cbn [bind Monad_either].
  destruct (FuseLayers_forward_pyramid cs mso name n1 _ n' k _ Hf Hne Hk
              (Branches_forward_pyramid cs 4 se name ll k x Hrows Hlen Hpyr))
    as (outs & Hrun & Hout).
  rewrite Hrun. exists outs. split; [reflexivity | exact Hout].
Qed.

Lemma Stage_forward_pyramid {py : Interpreter}
  (cs : list Z) (nm : Z) (se mso : bool) (name : string)
  (n : nat) (st : Stage.t) (n' : nat) (k : nat) (x : list Tensor) :
  runStateT (Stage.init cs nm cs se mso name) n = inr (st, n') ->
  cs <> [] -> (length cs <= S k)%nat ->
  pyramid N cs k h w x ->
  exists outs,
    Stage.forward st x = inr outs
    /\ pyramid N (if (0 <? nm) && negb mso then firstn 1 cs else cs) k h w outs.
Proof.
  intros H Hne Hk Hx. apply Stage_init_inv in H.
  destruct H as (Hnm & Hlen & Hall).
  rewrite Stage_forward_sequential by congruence.
  set (l := Stage.stage_func_list st) in *.
  assert (Hloop : forall (p : nat) (pre suf : list HighResolutionModule.t)
                    (y : list Tensor),
             l = pre ++ suf -> length pre = p -> pyramid N cs k h w y ->
             exists outs,
               foldM HighResolutionModule.forward suf y = inr outs
               /\ pyramid N
                    (if match suf with [] => false | _ => true end && negb mso
                     then firstn 1 cs else cs) k h w outs).
  { intros p pre suf. revert p pre.
    induction suf as [| hm suf IH]; intros p pre y Hl Hp Hy.
    - exists y. split; [reflexivity | exact Hy].
    - assert (Hh' : nth_error l p = Some hm).
      { rewrite Hl, nth_error_app2, Hp, Nat.sub_diag by lia. reflexivity. }
      destruct (Hall p hm Hh') as (k1 & k2 & Hinit).
      assert (Hlast : (Z.of_nat p =? nm - 1) = match suf with [] => true | _ => false end).
      { assert (Hll : length l = (p + S (length suf))%nat)
          by (rewrite Hl, length_app; cbn; lia).
        destruct suf; cbn [length] in Hll.
        - apply Z.eqb_eq. lia.
        - apply Z.eqb_neq. lia. }
      destruct (HighResolutionModule_forward_pyramid _ _ _ _ _ _ _ k y Hinit Hne Hk Hy)
        as (outs1 & Hrun1 & Hout1).
      cbn [foldM]. rewrite Hrun1. cbn [bind Monad_either].
      rewrite Hlast in Hout1.
      destruct suf as [| hm' suf'].
      + exists outs1. cbn [foldM]. split; [reflexivity |].
        cbn [andb negb] in *. destruct mso; exact Hout1.
      + cbn [andb negb] in Hout1.
        destruct (IH (S p) (pre ++ [hm]) outs1) as (outs & Hrun & Hout).
        * rewrite <- app_assoc. exact Hl.
        * rewrite length_app. cbn. lia.
        * exact Hout1.
        * exists outs. split; [exact Hrun | exact Hout]. }
  destruct (Hloop 0%nat [] l x eq_refl eq_refl Hx) as (outs & Hrun & Hout).
  exists outs. split; [exact Hrun |].
  assert (Hl0 : match l with [] => false | _ => true end = (0 <? nm)).
  { destruct l; cbn [length] in Hlen.
    - symmetry. apply Z.ltb_ge. lia.
    - symmetry. apply Z.ltb_lt. lia. }
  rewrite Hl0 in Hout. exact Hout.
Qed.

End StageShapes.

(** X13.  Shapes through [FuseLayers.forward], under the shape rules of the
    framework operations.  For a layer built with the same channel list [cs]
    for its inputs and outputs (as [HighResolutionModule] does), on a pyramid
    of branch tensors (branch [j] of shape [N, cs[j], 2^(k-j) h, 2^(k-j) w],
    each branch half the size of the one before): every other branch [j]
    reaches output [i] with the shape of branch [i], through the 1x1 layer
    and the up-sampling by [2^(j-i)] when [j > i], through the [i - j]
    stride-2 layers when [j < i]; so every addition is between tensors of
    equal shape, and the outputs are again a pyramid of the same shapes (its
    first branch alone without [multi_scale_output]). *)
Theorem FuseLayers_forward_shapes (Tensor : Type) (ops : Pure.Ops Tensor)
  (cs : list Z) (mso : bool) (name : string) (n : nat) (fl : FuseLayers.t) (n' : nat)
  (N h w : Z) (k : nat) (input : list Tensor) :
  Shape_contract -> 1 <= h -> 1 <= w ->
  runStateT (FuseLayers.init cs cs mso name) n = inr (fl, n') ->
  cs <> [] -> (length cs <= S k)%nat ->
  pyramid N cs k h w input ->
  (forall d i j, (i < FuseLayers._actual_ch fl)%nat -> (j < length cs)%nat -> j <> i ->
     Pure.shape (fuse_contribution fl input d i j)
     = level_shape N (nth i cs 0) (k - i) h w)
  /\ exists outs,
       FuseLayers.forward fl input = inr outs
       /\ pyramid N (if mso then cs else firstn 1 cs) k h w outs.
Proof.
  intros HS Hh Hw Hinit Hne Hk Hpyr. split.
  - intros d i j Hi Hj Hij.
    apply (fuse_contribution_shape HS N h w Hh Hw cs mso name n fl n' input d k i j
             Hinit Hpyr Hk Hi); [| exact Hj | exact Hij].
    destruct (FuseLayers_init_attrs _ _ _ _ _ _ _ Hinit) as [_ Hact].
    rewrite Hact in Hi. destruct mso; [exact Hi |].
    destruct cs; [contradiction | cbn; lia].
  - exact (FuseLayers_forward_pyramid HS N h w Hh Hw cs mso name n fl n' k input
             Hinit Hne Hk Hpyr).
Qed.

Lemma FuseLayers_forward_shapes_witness :
  let input := [{| Shapes.dims := [1; 18; 56; 56] |};
                {| Shapes.dims := [1; 36; 28; 28] |};
                {| Shapes.dims := [1; 72; 14; 14] |}] in
  exists fl n' outs,
    runStateT (FuseLayers.init [18; 36; 72] [18; 36; 72] true "st3_1") 0%nat
    = inr (fl, n')
    /\ FuseLayers.forward (P := Pure.paddle (ops := Shapes.ops)) fl input = inr outs
    /\ pyramid (ops := Shapes.ops) 1 [18; 36; 72] 2 14 14 outs.
Proof.
  intros input.
  destruct (runStateT (FuseLayers.init [18; 36; 72] [18; 36; 72] true "st3_1") 0%nat)
    as [e | [fl n']] eqn:H.
  { vm_compute in H. discriminate H. }
  destruct (FuseLayers_forward_shapes Shapes.t Shapes.ops [18; 36; 72] true "st3_1"
              0 fl n' 1 14 14 2 input Shapes_contract ltac:(lia) ltac:(lia) H
              ltac:(discriminate) ltac:(cbn; lia))
    as (_ & outs & Hrun & Hout).
  { split; [reflexivity |].
    intros j c x Hc Hx.
    do 3 (destruct j as [| j];
          [cbn in Hc, Hx; injection Hc as <-; injection Hx as <-; reflexivity |]).
    destruct j; discriminate Hc. }
  exists fl, n', outs. split; [reflexivity |]. split; [exact Hrun | exact Hout].
Defined.

(** X14.  Shapes through a stage, under the shape rules of the framework
    operations.  For a stage built with the same channel list [cs] for
    [num_channels] and [num_filters] (as [HRNet] does), on a pyramid of
    [len(cs)] branch tensors whose first branch has sizes divisible by
    [2^(len(cs)-1)]: every block, every module and the stage itself return a
    pyramid of the same shapes; with [multi_scale_output=False] and at least
    one module, the stage returns the first branch alone. *)
Theorem Stage_forward_shapes {py : Interpreter} (Tensor : Type) (ops : Pure.Ops Tensor)
  (cs : list Z) (nm : Z) (se mso : bool) (name : string) (n : nat) (st : Stage.t)
  (n' : nat) (N h w : Z) (k : nat) (x : list Tensor) :
  Shape_contract -> 1 <= h -> 1 <= w ->
  runStateT (Stage.init cs nm cs se mso name) n = inr (st, n') ->
  cs <> [] -> (length cs <= S k)%nat ->
  pyramid N cs k h w x ->
  exists outs,
    Stage.forward st x = inr outs
    /\ pyramid N (if (0 <? nm) && negb mso then firstn 1 cs else cs) k h w outs.
Proof.
  intros HS Hh Hw Hinit Hne Hk Hpyr.
  exact (Stage_forward_pyramid HS N h w Hh Hw cs nm se mso name n st n' k x
           Hinit Hne Hk Hpyr).
Qed.

Lemma Stage_forward_shapes_witness :
  let x := [{| Shapes.dims := [1; 18; 56; 56] |};
            {| Shapes.dims := [1; 36; 28; 28] |}] in
  exists st n' outs,
    runStateT (Stage.init (py := python) [18; 36] 1 [18; 36] true true "st2") 0%nat = inr (st, n')
    /\ Stage.forward (P := Pure.paddle (ops := Shapes.ops)) st x = inr outs
    /\ pyramid (ops := Shapes.ops) 1 [18; 36] 1 28 28 outs.
Proof.
  intros x.
  destruct (runStateT (Stage.init (py := python) [18; 36] 1 [18; 36] true true "st2") 0%nat)
    as [e | [st n']] eqn:H.
  { vm_compute in H. discriminate H. }
  destruct (Stage_forward_shapes (py := python) Shapes.t Shapes.ops [18; 36] 1 true true "st2"
              0 st n' 1 28 28 1 x Shapes_contract ltac:(lia) ltac:(lia) H
              ltac:(discriminate) ltac:(cbn; lia))
    as (outs & Hrun & Hout).
  { split; [reflexivity |].
    intros j c y Hc Hy.
    do 2 (destruct j as [| j];
          [cbn in Hc, Hy; injection Hc as <-; injection Hy as <-; reflexivity |]).
    destruct j; discriminate Hc. }
  exists st, n', outs. split; [reflexivity |]. split; [exact Hrun | exact Hout].
Defined.

(** ** Shapes through the transitions and the whole network *)

Section NetShapes.
Context {Tensor : Type} {ops : Pure.Ops Tensor}.
Hypothesis HS : Shape_contract.
Variables (N h w : Z).
Hypothesis Hh : 1 <= h.
Hypothesis Hw : 1 <= w.

Lemma TransitionLayer_forward_pyramid (inc outc : list Z) (name : string) (n : nat)
  (tl : TransitionLayer.t) (n' : nat) (k : nat) (x : list Tensor) :
  runStateT (TransitionLayer.init inc outc name) n = inr (tl, n') ->
  (length outc <= S (length inc))%nat -> (length outc <= S k)%nat ->
  pyramid N inc k h w x ->
  exists outs,
    TransitionLayer.forward tl x = inr outs /\ pyramid N outc k h w outs.
Proof.
  intros H Hlen Hk [Hx Hpyr].
  destruct (TransitionLayer_forward_outputs _ _ _ _ _ _ x H ltac:(lia))
    as (outs & Hrun & Hlo & Hget).
  apply TransitionLayer_init_inv in H. destruct H as [Hl _].
  exists outs. split; [exact Hrun |]. split; [exact Hlo |].
  intros i c o Hc Ho.
  destruct (nth_error_lt_Some (TransitionLayer.conv_bn_func_list tl) i) as (e & He).
  { apply nth_error_Some_lt in Hc. lia. }
  destruct (Hget i e He) as ((out_i & Hout_i & Hent) & (o' & Ho' & Hrel)).
  rewrite Hc in Hout_i. injection Hout_i as <-.
  rewrite Ho in Ho'. injection Ho' as <-.
  unfold transition_output in Hrel.
  destruct (Nat.ltb_spec i (length inc)) as [Hlt | Hge].
  - destruct Hent as (in_i & Hin_i & Hent).
    destruct (nth_error_lt_Some x i ltac:(lia)) as (xi & Hxi).
    assert (Hsh := Hpyr i in_i xi Hin_i Hxi).
    destruct (Z.eqb_spec in_i c) as [-> | Hne].
    + subst e. congruence.
    + destruct Hent as (cv & q & -> & Hcv).
      rewrite ConvBNLayer_init_run in Hcv. injection Hcv as <-.
      destruct (Nat.ltb_spec i (length x)) as [_ | ?]; [| lia].
      destruct Hrel as (x_i & Hx_i & ->).
      rewrite Hxi in Hx_i. injection Hx_i as <-.
      apply (layer_at_shape_same HS in_i c 3 (Some "relu"%string) q xi N);
        [now right | apply pow2_level_pos; exact Hh | apply pow2_level_pos; exact Hw
        | exact Hsh].
  - destruct Hent as (in_last & cv & q & Hlast & -> & Hcv).
    rewrite ConvBNLayer_init_run in Hcv. injection Hcv as <-.
    destruct (Nat.ltb_spec i (length x)) as [? | _]; [lia |].
    destruct Hrel as (x_last & Hxl & ->).
    assert (Hio : (i < length outc)%nat) by (eapply nth_error_Some_lt; exact Hc).
    assert (Hi : i = length inc) by lia.
    rewrite Hx in Hxl.
    assert (Hsh := Hpyr _ in_last x_last Hlast Hxl).
    assert (Hinc : (1 <= length inc)%nat).
    { destruct inc; [discriminate Hlast | cbn; lia]. }
    replace (k - (length inc - 1))%nat with (S (k - i)) in Hsh by lia.
    unfold level_shape in Hsh. rewrite !pow2_level_succ in Hsh.
    apply (layer_at_shape_half HS in_last c (Some "relu"%string) q x_last N _ _
             (pow2_level_pos (k - i) h Hh) (pow2_level_pos (k - i) w Hw) Hsh).
Qed.

Lemma LastClsOut_forward_pyramid {py : Interpreter}
  (cs nfs : list Z) (se : bool) (name : string)
  (n : nat) (l : LastClsOut.t) (n' : nat) (k : nat) (x : list Tensor) :
  runStateT (LastClsOut.init cs se nfs name) n = inr (l, n') ->
  pyramid N cs k h w x ->
  exists outs,
    LastClsOut.forward l x = inr outs
    /\ pyramid N (map (fun nf => nf * 4) (firstn (length cs) nfs)) k h w outs.
Proof.
  intros H [Hx Hpyr]. apply LastClsOut_init_blocks_at in H. destruct H as [Hlen Hall].
  destruct l as [fl]. cbn [LastClsOut.func_list] in *.
  assert (Hnfs : (length cs <= length nfs)%nat).
  { destruct cs as [| c0 cs']; [cbn; lia |].
    destruct (Nat.le_gt_cases (length (c0 :: cs')) (length nfs)) as [? | Hgt];
      [assumption |].
    destruct (nth_error_lt_Some fl (length nfs) ltac:(lia)) as (b & Hb).
    destruct (Hall _ b Hb) as (? & nf & ? & ? & _ & Hnf & _).
    apply nth_error_Some_lt in Hnf. lia. }
  assert (Hlo : length (map (fun nf => nf * 4) (firstn (length cs) nfs)) = length cs).
  { rewrite length_map, firstn_length_le; [reflexivity | exact Hnfs]. }
  destruct fl as [| d fl'] eqn:Hfl.
  { destruct cs; [| discriminate Hlen]. destruct x; [| discriminate Hx].
    exists []. split; [reflexivity |]. split; [reflexivity |].
    intros [| j] c y Hc; discriminate Hc. }
  rewrite <- Hfl in *. clear Hfl.
  destruct (LastClsOut_forward_value cs nfs se name fl x d Hall) as [Hok _].
  rewrite Hok by lia.
  eexists. split; [reflexivity |]. split.
  { unfold enumerate, range.
    rewrite length_map, length_combine, length_seq, Nat.min_id. lia. }
  intros j c y Hc Hy.
  rewrite (nth_error_enumerate_map
             (fun i xi => bottleneck_block_value (nth i fl d) xi)) in Hy.
  destruct (nth_error x j) as [xj |] eqn:Hxj; [| discriminate].
  cbn in Hy. injection Hy as <-.
  destruct (nth_error_lt_Some fl j) as (b & Hb).
  { apply nth_error_Some_lt in Hxj. lia. }
  rewrite (nth_error_nth _ _ _ Hb).
  destruct (Hall j b Hb) as (in_j & nf_j & q & q' & Hin & Hnf & Hinit).
  rewrite nth_error_map, nth_error_firstn in Hc.
  destruct (Nat.ltb_spec j (length cs)) as [_ | ?];
    [| apply nth_error_Some_lt in Hin; lia].
  rewrite Hnf in Hc. cbn in Hc. injection Hc as <-.
  apply (bottleneck_block_shape HS in_j nf_j se true _ q b q' xj N _ _ Hinit
           ltac:(discriminate) (pow2_level_pos (k - j) h Hh)
           (pow2_level_pos (k - j) w Hw)).
  apply Hpyr; assumption.
Qed.

End NetShapes.

(** X15.  Shapes through a transition, under the shape rules of the framework
    operations.  For a [TransitionLayer] with at most one output branch more
    than input branches, on a pyramid of [len(in_channels)] branch tensors:
    the outputs are a pyramid with the channel counts [out_channels]; a branch
    whose width changes keeps its size (stride-1 layer), and the new branch
    has half the size of the last input branch (stride-2 layer), which must
    have even sizes. *)
Theorem TransitionLayer_forward_shapes (Tensor : Type) (ops : Pure.Ops Tensor)
  (inc outc : list Z) (name : string) (n : nat) (tl : TransitionLayer.t) (n' : nat)
  (N h w : Z) (k : nat) (x : list Tensor) :
  Shape_contract -> 1 <= h -> 1 <= w ->
  runStateT (TransitionLayer.init inc outc name) n = inr (tl, n') ->
  (length outc <= S (length inc))%nat -> (length outc <= S k)%nat ->
  pyramid N inc k h w x ->
  exists outs,
    TransitionLayer.forward tl x = inr outs /\ pyramid N outc k h w outs.
Proof.
  intros HS Hh Hw Hinit Hlen Hk Hpyr.
  exact (TransitionLayer_forward_pyramid HS N h w Hh Hw inc outc name n tl n' k x
           Hinit Hlen Hk Hpyr).
Qed.

Lemma TransitionLayer_forward_shapes_witness :
  let x := [{| Shapes.dims := [1; 18; 56; 56] |};
            {| Shapes.dims := [1; 36; 28; 28] |}] in
  exists tl n' outs,
    runStateT (TransitionLayer.init [18; 36] [18; 36; 72] "tr2") 0%nat = inr (tl, n')
    /\ TransitionLayer.forward (P := Pure.paddle (ops := Shapes.ops)) tl x = inr outs
    /\ pyramid (ops := Shapes.ops) 1 [18; 36; 72] 2 14 14 outs.
Proof.
  intros x.
  destruct (runStateT (TransitionLayer.init [18; 36] [18; 36; 72] "tr2") 0%nat)
    as [e | [tl n']] eqn:H.
  { vm_compute in H. discriminate H. }
  destruct (TransitionLayer_forward_shapes Shapes.t Shapes.ops [18; 36] [18; 36; 72]
              "tr2" 0 tl n' 1 14 14 2 x Shapes_contract ltac:(lia) ltac:(lia) H
              ltac:(cbn; lia) ltac:(cbn; lia))
    as (outs & Hrun & Hout).
  { split; [reflexivity |].
    intros j c y Hc Hy.
    do 2 (destruct j as [| j];
          [cbn in Hc, Hy; injection Hc as <-; injection Hy as <-; reflexivity |]).
    destruct j; discriminate Hc. }
  exists tl, n', outs. split; [reflexivity |]. split; [exact Hrun | exact Hout].
Defined.

(** X16.  Shapes through [LastClsOut.forward], under the shape rules of the
    framework operations.  For a constructed [LastClsOut] on a pyramid of
    [len(num_channel_list)] branch tensors with the channel counts
    [num_channel_list]: every block receives the channel count it was built
    for, the shortcut projection and the third convolution of a block produce
    the same shape, and the outputs are a pyramid of the same sizes with the
    channel counts [num_filters_list[idx] * 4]. *)
Theorem LastClsOut_forward_shapes {py : Interpreter} (Tensor : Type)
  (ops : Pure.Ops Tensor) (cs nfs : list Z) (se : bool) (name : string) (n : nat)
  (l : LastClsOut.t) (n' : nat) (N h w : Z) (k : nat) (x : list Tensor) :
  Shape_contract -> 1 <= h -> 1 <= w ->
  runStateT (LastClsOut.init cs se nfs name) n = inr (l, n') ->
  pyramid N cs k h w x ->
  exists outs,
    LastClsOut.forward l x = inr outs
    /\ pyramid N (map (fun nf => nf * 4) (firstn (length cs) nfs)) k h w outs.
Proof.
  intros HS Hh Hw Hinit Hpyr.
  exact (LastClsOut_forward_pyramid HS N h w Hh Hw cs nfs se name n l n' k x Hinit Hpyr).
Qed.

Lemma LastClsOut_forward_shapes_witness :
  let x := [{| Shapes.dims := [1; 18; 56; 56] |};
            {| Shapes.dims := [1; 36; 28; 28] |};
            {| Shapes.dims := [1; 72; 14; 14] |};
            {| Shapes.dims := [1; 144; 7; 7] |}] in
  exists l n' outs,
    runStateT (LastClsOut.init (py := python) [18; 36; 72; 144] true
                 [32; 64; 128; 256] "cls_head") 0%nat = inr (l, n')
    /\ LastClsOut.forward (P := Pure.paddle (ops := Shapes.ops)) l x = inr outs
    /\ pyramid (ops := Shapes.ops) 1 [128; 256; 512; 1024] 3 7 7 outs.
Proof.
  intros x.
  destruct (runStateT (LastClsOut.init (py := python) [18; 36; 72; 144] true
                         [32; 64; 128; 256] "cls_head") 0%nat)
    as [e | [l n']] eqn:H.
  { vm_compute in H. discriminate H. }
  destruct (LastClsOut_forward_shapes (py := python) Shapes.t Shapes.ops
              [18; 36; 72; 144] [32; 64; 128; 256] true "cls_head" 0 l n' 1 7 7 3 x
              Shapes_contract ltac:(lia) ltac:(lia) H)
    as (outs & Hrun & Hout).
  { split; [reflexivity |].
    intros j c y Hc Hy.
    do 4 (destruct j as [| j];
          [cbn in Hc, Hy; injection Hc as <-; injection Hy as <-; reflexivity |]).
    destruct j; discriminate Hc. }
  exists l, n', outs. split; [reflexivity |]. split; [exact Hrun | exact Hout].
Defined.
